(** * agendaNL: the scheduling and calendar engine

    A shallow embedding of the surgery agenda application (a single-file
    React/TypeScript program) and of the parts of the ECMAScript host it
    relies on (strings as sequences of UTF-16 code units, [Date] time
    values, IEEE-754 numbers), followed by the properties of its filter
    pipeline, calendar grid, reschedule computation, aggregates and sync
    controller, and of its forms, navigation, day lists and reports. The
    sync controller is there twice: its handlers as they are written, and
    the operations as they run, with the renders of React between the
    steps and the reload that each notification starts. *)

From Stdlib Require Import ZArith NArith List Bool Lia String Ascii Floats.
From Stdlib Require Import Permutation Sorted.
Import ListNotations.
Local Open Scope Z_scope.

(* ================================================================== *)
(** * Host strings *)
(* ================================================================== *)

(** A JavaScript string is a finite sequence of UTF-16 code units. *)
Module Str.

Definition jsstring := list N.

(** Code units of an ASCII literal. *)
Definition str (s : string) : jsstring :=
  map N_of_ascii (list_ascii_of_string s).

(** [a === b] on strings. *)
Fixpoint eqb (a b : jsstring) : bool :=
  match a, b with
  | [], [] => true
  | x :: a', y :: b' => N.eqb x y && eqb a' b'
  | _, _ => false
  end.

(** Truthiness of a string: every string but the empty one. *)
Definition truthy (s : jsstring) : bool :=
  match s with [] => false | _ :: _ => true end.

(** [Array.prototype.includes] on an array of strings. *)
Definition arrayIncludes (l : list jsstring) (x : jsstring) : bool :=
  existsb (fun y => eqb y x) l.

(** [s] starts with [p]. *)
Fixpoint startsWith (s p : jsstring) : bool :=
  match p, s with
  | [], _ => true
  | _ :: _, [] => false
  | y :: p', x :: s' => N.eqb x y && startsWith s' p'
  end.

(** [String.prototype.includes]: [q] occurs in [s] at some position. *)
Fixpoint includes (s q : jsstring) : bool :=
  startsWith s q ||
  match s with
  | [] => false
  | _ :: s' => includes s' q
  end.

(** WhiteSpace and LineTerminator code points of ECMAScript, the ones
    [String.prototype.trim] strips. All lie in the basic plane. *)
Definition isWhiteSpace (c : N) : bool :=
  ((9 <=? c) && (c <=? 13) || (c =? 32) || (c =? 160) || (c =? 5760)
   || (8192 <=? c) && (c <=? 8202) || (c =? 8232) || (c =? 8233)
   || (c =? 8239) || (c =? 8287) || (c =? 12288) || (c =? 65279))%N.

Fixpoint trimStart (s : jsstring) : jsstring :=
  match s with
  | [] => []
  | c :: s' => if isWhiteSpace c then trimStart s' else s
  end.

Definition trimEnd (s : jsstring) : jsstring := rev (trimStart (rev s)).

Definition trim (s : jsstring) : jsstring := trimEnd (trimStart s).

End Str.
Import Str.

(* ================================================================== *)
(** * The host environment *)
(* ================================================================== *)

(** What the program takes from the browser it runs in and does not fix
    itself: the local time zone, the date formats [Date.parse] accepts
    beyond the ECMAScript Date Time String Format, and the Unicode case
    mapping. *)
Record Host := {
  (** LocalTZA(t, isUTC): the offset of local time from UTC, in
      milliseconds, at the UTC instant [t] ([isUTC = true]) or at the local
      wall-clock time [t] ([isUTC = false]). *)
  LocalTZA : Z -> bool -> Z;
  (** The implementation-specific fall-back of [Date.parse]; [None] is NaN. *)
  legacyDateParse : jsstring -> option Z;
  (** [String.prototype.toLowerCase]. *)
  toLowerCase : jsstring -> jsstring;
  (** The message of the TypeError thrown on reading the named property of
      [null]. *)
  nullPropertyMessage : jsstring -> jsstring
}.

(* ================================================================== *)
(** * Host dates (ECMAScript Date objects) *)
(* ================================================================== *)

Module ESDate.

Definition msPerSecond : Z := 1000.
Definition msPerMinute : Z := 60000.
Definition msPerHour : Z := 3600000.
Definition msPerDay : Z := 86400000.

Definition Day (t : Z) : Z := t / msPerDay.
Definition TimeWithinDay (t : Z) : Z := t mod msPerDay.

Definition DaysInYear (y : Z) : Z :=
  if negb (y mod 4 =? 0) then 365
  else if negb (y mod 100 =? 0) then 366
  else if negb (y mod 400 =? 0) then 365
  else 366.

Definition DayFromYear (y : Z) : Z :=
  365 * (y - 1970) + (y - 1969) / 4 - (y - 1901) / 100 + (y - 1601) / 400.

Definition TimeFromYear (y : Z) : Z := msPerDay * DayFromYear y.

(** YearFromTime(t) is the largest year [y] with TimeFromYear(y) <= t. It is
    computed from an estimate that is off by at most one year. *)
Definition YearFromDay (d : Z) : Z :=
  let y := 1970 + (400 * d) / 146097 in
  if d <? DayFromYear y then y - 1
  else if DayFromYear (y + 1) <=? d then y + 1
  else y.

Definition YearFromTime (t : Z) : Z := YearFromDay (Day t).

Definition InLeapYear (t : Z) : Z :=
  if DaysInYear (YearFromTime t) =? 366 then 1 else 0.

Definition DayWithinYear (t : Z) : Z := Day t - DayFromYear (YearFromTime t).

Definition MonthFromTime (t : Z) : Z :=
  let d := DayWithinYear t in
  let leap := InLeapYear t in
  if d <? 31 then 0
  else if d <? 59 + leap then 1
  else if d <? 90 + leap then 2
  else if d <? 120 + leap then 3
  else if d <? 151 + leap then 4
  else if d <? 181 + leap then 5
  else if d <? 212 + leap then 6
  else if d <? 243 + leap then 7
  else if d <? 273 + leap then 8
  else if d <? 304 + leap then 9
  else if d <? 334 + leap then 10
  else 11.

Definition DateFromTime (t : Z) : Z :=
  let d := DayWithinYear t in
  let leap := InLeapYear t in
  match MonthFromTime t with
  | 0 => d + 1
  | 1 => d - 30
  | 2 => d - 58 - leap
  | 3 => d - 89 - leap
  | 4 => d - 119 - leap
  | 5 => d - 150 - leap
  | 6 => d - 180 - leap
  | 7 => d - 211 - leap
  | 8 => d - 242 - leap
  | 9 => d - 272 - leap
  | 10 => d - 303 - leap
  | _ => d - 333 - leap
  end.

Definition WeekDay (t : Z) : Z := (Day t + 4) mod 7.

Definition HourFromTime (t : Z) : Z := (t / msPerHour) mod 24.
Definition MinFromTime (t : Z) : Z := (t / msPerMinute) mod 60.
Definition SecFromTime (t : Z) : Z := (t / msPerSecond) mod 60.
Definition msFromTime (t : Z) : Z := t mod msPerSecond.

Definition LocalTime (host : Host) (t : Z) : Z := t + LocalTZA host t true.
Definition UTC (host : Host) (t : Z) : Z := t - LocalTZA host t false.

Definition MakeTime (hour min sec ms : Z) : Z :=
  hour * msPerHour + min * msPerMinute + sec * msPerSecond + ms.

(** Days from the start of a year to the start of its month [mn] (0-11). *)
Definition daysBeforeMonth (leap mn : Z) : Z :=
  match mn with
  | 0 => 0
  | 1 => 31
  | 2 => 59 + leap
  | 3 => 90 + leap
  | 4 => 120 + leap
  | 5 => 151 + leap
  | 6 => 181 + leap
  | 7 => 212 + leap
  | 8 => 243 + leap
  | 9 => 273 + leap
  | 10 => 304 + leap
  | _ => 334 + leap
  end.

(** MakeDay: months outside 0-11 carry into the year, dates outside the
    month carry into the neighbouring months. *)
Definition MakeDay (year month date : Z) : Z :=
  let ym := year + month / 12 in
  let mn := month mod 12 in
  let leap := if DaysInYear ym =? 366 then 1 else 0 in
  DayFromYear ym + daysBeforeMonth leap mn + date - 1.

Definition MakeDate (day time : Z) : Z := day * msPerDay + time.

Definition maxTime : Z := 8640000000000000.

(** A time value a Date object can hold. *)
Definition validTime (t : Z) : Prop := - maxTime <= t <= maxTime.

Definition TimeClip (t : Z) : option Z :=
  if (- maxTime <=? t) && (t <=? maxTime) then Some t else None.

(** A Date object is its time value; [None] is NaN, the Invalid Date. The
    numbers its methods return are integers or NaN ([None]). *)
Definition Date := option Z.

(** [a === b] on such numbers: NaN equals nothing. *)
Definition numEq (a b : option Z) : bool :=
  match a, b with
  | Some x, Some y => x =? y
  | _, _ => false
  end.

(** [a < b] on such numbers and, through [valueOf], on Date objects. *)
Definition numLt (a b : option Z) : bool :=
  match a, b with
  | Some x, Some y => x <? y
  | _, _ => false
  end.

Definition numGt (a b : option Z) : bool := numLt b a.

Definition numLe (a b : option Z) : bool :=
  match a, b with
  | Some x, Some y => x <=? y
  | _, _ => false
  end.

Definition localField (f : Z -> Z) (host : Host) (d : Date) : option Z :=
  option_map (fun t => f (LocalTime host t)) d.

Definition getFullYear := localField YearFromTime.
Definition getMonth := localField MonthFromTime.
Definition getDate := localField DateFromTime.
Definition getDay := localField WeekDay.
Definition getHours := localField HourFromTime.
Definition getMinutes := localField MinFromTime.


Definition getTime (d : Date) : option Z := d.

(** MakeFullYear: a year from 0 to 99 means 1900 + year. *)
Definition MakeFullYear (y : Z) : Z :=
  if (0 <=? y) && (y <=? 99) then 1900 + y else y.

(** [new Date(year, month, date, hours, minutes, seconds, ms)]: the fields
    are read as local time. A NaN argument gives the Invalid Date. The
    arguments the program passes come from the methods above, so they are
    integers far below 2^53 and the host's arithmetic on them is exact. *)
Definition newDateFields (host : Host) (year month date hours minutes seconds ms : option Z)
    : Date :=
  match year, month, date, hours, minutes, seconds, ms with
  | Some y, Some m, Some dt, Some h, Some mi, Some s, Some milli =>
      TimeClip (UTC host (MakeDate (MakeDay (MakeFullYear y) m dt) (MakeTime h mi s milli)))
  | _, _, _, _, _, _, _ => None
  end.

(** [new Date(year, month, date)] and [new Date(year, month, date, hours,
    minutes)]: the missing arguments are 0. *)
Definition newDateYMD (host : Host) (year month date : option Z) : Date :=
  newDateFields host year month date (Some 0) (Some 0) (Some 0) (Some 0).

Definition newDateYMDHM (host : Host) (year month date hours minutes : option Z) : Date :=
  newDateFields host year month date hours minutes (Some 0) (Some 0).

(** [d.setHours(hour, min, sec, ms)], as the new value of [d]. *)
Definition setHours (host : Host) (d : Date) (hour min sec ms : Z) : Date :=
  match d with
  | None => None
  | Some tv =>
      let t := LocalTime host tv in
      TimeClip (UTC host (MakeDate (Day t) (MakeTime hour min sec ms)))
  end.

(** ** Date strings *)

(** A thrown exception, by its [message]. *)
Record JsError := { message : jsstring }.

Inductive completion (A : Type) : Type :=
| Return (a : A)
| Throw (e : JsError).
Arguments Return {A} a.
Arguments Throw {A} e.

Definition digitChar (d : Z) : N := Z.to_N (48 + d).

(** The last [k] decimal digits of [n], most significant first. *)
Fixpoint pad (k : nat) (n : Z) : jsstring :=
  match k with
  | O => []
  | S k' => digitChar ((n / 10 ^ Z.of_nat k') mod 10) :: pad k' n
  end.

Definition isoYear (y : Z) : jsstring :=
  if (0 <=? y) && (y <=? 9999) then pad 4 y
  else if y <? 0 then 45%N :: pad 6 (- y)
  else 43%N :: pad 6 y.

(** YYYY-MM-DDTHH:mm:ss.sssZ, in UTC. *)
Definition isoString (t : Z) : jsstring :=
  isoYear (YearFromTime t) ++ 45%N :: pad 2 (MonthFromTime t + 1)
  ++ 45%N :: pad 2 (DateFromTime t)
  ++ 84%N :: pad 2 (HourFromTime t)
  ++ 58%N :: pad 2 (MinFromTime t)
  ++ 58%N :: pad 2 (SecFromTime t)
  ++ 46%N :: pad 3 (msFromTime t) ++ [90%N].

Definition invalidTimeValue : JsError :=
  {| message := str "Invalid time value" |}.

(** [d.toISOString()]: a RangeError on the Invalid Date. *)
Definition toISOString (d : Date) : completion jsstring :=
  match d with
  | Some t => Return (isoString t)
  | None => Throw invalidTimeValue
  end.

Definition digit (c : N) : option Z :=
  if ((48 <=? c) && (c <=? 57))%N then Some (Z.of_N c - 48) else None.

(** Reads exactly [k] decimal digits. *)
Fixpoint digits (k : nat) (acc : Z) (s : jsstring) : option (Z * jsstring) :=
  match k with
  | O => Some (acc, s)
  | S k' =>
      match s with
      | c :: s' =>
          match digit c with
          | Some d => digits k' (10 * acc + d) s'
          | None => None
          end
      | [] => None
      end
  end.

(** YYYY, or the expanded year with a sign and six digits; -000000 is not
    a year. *)
Definition parseYear (s : jsstring) : option (Z * jsstring) :=
  match s with
  | c :: s' =>
      if (c =? 43)%N then digits 6 0 s'
      else if (c =? 45)%N then
        match digits 6 0 s' with
        | Some (y, r) => if y =? 0 then None else Some (- y, r)
        | None => None
        end
      else digits 4 0 s
  | [] => None
  end.

(** The optional -MM and -DD after the year; a missing field is 1. *)
Definition parseMonthDay (s : jsstring) : option (Z * Z * jsstring) :=
  match s with
  | c :: s1 =>
      if (c =? 45)%N then
        match digits 2 0 s1 with
        | Some (m, c2 :: s3) =>
            if (c2 =? 45)%N then
              match digits 2 0 s3 with
              | Some (d, s4) => Some (m, d, s4)
              | None => None
              end
            else Some (m, 1, c2 :: s3)
        | Some (m, []) => Some (m, 1, [])
        | None => None
        end
      else Some (1, 1, s)
  | [] => Some (1, 1, [])
  end.

(** The optional :ss and .sss after HH:mm; a missing field is 0. *)
Definition parseSeconds (s : jsstring) : option (Z * Z * jsstring) :=
  match s with
  | c :: s1 =>
      if (c =? 58)%N then
        match digits 2 0 s1 with
        | Some (sec, c2 :: s3) =>
            if (c2 =? 46)%N then
              match digits 3 0 s3 with
              | Some (ms, s4) => Some (sec, ms, s4)
              | None => None
              end
            else Some (sec, 0, c2 :: s3)
        | Some (sec, []) => Some (sec, 0, [])
        | None => None
        end
      else Some (0, 0, s)
  | [] => Some (0, 0, [])
  end.

(** THH:mm with its optional seconds. *)
Definition parseTime (s : jsstring) : option (Z * Z * Z * Z * jsstring) :=
  match s with
  | c :: s1 =>
      if (c =? 84)%N then
        match digits 2 0 s1 with
        | Some (h, c1 :: s2) =>
            if (c1 =? 58)%N then
              match digits 2 0 s2 with
              | Some (mi, s3) =>
                  match parseSeconds s3 with
                  | Some (sec, ms, s4) => Some (h, mi, sec, ms, s4)
                  | None => None
                  end
              | None => None
              end
            else None
        | _ => None
        end
      else None
  | [] => None
  end.

(** The UTC offset that may end a date-time form: nothing, Z, or a sign
    with HH:mm. The result is (sign, HH, mm). *)
Definition parseOffset (s : jsstring) : option (option (Z * Z * Z)) :=
  match s with
  | [] => Some None
  | c :: s1 =>
      if (c =? 90)%N then
        match s1 with
        | [] => Some (Some (1, 0, 0))
        | _ :: _ => None
        end
      else if ((c =? 43) || (c =? 45))%N then
        match digits 2 0 s1 with
        | Some (hh, c1 :: s2) =>
            if (c1 =? 58)%N then
              match digits 2 0 s2 with
              | Some (mm, []) => Some (Some (if (c =? 43)%N then 1 else -1, hh, mm))
              | _ => None
              end
            else None
        | _ => None
        end
      else None
  end.

Record IsoFields := {
  iso_year : Z;
  iso_month : Z;
  iso_day : Z;
  iso_time : option (Z * Z * Z * Z);
  iso_offset : option (Z * Z * Z)
}.

(** The syntax of the Date Time String Format: a date-only form, or a date
    followed by a time and an optional offset. *)
Definition parseFormat (s : jsstring) : option IsoFields :=
  match parseYear s with
  | Some (y, s1) =>
      match parseMonthDay s1 with
      | Some (m, d, []) =>
          Some {| iso_year := y; iso_month := m; iso_day := d;
                  iso_time := None; iso_offset := None |}
      | Some (m, d, s2) =>
          match parseTime s2 with
          | Some (h, mi, sec, ms, s3) =>
              match parseOffset s3 with
              | Some off =>
                  Some {| iso_year := y; iso_month := m; iso_day := d;
                          iso_time := Some (h, mi, sec, ms); iso_offset := off |}
              | None => None
              end
          | None => None
          end
      | None => None
      end
  | None => None
  end.

(** The legal values of the fields: months 01-12, days 01-31, hours 00-23
    (or 24:00:00 for the end of a day), minutes and seconds 00-59. *)
Definition inBounds (f : IsoFields) : bool :=
  (1 <=? iso_month f) && (iso_month f <=? 12)
  && (1 <=? iso_day f) && (iso_day f <=? 31)
  && match iso_time f with
     | Some (h, mi, sec, ms) =>
         ((h <=? 23) && (mi <=? 59) && (sec <=? 59))
         || ((h =? 24) && (mi =? 0) && (sec =? 0) && (ms =? 0))
     | None => true
     end
  && match iso_offset f with
     | Some (_, hh, mm) => (hh <=? 23) && (mm <=? 59)
     | None => true
     end.

(** The time value of the fields. Without an offset a date-only form is
    UTC and a date-time form is local time. *)
Definition fieldsTime (host : Host) (f : IsoFields) : option Z :=
  let day := MakeDay (iso_year f) (iso_month f - 1) (iso_day f) in
  let time :=
    match iso_time f with
    | Some (h, mi, sec, ms) => MakeTime h mi sec ms
    | None => 0
    end in
  let date := MakeDate day time in
  TimeClip
    match iso_offset f, iso_time f with
    | Some (sign, hh, mm), _ => date - sign * (hh * msPerHour + mm * msPerMinute)
    | None, None => date
    | None, Some _ => UTC host date
    end.

(** [Date.parse]: strings of the format with legal fields are read as the
    format says, with an illegal field they are NaN, and every other string
    is left to the implementation. *)
Definition parse (host : Host) (s : jsstring) : option Z :=
  match parseFormat s with
  | Some f => if inBounds f then fieldsTime host f else None
  | None =>
      match legacyDateParse host s with
      | Some t => TimeClip t
      | None => None
      end
  end.

(** [new Date(string)]. *)
Definition newDateString (host : Host) (s : jsstring) : Date := parse host s.

End ESDate.
Import ESDate.

(* ================================================================== *)
(** * Data types of the application *)
(* ================================================================== *)

Inductive AuthStatus := Pendente | Liberado | Recusado.
Inductive SurgeryStatus := Agendada | Realizada | Cancelada.

(** The runtime value of a status field is the string of its literal. *)
Definition authStatusStr (a : AuthStatus) : jsstring :=
  match a with
  | Pendente => str "Pendente"
  | Liberado => str "Liberado"
  | Recusado => str "Recusado"
  end.

Definition surgeryStatusStr (a : SurgeryStatus) : jsstring :=
  match a with
  | Agendada => str "Agendada"
  | Realizada => str "Realizada"
  | Cancelada => str "Cancelada"
  end.

Record Doctor := { d_id : jsstring; d_name : jsstring; d_color : jsstring }.
Record Hospital := { h_id : jsstring; h_name : jsstring }.
Record InsurancePlan := { p_id : jsstring; p_name : jsstring }.
Record Material := { m_name : jsstring; m_quantity : float }.

Record Surgery := {
  id : jsstring;
  patientName : jsstring;
  mainSurgeonId : jsstring;
  participatingIds : list jsstring;
  dateTime : jsstring;
  hospitalId : jsstring;
  insuranceId : jsstring;
  authStatus : AuthStatus;
  surgeryStatus : SurgeryStatus;
  totalValue : float;
  materials : list Material;
  notes : jsstring
}.

(** The four field filters of the calendar; each is ["all"] or a value. *)
Record AdvancedFilters := {
  f_authStatus : jsstring;
  f_surgeryStatus : jsstring;
  f_hospitalId : jsstring;
  f_insuranceId : jsstring
}.

Definition all : jsstring := Eval cbv in str "all".

Definition noFilters : AdvancedFilters :=
  {| f_authStatus := all; f_surgeryStatus := all;
     f_hospitalId := all; f_insuranceId := all |}.

(* ================================================================== *)
(** * Filter pipeline (CalendarView) *)
(* ================================================================== *)

(** The callback of [surgeries.filter] in [CalendarView.filteredSurgeries],
    one [if (...) return false] per line of the source. *)
Definition keepSurgery (doctorFilter : jsstring) (advancedFilters : AdvancedFilters)
    (s : Surgery) : bool :=
  if negb (eqb doctorFilter all) && negb (eqb (mainSurgeonId s) doctorFilter)
     && negb (arrayIncludes (participatingIds s) doctorFilter)
  then false
  else if negb (eqb (f_authStatus advancedFilters) all)
          && negb (eqb (authStatusStr (authStatus s)) (f_authStatus advancedFilters))
  then false
  else if negb (eqb (f_surgeryStatus advancedFilters) all)
          && negb (eqb (surgeryStatusStr (surgeryStatus s)) (f_surgeryStatus advancedFilters))
  then false
  else if negb (eqb (f_hospitalId advancedFilters) all)
          && negb (eqb (hospitalId s) (f_hospitalId advancedFilters))
  then false
  else if negb (eqb (f_insuranceId advancedFilters) all)
          && negb (eqb (insuranceId s) (f_insuranceId advancedFilters))
  then false
  else true.

Definition filteredSurgeries (surgeries : list Surgery) (doctorFilter : jsstring)
    (advancedFilters : AdvancedFilters) : list Surgery :=
  filter (keepSurgery doctorFilter advancedFilters) surgeries.

(** What the specification asks of a kept surgery. *)
Definition passesDoctor (doctorFilter : jsstring) (s : Surgery) : Prop :=
  doctorFilter <> all ->
  doctorFilter = mainSurgeonId s \/ In doctorFilter (participatingIds s).

Definition passesField (filterValue field : jsstring) : Prop :=
  filterValue <> all -> field = filterValue.

Definition passesAll (doctorFilter : jsstring) (f : AdvancedFilters) (s : Surgery) : Prop :=
  passesDoctor doctorFilter s
  /\ passesField (f_authStatus f) (authStatusStr (authStatus s))
  /\ passesField (f_surgeryStatus f) (surgeryStatusStr (surgeryStatus s))
  /\ passesField (f_hospitalId f) (hospitalId s)
  /\ passesField (f_insuranceId f) (insuranceId s).

(* ================================================================== *)
(** * Header search (App) *)
(* ================================================================== *)

Definition searchedSurgeries (host : Host) (searchQuery : jsstring)
    (surgeries : list Surgery) : list Surgery :=
  if negb (truthy (trim searchQuery)) then []
  else filter (fun s => includes (toLowerCase host (patientName s))
                                 (toLowerCase host searchQuery)) surgeries.

(** [q] occurs in [name] when case is ignored. *)
Definition containsIgnoringCase (host : Host) (name q : jsstring) : Prop :=
  exists before after : jsstring,
    toLowerCase host name = before ++ toLowerCase host q ++ after.

(* ================================================================== *)
(** * Calendar grid (CalendarView) *)
(* ================================================================== *)

(** [for (let i = 0; i < n; i++) grid.push(null)]; no iteration when [n]
    is NaN. *)
Definition pushNulls (n : option Z) : list (option Date) :=
  match n with
  | Some k => repeat None (Z.to_nat k)
  | None => []
  end.

(** [for (let i = 1; i <= n; i++) grid.push(new Date(year, month, i))]. *)
Definition pushDays (host : Host) (year month n : option Z) : list (option Date) :=
  match n with
  | Some k =>
      map (fun i => Some (newDateYMD host year month (Some (Z.of_nat i))))
          (seq 1 (Z.to_nat k))
  | None => []
  end.

Definition calendarGrid (host : Host) (currentDate : Date) : list (option Date) :=
  let year := getFullYear host currentDate in
  let month := getMonth host currentDate in
  let firstDayOfMonth := getDay host (newDateYMD host year month (Some 1)) in
  let daysInMonth :=
    getDate host (newDateYMD host year (option_map (fun m => m + 1) month) (Some 0)) in
  pushNulls firstDayOfMonth ++ pushDays host year month daysInMonth.

(** The number of days of month [m] (0-11) of year [y]. *)
Definition DaysInMonth (y m : Z) : Z :=
  match m with
  | 1 => if DaysInYear y =? 366 then 29 else 28
  | 3 | 5 | 8 | 10 => 30
  | _ => 31
  end.

(* ================================================================== *)
(** * Reschedule (App.handleSurgeryDrop) *)
(* ================================================================== *)

(** The value of [newDateTime] in [handleSurgeryDrop]. *)
Definition rescheduleTimestamp (host : Host) (surgery : Surgery) (newDate : Date)
    : completion jsstring :=
  let oldDateTime := newDateString host (dateTime surgery) in
  toISOString
    (newDateYMDHM host
       (getFullYear host newDate) (getMonth host newDate) (getDate host newDate)
       (getHours host oldDateTime) (getMinutes host oldDateTime)).

(* ================================================================== *)
(** * Report filter (ReportsView) *)
(* ================================================================== *)

Record ReportFilters := {
  startDate : jsstring;
  endDate : jsstring;
  doctorId : jsstring
}.

(** The callback of [surgeries.filter] in [ReportsView.filteredSurgeries]. *)
Definition reportKeeps (host : Host) (filters : ReportFilters) (s : Surgery) : bool :=
  let surgeryDate := newDateString host (dateTime s) in
  if truthy (startDate filters)
     && numLt surgeryDate (newDateString host (startDate filters))
  then false
  else if truthy (endDate filters)
          && (let endDate := newDateString host (endDate filters) in
              let endDate := setHours host endDate 23 59 59 999 in
              numGt surgeryDate endDate)
  then false
  else if negb (eqb (doctorId filters) all)
          && negb (arrayIncludes (mainSurgeonId s :: participatingIds s) (doctorId filters))
  then false
  else true.

Definition reportFilteredSurgeries (host : Host) (filters : ReportFilters)
    (surgeries : list Surgery) : list Surgery :=
  filter (reportKeeps host filters) surgeries.

(* ================================================================== *)
(** * Dashboard aggregates (DashboardView) *)
(* ================================================================== *)

(** [x || 0] on a number: 0, -0 and NaN are falsy. *)
Definition orZero (x : float) : float :=
  if (PrimFloat.is_zero x || PrimFloat.is_nan x)%bool then PrimFloat.zero else x.

(** [l.reduce((acc, s) => acc + (s.totalValue || 0), 0)]. *)
Definition sumValues (l : list Surgery) : float :=
  fold_left (fun acc s => PrimFloat.add acc (orZero (totalValue s))) l PrimFloat.zero.

(** The sum of the values as they are, from 0 and from left to right. *)
Definition plainSum (l : list Surgery) : float :=
  fold_left (fun acc s => PrimFloat.add acc (totalValue s)) l PrimFloat.zero.

(** A value that [|| 0] leaves alone: any number but NaN and -0. *)
Definition properValue (x : float) : Prop :=
  PrimFloat.is_nan x = false /\ x <> PrimFloat.neg_zero.

Definition isRealizada (s : Surgery) : bool :=
  eqb (surgeryStatusStr (surgeryStatus s)) (str "Realizada").

(** [monthRevenue] of the dashboard; [now] is the time value of
    [new Date()]. *)
Definition monthRevenue (host : Host) (now : Z) (surgeries : list Surgery) : float :=
  let today := setHours host (Some now) 0 0 0 0 in
  let currentMonth := getMonth host today in
  let currentYear := getFullYear host today in
  sumValues
    (filter (fun s =>
       let sDate := newDateString host (dateTime s) in
       isRealizada s
       && numEq (getMonth host sDate) currentMonth
       && numEq (getFullYear host sDate) currentYear) surgeries).

(* ================================================================== *)
(** * Sync controller (App) *)
(* ================================================================== *)

Inductive ToastType := Success | Error.

Record Toast := { t_message : jsstring; t_type : ToastType }.

Record Session := { user_id : jsstring }.

Record UserProfile := {
  u_id : jsstring;
  u_doctor_id : jsstring;
  u_is_admin : bool;
  u_name : jsstring
}.

(** A row of [user_profiles] as the store returns it, joined with its
    doctor; the join is [null] when the doctor is gone. *)
Record ProfileRow := {
  r_id : jsstring;
  r_doctor_id : jsstring;
  r_is_admin : bool;
  r_doctor : option jsstring
}.

(** The [{ data, error }] a store call resolves to. *)
Record Response (A : Type) := { data : option A; error : option JsError }.
Arguments data {A} r.
Arguments error {A} r.

(** What the store answers to the six reads of one reload. *)
Record ReloadResponses := {
  profileRes : Response ProfileRow;
  doctorsRes : Response (list Doctor);
  surgeriesRes : Response (list Surgery);
  hospitalsRes : Response (list Hospital);
  plansRes : Response (list InsurancePlan);
  profilesRes : Response (list ProfileRow)
}.

(** The calls made on the store and on the session service. *)
Inductive Request :=
| SelectProfile (userId : jsstring)
| SelectAll (table : jsstring)
| Upsert (payloadId : option jsstring) (payload : Surgery)
| UpdateDateTime (surgeryId newDateTime : jsstring)
| Insert (table name : jsstring)
| Delete (table rowId : jsstring)
| SignOut.

(** The state of the [App] component the controller reads and writes. *)
Record AppState := {
  session : option Session;
  loading : bool;
  doctors : list Doctor;
  userProfiles : list UserProfile;
  surgeries : list Surgery;
  hospitals : list Hospital;
  insurancePlans : list InsurancePlan;
  loggedInProfile : option UserProfile;
  isModalOpen : bool;
  surgeryToEdit : option Surgery
}.

(** The application state together with what has left the program: the
    notifications emitted and the requests issued, oldest first. *)
Record World := {
  app : AppState;
  toasts : list Toast;
  requests : list Request
}.

Definition updApp (f : AppState -> AppState) (w : World) : World :=
  {| app := f (app w); toasts := toasts w; requests := requests w |}.

(** Computations that read and write the world and may throw. *)
Definition M (A : Type) : Type := World -> completion A * World.

Definition ret {A : Type} (a : A) : M A := fun w => (Return a, w).

Definition throw {A : Type} (e : JsError) : M A := fun w => (Throw e, w).

Definition bind {A B : Type} (m : M A) (k : A -> M B) : M B :=
  fun w =>
    match m w with
    | (Return a, w') => k a w'
    | (Throw e, w') => (Throw e, w')
    end.

Notation "x <- m ;; k" := (bind m (fun x => k))
  (at level 61, m at next level, right associativity).
Notation "m ;; k" := (bind m (fun _ => k))
  (at level 61, right associativity).

(** [try { body } catch (error) { handler }]. *)
Definition tryCatch {A : Type} (body : M A) (handler : JsError -> M A) : M A :=
  fun w =>
    match body w with
    | (Return a, w') => (Return a, w')
    | (Throw e, w') => handler e w'
    end.

(** [try { body } finally { final }], for a [final] that does not throw. *)
Definition tryFinally {A : Type} (body : M A) (final : World -> World) : M A :=
  fun w => let (r, w') := body w in (r, final w').

Definition modify (f : AppState -> AppState) : M unit :=
  fun w => (Return tt, updApp f w).

(** [addToast] of [ToastProvider]: the notification joins the list.
    [toasts] is the record of what was emitted, oldest first; the removal
    of a notification from the screen is not part of it. The change of the
    list renders the provider and through it [App]; what that render does
    is [render], in the section on the application at run time. *)
Definition addToast (msg : jsstring) (type : ToastType) : M unit :=
  fun w => (Return tt,
            {| app := app w;
               toasts := toasts w ++ [{| t_message := msg; t_type := type |}];
               requests := requests w |}).

Definition request (q : Request) : M unit :=
  fun w => (Return tt,
            {| app := app w; toasts := toasts w; requests := requests w ++ [q] |}).

Definition withSession (v : option Session) (st : AppState) : AppState :=
  {| session := v; loading := loading st; doctors := doctors st;
     userProfiles := userProfiles st; surgeries := surgeries st;
     hospitals := hospitals st; insurancePlans := insurancePlans st;
     loggedInProfile := loggedInProfile st; isModalOpen := isModalOpen st;
     surgeryToEdit := surgeryToEdit st |}.

Definition withLoading (v : bool) (st : AppState) : AppState :=
  {| session := session st; loading := v; doctors := doctors st;
     userProfiles := userProfiles st; surgeries := surgeries st;
     hospitals := hospitals st; insurancePlans := insurancePlans st;
     loggedInProfile := loggedInProfile st; isModalOpen := isModalOpen st;
     surgeryToEdit := surgeryToEdit st |}.

Definition withDoctors (v : list Doctor) (st : AppState) : AppState :=
  {| session := session st; loading := loading st; doctors := v;
     userProfiles := userProfiles st; surgeries := surgeries st;
     hospitals := hospitals st; insurancePlans := insurancePlans st;
     loggedInProfile := loggedInProfile st; isModalOpen := isModalOpen st;
     surgeryToEdit := surgeryToEdit st |}.

Definition withUserProfiles (v : list UserProfile) (st : AppState) : AppState :=
  {| session := session st; loading := loading st; doctors := doctors st;
     userProfiles := v; surgeries := surgeries st;
     hospitals := hospitals st; insurancePlans := insurancePlans st;
     loggedInProfile := loggedInProfile st; isModalOpen := isModalOpen st;
     surgeryToEdit := surgeryToEdit st |}.

Definition withSurgeries (v : list Surgery) (st : AppState) : AppState :=
  {| session := session st; loading := loading st; doctors := doctors st;
     userProfiles := userProfiles st; surgeries := v;
     hospitals := hospitals st; insurancePlans := insurancePlans st;
     loggedInProfile := loggedInProfile st; isModalOpen := isModalOpen st;
     surgeryToEdit := surgeryToEdit st |}.

Definition withHospitals (v : list Hospital) (st : AppState) : AppState :=
  {| session := session st; loading := loading st; doctors := doctors st;
     userProfiles := userProfiles st; surgeries := surgeries st;
     hospitals := v; insurancePlans := insurancePlans st;
     loggedInProfile := loggedInProfile st; isModalOpen := isModalOpen st;
     surgeryToEdit := surgeryToEdit st |}.

Definition withInsurancePlans (v : list InsurancePlan) (st : AppState) : AppState :=
  {| session := session st; loading := loading st; doctors := doctors st;
     userProfiles := userProfiles st; surgeries := surgeries st;
     hospitals := hospitals st; insurancePlans := v;
     loggedInProfile := loggedInProfile st; isModalOpen := isModalOpen st;
     surgeryToEdit := surgeryToEdit st |}.

Definition withLoggedInProfile (v : option UserProfile) (st : AppState) : AppState :=
  {| session := session st; loading := loading st; doctors := doctors st;
     userProfiles := userProfiles st; surgeries := surgeries st;
     hospitals := hospitals st; insurancePlans := insurancePlans st;
     loggedInProfile := v; isModalOpen := isModalOpen st;
     surgeryToEdit := surgeryToEdit st |}.

Definition withIsModalOpen (v : bool) (st : AppState) : AppState :=
  {| session := session st; loading := loading st; doctors := doctors st;
     userProfiles := userProfiles st; surgeries := surgeries st;
     hospitals := hospitals st; insurancePlans := insurancePlans st;
     loggedInProfile := loggedInProfile st; isModalOpen := v;
     surgeryToEdit := surgeryToEdit st |}.

Definition withSurgeryToEdit (v : option Surgery) (st : AppState) : AppState :=
  {| session := session st; loading := loading st; doctors := doctors st;
     userProfiles := userProfiles st; surgeries := surgeries st;
     hospitals := hospitals st; insurancePlans := insurancePlans st;
     loggedInProfile := loggedInProfile st; isModalOpen := isModalOpen st;
     surgeryToEdit := v |}.

Definition setSession v := modify (withSession v).
Definition setLoading v := modify (withLoading v).
Definition setDoctors v := modify (withDoctors v).
Definition setUserProfiles v := modify (withUserProfiles v).
Definition setSurgeries v := modify (withSurgeries v).
Definition setHospitals v := modify (withHospitals v).
Definition setInsurancePlans v := modify (withInsurancePlans v).
Definition setLoggedInProfile v := modify (withLoggedInProfile v).
Definition setIsModalOpen v := modify (withIsModalOpen v).
Definition setSurgeryToEdit v := modify (withSurgeryToEdit v).

(** [supabase.auth.signOut()]: the call, then the auth-state listener of
    [App], which clears the session and the profile. *)
Definition signOut : M unit :=
  request SignOut ;;
  setSession None ;; setLoggedInProfile None ;; setLoading false.

(** [if (res.error) throw res.error]. *)
Definition throwIfError {A : Type} (res : Response A) : M unit :=
  match error res with
  | Some e => throw e
  | None => ret tt
  end.

(** [res.data || []]. *)
Definition dataOrEmpty {A : Type} (res : Response (list A)) : list A :=
  match data res with
  | Some l => l
  | None => []
  end.

(** [{ ...p, name: p.doctor.name }]; a TypeError when the join is null. *)
Definition withDoctorName (host : Host) (p : ProfileRow) : M UserProfile :=
  match r_doctor p with
  | Some n =>
      ret {| u_id := r_id p; u_doctor_id := r_doctor_id p;
             u_is_admin := r_is_admin p; u_name := n |}
  | None => throw {| message := nullPropertyMessage host (str "name") |}
  end.

(** [rows.map(p => ({...p, name: p.doctor.name}))]. *)
Fixpoint mapDoctorName (host : Host) (rows : list ProfileRow) : M (list UserProfile) :=
  match rows with
  | [] => ret []
  | p :: rest =>
      u <- withDoctorName host p ;;
      us <- mapDoctorName host rest ;;
      ret (u :: us)
  end.

Definition profileNotFound : JsError :=
  {| message := str "Perfil do usu" ++ 225%N :: str "rio n" ++ 227%N
                  :: str "o encontrado. Realizando logout." |}.

(** The body of the [try] block of [fetchData]. *)
Definition fetchDataBody (host : Host) (r : ReloadResponses) (currentSession : Session)
    : M unit :=
  request (SelectProfile (user_id currentSession)) ;;
  profile <- match error (profileRes r), data (profileRes r) with
             | None, Some p => ret p
             | _, _ => signOut ;; throw profileNotFound
             end ;;
  loggedInUser <- withDoctorName host profile ;;
  setLoggedInProfile (Some loggedInUser) ;;
  request (SelectAll (str "doctors")) ;;
  request (SelectAll (str "surgeries")) ;;
  request (SelectAll (str "hospitals")) ;;
  request (SelectAll (str "insurance_plans")) ;;
  request (SelectAll (str "user_profiles")) ;;
  throwIfError (doctorsRes r) ;; setDoctors (dataOrEmpty (doctorsRes r)) ;;
  throwIfError (surgeriesRes r) ;; setSurgeries (dataOrEmpty (surgeriesRes r)) ;;
  throwIfError (hospitalsRes r) ;; setHospitals (dataOrEmpty (hospitalsRes r)) ;;
  throwIfError (plansRes r) ;; setInsurancePlans (dataOrEmpty (plansRes r)) ;;
  throwIfError (profilesRes r) ;;
  allUsers <- match data (profilesRes r) with
              | Some rows => mapDoctorName host rows
              | None => throw {| message := nullPropertyMessage host (str "map") |}
              end ;;
  setUserProfiles allUsers.

(** The [catch] block of [fetchData]. *)
Definition fetchDataCatch (e : JsError) : M unit :=
  addToast (str "Erro ao carregar dados: " ++ message e) Error ;;
  setLoggedInProfile None ;;
  setSession None.

Definition fetchData (host : Host) (r : ReloadResponses) (currentSession : Session)
    : M unit :=
  setLoading true ;;
  tryFinally
    (tryCatch (fetchDataBody host r currentSession) fetchDataCatch)
    (updApp (withLoading false)).

(** [if (session) await fetchData(session)], on the session of the render
    the handler was created in. Here, and in the handlers below, the reload
    runs to its end before anything else happens: these are the handlers
    taken alone. [perform], in the section on the application at run time,
    has the renders between their steps and the reload that each
    notification starts. *)
Definition reloadIfSession (host : Host) (r : ReloadResponses) (s : option Session)
    : M unit :=
  match s with
  | Some currentSession => fetchData host r currentSession
  | None => ret tt
  end.

(** [handleSaveSurgery(data, id)]; [upsertError] is the [error] the upsert
    resolves to and [r] what the store answers to the reload. *)
Definition handleSaveSurgery (host : Host) (upsertError : option JsError)
    (r : ReloadResponses) (formData : Surgery) (editId : option jsstring) : M unit :=
  fun w0 =>
    let payloadId := match editId with
                     | Some i => if truthy i then Some i else None
                     | None => None
                     end in
    tryCatch
      (request (Upsert payloadId formData) ;;
       match upsertError with
       | Some e => throw e
       | None => ret tt
       end ;;
       addToast (str "Cirurgia "
                 ++ match payloadId with
                    | Some _ => str "atualizada"
                    | None => str "salva"
                    end ++ str "!") Success ;;
       setIsModalOpen false ;; setSurgeryToEdit None ;;
       reloadIfSession host r (session (app w0)))
      (fun e => addToast (str "Erro: " ++ message e) Error)
      w0.

(** [handleSurgeryDrop(surgeryId, newDate)]. An exception of the timestamp
    computation leaves the handler before anything else happens. *)
Definition handleSurgeryDrop (host : Host) (updateError : option JsError)
    (r : ReloadResponses) (surgeryId : jsstring) (newDate : Date) : M unit :=
  fun w0 =>
    match find (fun s => eqb (id s) surgeryId) (surgeries (app w0)) with
    | None => (Return tt, w0)
    | Some surgery =>
        (newDateTime <- (fun w => (rescheduleTimestamp host surgery newDate, w)) ;;
         request (UpdateDateTime surgeryId newDateTime) ;;
         match updateError with
         | Some e => addToast (str "Erro ao mover cirurgia: " ++ message e) Error
         | None =>
             addToast (str "Cirurgia movida com sucesso!") Success ;;
             reloadIfSession host r (session (app w0))
         end) w0
    end.

(** The six handlers of the reference data share one shape: a write, then
    an error notification or a success notification and a reload. *)
Definition referenceWrite (q : Request) (errorPrefix okMessage : jsstring)
    (host : Host) (writeError : option JsError) (r : ReloadResponses) : M unit :=
  fun w0 =>
    (request q ;;
     match writeError with
     | Some e => addToast (errorPrefix ++ message e) Error
     | None =>
         addToast okMessage Success ;;
         reloadIfSession host r (session (app w0))
     end) w0.

Definition medico : jsstring := 77%N :: 233%N :: str "dico".
Definition convenio : jsstring := str "Conv" ++ 234%N :: str "nio".
Definition excluido : jsstring := str "exclu" ++ 237%N :: str "do!".

Definition handleAddDoctor (name : jsstring) :=
  referenceWrite (Insert (str "doctors") name)
    (str "Erro ao adicionar m" ++ 233%N :: str "dico: ")
    (medico ++ str " adicionado!").

Definition handleDeleteDoctor (rowId : jsstring) :=
  referenceWrite (Delete (str "doctors") rowId)
    (str "Erro ao excluir m" ++ 233%N :: str "dico: ")
    (medico ++ 32%N :: excluido).

Definition handleAddHospital (name : jsstring) :=
  referenceWrite (Insert (str "hospitals") name)
    (str "Erro ao adicionar hospital: ") (str "Hospital adicionado!").

Definition handleDeleteHospital (rowId : jsstring) :=
  referenceWrite (Delete (str "hospitals") rowId)
    (str "Erro ao excluir hospital: ") (str "Hospital " ++ excluido).

Definition handleAddPlan (name : jsstring) :=
  referenceWrite (Insert (str "insurance_plans") name)
    (str "Erro ao adicionar conv" ++ 234%N :: str "nio: ")
    (convenio ++ str " adicionado!").

Definition handleDeletePlan (rowId : jsstring) :=
  referenceWrite (Delete (str "insurance_plans") rowId)
    (str "Erro ao excluir conv" ++ 234%N :: str "nio: ")
    (convenio ++ 32%N :: excluido).

(** The mutating operations of the controller. *)
Inductive Operation :=
| SaveSurgery (formData : Surgery) (editId : option jsstring)
| DropSurgery (surgeryId : jsstring) (newDate : Date)
| AddDoctor (name : jsstring)
| DeleteDoctor (rowId : jsstring)
| AddHospital (name : jsstring)
| DeleteHospital (rowId : jsstring)
| AddPlan (name : jsstring)
| DeletePlan (rowId : jsstring).

Definition run (host : Host) (op : Operation) : option JsError -> ReloadResponses -> M unit :=
  match op with
  | SaveSurgery formData editId =>
      fun e r => handleSaveSurgery host e r formData editId
  | DropSurgery surgeryId newDate =>
      fun e r => handleSurgeryDrop host e r surgeryId newDate
  | AddDoctor name => handleAddDoctor name host
  | DeleteDoctor rowId => handleDeleteDoctor rowId host
  | AddHospital name => handleAddHospital name host
  | DeleteHospital rowId => handleDeleteHospital rowId host
  | AddPlan name => handleAddPlan name host
  | DeletePlan rowId => handleDeletePlan rowId host
  end.

(** The text that precedes the error's message in the notification of a
    failed write. *)
Definition errorPrefix (op : Operation) : jsstring :=
  match op with
  | SaveSurgery _ _ => str "Erro: "
  | DropSurgery _ _ => str "Erro ao mover cirurgia: "
  | AddDoctor _ => str "Erro ao adicionar m" ++ 233%N :: str "dico: "
  | DeleteDoctor _ => str "Erro ao excluir m" ++ 233%N :: str "dico: "
  | AddHospital _ => str "Erro ao adicionar hospital: "
  | DeleteHospital _ => str "Erro ao excluir hospital: "
  | AddPlan _ => str "Erro ao adicionar conv" ++ 234%N :: str "nio: "
  | DeletePlan _ => str "Erro ao excluir conv" ++ 234%N :: str "nio: "
  end.

(** The five in-memory collections. *)
Definition collections (st : AppState) :=
  (doctors st, surgeries st, hospitals st, insurancePlans st, userProfiles st).

(** The notification of a failure: a text, then the error's message. *)
Definition errorToast (prefix : jsstring) (e : JsError) : Toast :=
  {| t_message := prefix ++ message e; t_type := Error |}.

(** The reload fails before any collection has been replaced: at the
    profile lookup, at the profile's doctor, or at the read of the doctors. *)
Definition failsEarly (r : ReloadResponses) : Prop :=
  match error (profileRes r), data (profileRes r) with
  | None, Some p => r_doctor p = None \/ error (doctorsRes r) <> None
  | _, _ => True
  end.

(* ================================================================== *)
(** * Local time and the wall clock *)
(* ================================================================== *)

(** The wall-clock time [x] is read as an instant a Date can hold, and the
    local day of that instant is the day of [x]. A time skipped by a change
    of offset still lands on its day when the change does not skip the rest
    of the day. *)
Definition landsOnDay (host : Host) (x : Z) : Prop :=
  validTime (UTC host x) /\ Day (LocalTime host (UTC host x)) = Day x.

(** The wall-clock time [x] exists in the zone: the instant it is read as
    shows [x] again. *)
Definition wallClockExists (host : Host) (x : Z) : Prop :=
  validTime (UTC host x) /\ LocalTime host (UTC host x) = x.

(** The wall-clock time [handleSurgeryDrop] asks for: the local day of the
    target [tnew] at the local hour and minute of the old time [told]. *)
Definition droppedWallClock (host : Host) (told tnew : Z) : Z :=
  MakeDate (Day (LocalTime host tnew))
    (MakeTime (HourFromTime (LocalTime host told))
              (MinFromTime (LocalTime host told)) 0 0).


(** The surgery is performed and its date is in the month and year of
    [now], all in local time. *)
Definition performedThisMonth (host : Host) (now : Z) (s : Surgery) : Prop :=
  surgeryStatus s = Realizada
  /\ exists ts,
       newDateString host (dateTime s) = Some ts
       /\ YearFromTime (LocalTime host ts) = YearFromTime (LocalTime host now)
       /\ MonthFromTime (LocalTime host ts) = MonthFromTime (LocalTime host now).

(** The offsets of the zone are whole minutes. *)
Definition wholeMinuteZone (host : Host) : Prop :=
  forall (t : Z) (isUTC : bool), LocalTZA host t isUTC mod msPerMinute = 0.

(** A surgery scheduled at [when], everything else fixed; the surgeries of
    the examples differ in their date, status and value only. *)
Definition sampleSurgery (when : jsstring) (status : SurgeryStatus) (value : float)
    : Surgery :=
  {| id := str "s1"; patientName := str "Maria Silva";
     mainSurgeonId := str "d1"; participatingIds := [];
     dateTime := when; hospitalId := str "h1"; insuranceId := str "p1";
     authStatus := Pendente; surgeryStatus := status; totalValue := value;
     materials := []; notes := [] |}.

(** A store call that resolves to neither data nor an error. *)
Definition noResponse {A : Type} : Response A := {| data := None; error := None |}.

(* ================================================================== *)
(** * Sample hosts *)
(* ================================================================== *)

Definition asciiLower (c : N) : N :=
  if ((65 <=? c) && (c <=? 90))%N then (c + 32)%N else c.

(** A zone at a constant offset from UTC, given in minutes. *)
Definition fixedZone (offsetMinutes : Z) : Host :=
  {| LocalTZA := fun _ _ => offsetMinutes * msPerMinute;
     legacyDateParse := fun _ => None;
     toLowerCase := map asciiLower;
     nullPropertyMessage := fun p =>
       str "Cannot read properties of null (reading '" ++ p ++ str "')" |}.

(** UTC-03:00 all year: Brasilia time since 2019. *)
Definition brasilia : Host := fixedZone (-180).

Definition utc : Host := fixedZone 0.

(** US Eastern time around the start of daylight saving time in 2024:
    UTC-05:00 until 2024-03-10T07:00:00Z, UTC-04:00 from then on. A local
    time skipped by the change is read with the offset before it. *)
Definition easternSpring2024 : Host :=
  {| LocalTZA := fun t isUTC =>
       let change := 1710054000000 in
       if isUTC then
         if t <? change then -5 * msPerHour else -4 * msPerHour
       else
         if t <? change - 4 * msPerHour then -5 * msPerHour else -4 * msPerHour;
     legacyDateParse := fun _ => None;
     toLowerCase := map asciiLower;
     nullPropertyMessage := fun p =>
       str "Cannot read properties of null (reading '" ++ p ++ str "')" |}.

(** Samoa at the end of 2011: UTC-10:00 until 2011-12-30T10:00:00Z, the
    end of 29 December there, and UTC+14:00 from then on, so that 30
    December did not take place. *)
Definition apia2011 : Host :=
  {| LocalTZA := fun t isUTC =>
       let change := 1325239200000 in
       if isUTC then
         if t <? change then -10 * msPerHour else 14 * msPerHour
       else
         if t <? change + 14 * msPerHour then -10 * msPerHour else 14 * msPerHour;
     legacyDateParse := fun _ => None;
     toLowerCase := map asciiLower;
     nullPropertyMessage := fun p =>
       str "Cannot read properties of null (reading '" ++ p ++ str "')" |}.


(* ================================================================== *)
(** * More of the host: date setters, numbers and dates as text, sort *)
(* ================================================================== *)

(** [a + b] and [a - b] on numbers that are integers or NaN. *)
Definition numAdd (a b : option Z) : option Z :=
  match a, b with
  | Some x, Some y => Some (x + y)
  | _, _ => None
  end.

Definition numSub (a b : option Z) : option Z :=
  match a, b with
  | Some x, Some y => Some (x - y)
  | _, _ => None
  end.

(** [d.setDate(date)], as the new value of [d]: the date may lie outside
    the month and then carries into the neighbouring months; the time of
    day is kept. *)
Definition setDate (host : Host) (d : Date) (date : option Z) : Date :=
  match d, date with
  | Some tv, Some dt =>
      let t := LocalTime host tv in
      TimeClip (UTC host (MakeDate (MakeDay (YearFromTime t) (MonthFromTime t) dt)
                                   (TimeWithinDay t)))
  | _, _ => None
  end.

(** [d.setMonth(month)], as the new value of [d]: the date of the month and
    the time of day are kept. *)
Definition setMonth (host : Host) (d : Date) (month : option Z) : Date :=
  match d, month with
  | Some tv, Some m =>
      let t := LocalTime host tv in
      TimeClip (UTC host (MakeDate (MakeDay (YearFromTime t) m (DateFromTime t))
                                   (TimeWithinDay t)))
  | _, _ => None
  end.

(** The number of decimal digits of [n >= 0]; [fuel] bounds the number of
    divisions by 10. *)
Fixpoint numDigitsFuel (fuel : nat) (n : Z) : nat :=
  match fuel with
  | O => 1
  | S f => if n <? 10 then 1%nat else S (numDigitsFuel f (n / 10))
  end.

Definition numDigits (n : Z) : nat := numDigitsFuel (Z.to_nat (Z.log2 n)) n.

(** The decimal digits of [n >= 0], without leading zeros. *)
Definition decimal (n : Z) : jsstring := pad (numDigits n) n.

(** [String(x)] and [`${x}`] for a number that is NaN or an integer below
    10^21 in size, as the fields of a date are. *)
Definition numberToString (x : option Z) : jsstring :=
  match x with
  | None => str "NaN"
  | Some n => if n <? 0 then 45%N :: decimal (- n) else decimal n
  end.

(** [s.padStart(k, c)] for a single character [c]. *)
Definition padStart (k : nat) (c : N) (s : jsstring) : jsstring :=
  repeat c (k - List.length s) ++ s.

(** [s.slice(from, to)] for indices that are not negative. *)
Definition slice (from to : nat) (s : jsstring) : jsstring :=
  firstn (to - from) (skipn from s).

Definition dayName (weekDay : Z) : jsstring :=
  match weekDay with
  | 0 => str "Sun" | 1 => str "Mon" | 2 => str "Tue" | 3 => str "Wed"
  | 4 => str "Thu" | 5 => str "Fri" | _ => str "Sat"
  end.

Definition monthName (month : Z) : jsstring :=
  match month with
  | 0 => str "Jan" | 1 => str "Feb" | 2 => str "Mar" | 3 => str "Apr"
  | 4 => str "May" | 5 => str "Jun" | 6 => str "Jul" | 7 => str "Aug"
  | 8 => str "Sep" | 9 => str "Oct" | 10 => str "Nov" | _ => str "Dec"
  end.

(** The year of a date text: a minus sign for a negative year, then the
    digits, at least four of them. *)
Definition yearText (y : Z) : jsstring :=
  if y <? 0 then 45%N :: padStart 4 48%N (decimal (- y))
  else padStart 4 48%N (decimal y).

(** [d.toDateString()]: the week day, the month, the day and the year of
    [d] in local time, as in [Wed Mar 20 2024]. *)
Definition toDateString (host : Host) (d : Date) : jsstring :=
  match d with
  | None => str "Invalid Date"
  | Some tv =>
      let t := LocalTime host tv in
      dayName (WeekDay t) ++ 32%N :: monthName (MonthFromTime t)
      ++ 32%N :: pad 2 (DateFromTime t) ++ 32%N :: yearText (YearFromTime t)
  end.

(** [Array.prototype.sort(compare)]. The comparator answers a number: a
    negative one puts its first argument first, a positive one its second,
    and 0 or NaN leaves the two as they are. The standard asks for a stable
    sort and fixes the result when the comparator is consistent; this is
    the stable insertion sort, which gives that result. *)
Fixpoint insertSorted {A : Type} (compare : A -> A -> option Z) (x : A) (l : list A)
    : list A :=
  match l with
  | [] => [x]
  | y :: l' =>
      match compare x y with
      | Some v => if 0 <? v then y :: insertSorted compare x l' else x :: l
      | None => x :: l
      end
  end.

Fixpoint sortWith {A : Type} (compare : A -> A -> option Z) (l : list A) : list A :=
  match l with
  | [] => []
  | x :: l' => insertSorted compare x (sortWith compare l')
  end.

(* ================================================================== *)
(** * Calendar navigation, week grid and day cells (CalendarView) *)
(* ================================================================== *)

Inductive ViewMode := MonthView | WeekView.

Definition handlePrev (host : Host) (viewMode : ViewMode) (d : Date) : Date :=
  let n := d in
  match viewMode with
  | MonthView => setMonth host n (numSub (getMonth host d) (Some 1))
  | WeekView => setDate host n (numSub (getDate host d) (Some 7))
  end.

Definition handleNext (host : Host) (viewMode : ViewMode) (d : Date) : Date :=
  let n := d in
  match viewMode with
  | MonthView => setMonth host n (numAdd (getMonth host d) (Some 1))
  | WeekView => setDate host n (numAdd (getDate host d) (Some 7))
  end.

Definition weekGrid (host : Host) (currentDate : Date) : list Date :=
  let startOfWeek := currentDate in
  let startOfWeek :=
    setDate host startOfWeek
      (numSub (getDate host startOfWeek) (getDay host startOfWeek)) in
  map (fun i =>
         let day := startOfWeek in
         setDate host day (numAdd (getDate host day) (Some (Z.of_nat i))))
      (seq 0 7).

(** The test of a day cell: same year, month and date in local time. *)
Definition sameDate (host : Host) (sDate date : Date) : bool :=
  numEq (getFullYear host sDate) (getFullYear host date)
  && numEq (getMonth host sDate) (getMonth host date)
  && numEq (getDate host sDate) (getDate host date).

(** [daySurgeries] of a grid cell; an empty cell has none. *)
Definition daySurgeries (host : Host) (filteredSurgeries : list Surgery)
    (date : option Date) : list Surgery :=
  match date with
  | Some d =>
      filter (fun s => sameDate host (newDateString host (dateTime s)) d)
             filteredSurgeries
  | None => []
  end.

(** The comparator of the three [sort] calls of the program:
    [new Date(a.dateTime).getTime() - new Date(b.dateTime).getTime()]. *)
Definition byTime (host : Host) (a b : Surgery) : option Z :=
  numSub (getTime (newDateString host (dateTime a)))
         (getTime (newDateString host (dateTime b))).

(** The surgeries a grid cell shows, in the order it shows them. *)
Definition sortedDaySurgeries (host : Host) (filteredSurgeries : list Surgery)
    (date : option Date) : list Surgery :=
  sortWith (byTime host) (daySurgeries host filteredSurgeries date).

Inductive FilterKey := KAuthStatus | KSurgeryStatus | KHospitalId | KInsuranceId.

(** [{ ...prev, [filterKey]: 'all' }]. *)
Definition removeFilter (filterKey : FilterKey) (prev : AdvancedFilters)
    : AdvancedFilters :=
  match filterKey with
  | KAuthStatus =>
      {| f_authStatus := all; f_surgeryStatus := f_surgeryStatus prev;
         f_hospitalId := f_hospitalId prev; f_insuranceId := f_insuranceId prev |}
  | KSurgeryStatus =>
      {| f_authStatus := f_authStatus prev; f_surgeryStatus := all;
         f_hospitalId := f_hospitalId prev; f_insuranceId := f_insuranceId prev |}
  | KHospitalId =>
      {| f_authStatus := f_authStatus prev; f_surgeryStatus := f_surgeryStatus prev;
         f_hospitalId := all; f_insuranceId := f_insuranceId prev |}
  | KInsuranceId =>
      {| f_authStatus := f_authStatus prev; f_surgeryStatus := f_surgeryStatus prev;
         f_hospitalId := f_hospitalId prev; f_insuranceId := all |}
  end.

(** [Object.entries(advancedFilters)]. *)
Definition filterEntries (f : AdvancedFilters) : list (FilterKey * jsstring) :=
  [(KAuthStatus, f_authStatus f); (KSurgeryStatus, f_surgeryStatus f);
   (KHospitalId, f_hospitalId f); (KInsuranceId, f_insuranceId f)].

(** The filter tags shown above the grid. *)
Definition activeFilters (f : AdvancedFilters) : list (FilterKey * jsstring) :=
  filter (fun entry => negb (eqb (snd entry) all)) (filterEntries f).

(** [handleReset] of the filter panel applies these filters. *)
Definition resetFilters : AdvancedFilters :=
  {| f_authStatus := str "all"; f_surgeryStatus := str "all";
     f_hospitalId := str "all"; f_insuranceId := str "all" |}.

(* ================================================================== *)
(** * The surgeries of a day (DashboardView, App) *)
(* ================================================================== *)

Definition surgeriesToday (host : Host) (now : Z) (surgeries : list Surgery)
    : list Surgery :=
  let today := setHours host (Some now) 0 0 0 0 in
  let currentMonth := getMonth host today in
  let currentYear := getFullYear host today in
  filter (fun s =>
     let sDate := newDateString host (dateTime s) in
     numEq (getFullYear host sDate) currentYear
     && numEq (getMonth host sDate) currentMonth
     && numEq (getDate host sDate) (getDate host today)) surgeries.

(** [surgeriesForSelectedDay] of [App]; no date is selected when
    [selectedDateForPanel] is [None]. *)
Definition surgeriesForSelectedDay (host : Host) (selectedDateForPanel : option Date)
    (surgeries : list Surgery) : list Surgery :=
  match selectedDateForPanel with
  | None => []
  | Some d =>
      filter (fun s => eqb (toDateString host (newDateString host (dateTime s)))
                           (toDateString host d)) surgeries
  end.

(** Two instants are on the same local calendar day. *)
Definition sameLocalDay (host : Host) (a b : Z) : Prop :=
  Day (LocalTime host a) = Day (LocalTime host b).

(* ================================================================== *)
(** * Lookups of reference data *)
(* ================================================================== *)

(** [x || fallback] on a string that may be absent. *)
Definition orDefault (x : option jsstring) (fallback : jsstring) : jsstring :=
  match x with
  | Some v => if truthy v then v else fallback
  | None => fallback
  end.

(** The hospital line of a surgery in a day cell:
    [hospitals.find(h => h.id === s.hospitalId)?.name || 'Hospital nao definido']
    (with its tilde). *)
Definition cellHospitalName (hospitals : list Hospital) (s : Surgery) : jsstring :=
  orDefault (option_map h_name (find (fun h => eqb (h_id h) (hospitalId s)) hospitals))
            (str "Hospital n" ++ 227%N :: str "o definido").

(** A JavaScript [Map] with string keys, as its entries in insertion order. *)
Fixpoint mapSet {V : Type} (m : list (jsstring * V)) (k : jsstring) (v : V)
    : list (jsstring * V) :=
  match m with
  | [] => [(k, v)]
  | (k', v') :: m' => if eqb k' k then (k, v) :: m' else (k', v') :: mapSet m' k v
  end.

Fixpoint mapGet {V : Type} (m : list (jsstring * V)) (k : jsstring) : option V :=
  match m with
  | [] => None
  | (k', v') :: m' => if eqb k' k then Some v' else mapGet m' k
  end.

(** [new Map(entries)]. *)
Definition newMap {V : Type} (entries : list (jsstring * V)) : list (jsstring * V) :=
  fold_left (fun m e => mapSet m (fst e) (snd e)) entries [].

(** [hospitalMap] of the reports. *)
Definition hospitalMap (hospitals : list Hospital) : list (jsstring * jsstring) :=
  newMap (map (fun h => (h_id h, h_name h)) hospitals).

Definition desconhecido : jsstring := Eval cbv in str "Desconhecido".

(** [hospitalMap.get(s.hospitalId) || 'Desconhecido']. *)
Definition reportHospitalName (hospitals : list Hospital) (s : Surgery) : jsstring :=
  orDefault (mapGet (hospitalMap hospitals) (hospitalId s)) desconhecido.

(* ================================================================== *)
(** * Report aggregates (ReportsView) *)
(* ================================================================== *)

(** The values the counting object of the reports can hold: a number, or
    something that is not a number (what adding 1 to an inherited method or
    to the prototype gives). *)
Inductive JsVal := VNum (n : Z) | VOther.

(** A plain object as its own properties, in the order they were created.
    JavaScript lists the names that are array indices first, in numeric
    order, so this is the order of [Object.entries] only when no name is
    such a number; the properties below do not depend on the order. *)
Definition JsObject := list (jsstring * JsVal).

Definition protoKey : jsstring := Eval cbv in str "__proto__".

(** [acc[k]]: the own property, else what the object inherits; [inherited]
    tells the names of the properties of [Object.prototype]. [None] is
    [undefined]. *)
Definition objGet (inherited : jsstring -> bool) (acc : JsObject) (k : jsstring)
    : option JsVal :=
  match mapGet acc k with
  | Some v => Some v
  | None => if eqb k protoKey || inherited k then Some VOther else None
  end.

(** [acc[k] = v] for a [v] that is not an object: an own property is
    written, but an assignment to [__proto__] is dropped. *)
Definition objSet (acc : JsObject) (k : jsstring) (v : JsVal) : JsObject :=
  if eqb k protoKey then acc else mapSet acc k v.

(** [(x || 0) + 1]. *)
Definition orZeroPlusOne (x : option JsVal) : JsVal :=
  match x with
  | Some (VNum n) => VNum (n + 1)
  | Some VOther => VOther
  | None => VNum 1
  end.

Definition countByHospital (inherited : jsstring -> bool) (hospitals : list Hospital)
    (filteredSurgeries : list Surgery) : JsObject :=
  fold_left
    (fun acc s =>
       let hospitalName := reportHospitalName hospitals s in
       objSet acc hospitalName (orZeroPlusOne (objGet inherited acc hospitalName)))
    filteredSurgeries [].

Record Reports := {
  totalRevenue : float;
  surgeriesByHospital : JsObject;
  totalSurgeries : nat;
  realizedSurgeriesCount : nat
}.

Definition reports (inherited : jsstring -> bool) (hospitals : list Hospital)
    (filteredSurgeries : list Surgery) : Reports :=
  let realizedSurgeries := filter isRealizada filteredSurgeries in
  {| totalRevenue := sumValues realizedSurgeries;
     surgeriesByHospital := countByHospital inherited hospitals filteredSurgeries;
     totalSurgeries := List.length filteredSurgeries;
     realizedSurgeriesCount := List.length realizedSurgeries |}.

(** The number a property holds, 0 for what is not a number. *)
Definition countOf (v : JsVal) : Z :=
  match v with
  | VNum n => n
  | VOther => 0
  end.

(** The counts of an object, added up. *)
Definition totalCount (acc : JsObject) : Z :=
  fold_right (fun e n => countOf (snd e) + n) 0 acc.

(* ================================================================== *)
(** * Surgery form (SurgeryModal) *)
(* ================================================================== *)

Definition withDateTime (v : jsstring) (s : Surgery) : Surgery :=
  {| id := id s; patientName := patientName s; mainSurgeonId := mainSurgeonId s;
     participatingIds := participatingIds s; dateTime := v;
     hospitalId := hospitalId s; insuranceId := insuranceId s;
     authStatus := authStatus s; surgeryStatus := surgeryStatus s;
     totalValue := totalValue s; materials := materials s; notes := notes s |}.

Definition withParticipatingIds (v : list jsstring) (s : Surgery) : Surgery :=
  {| id := id s; patientName := patientName s; mainSurgeonId := mainSurgeonId s;
     participatingIds := v; dateTime := dateTime s;
     hospitalId := hospitalId s; insuranceId := insuranceId s;
     authStatus := authStatus s; surgeryStatus := surgeryStatus s;
     totalValue := totalValue s; materials := materials s; notes := notes s |}.

Definition withMaterials (v : list Material) (s : Surgery) : Surgery :=
  {| id := id s; patientName := patientName s; mainSurgeonId := mainSurgeonId s;
     participatingIds := participatingIds s; dateTime := dateTime s;
     hospitalId := hospitalId s; insuranceId := insuranceId s;
     authStatus := authStatus s; surgeryStatus := surgeryStatus s;
     totalValue := totalValue s; materials := v; notes := notes s |}.

(** The state of the form: the data of the surgery (its [id] is not part of
    it and stays empty) and the two fields of the material being typed. *)
Record ModalState := {
  formData : Surgery;
  materialName : jsstring;
  materialQuantity : float
}.

(** [defaultDateTime] of [createInitialState]. *)
Definition defaultDateTime (host : Host) (d : Date) : jsstring :=
  numberToString (getFullYear host d)
  ++ 45%N :: padStart 2 48%N (numberToString (numAdd (getMonth host d) (Some 1)))
  ++ 45%N :: padStart 2 48%N (numberToString (getDate host d))
  ++ str "T10:00".

Definition createInitialState (host : Host) (initialDate : Date) (doctors : list Doctor)
    (hospitals : list Hospital) (insurancePlans : list InsurancePlan) : Surgery :=
  {| id := [];
     patientName := [];
     mainSurgeonId := orDefault (option_map d_id (hd_error doctors)) [];
     participatingIds := [];
     dateTime := defaultDateTime host initialDate;
     hospitalId := orDefault (option_map h_id (hd_error hospitals)) [];
     insuranceId := orDefault (option_map p_id (hd_error insurancePlans)) [];
     authStatus := Pendente; surgeryStatus := Agendada;
     totalValue := PrimFloat.zero; materials := []; notes := [] |}.

(** [formattedData] of the effect that opens the form on a surgery. *)
Definition formattedData (surgeryToEdit : Surgery) : Surgery :=
  withDateTime
    (if truthy (dateTime surgeryToEdit) then slice 0 16 (dateTime surgeryToEdit) else [])
    surgeryToEdit.

Definition handleCheckboxChange (docId : jsstring) (p : Surgery) : Surgery :=
  withParticipatingIds
    (if arrayIncludes (participatingIds p) docId
     then filter (fun i => negb (eqb i docId)) (participatingIds p)
     else participatingIds p ++ [docId])
    p.

Definition materialRequired : Toast :=
  {| t_message := str "Preencha o nome e a quantidade do material."; t_type := Error |}.

(** [handleAddMaterial]: the new state of the form and the notifications
    emitted. *)
Definition handleAddMaterial (st : ModalState) : ModalState * list Toast :=
  if negb (truthy (trim (materialName st)))
     || PrimFloat.leb (materialQuantity st) PrimFloat.zero
  then (st, [materialRequired])
  else ({| formData :=
             withMaterials
               (materials (formData st)
                ++ [{| m_name := materialName st; m_quantity := materialQuantity st |}])
               (formData st);
           materialName := [];
           materialQuantity := PrimFloat.one |}, []).

(** [l.filter((_, i) => i !== index)]. *)
Definition removeIndex {A : Type} (index : nat) (l : list A) : list A :=
  map snd (filter (fun e => negb (Nat.eqb (fst e) index))
                  (combine (seq 0 (List.length l)) l)).

Definition handleRemoveMaterial (index : nat) (p : Surgery) : Surgery :=
  withMaterials (removeIndex index (materials p)) p.




(* ================================================================== *)
(** * Reference data forms (SettingsView) *)
(* ================================================================== *)

Module Settings.

(** The three add handlers of the settings share one shape: a name that is
    blank is ignored; any other is trimmed and handed to the handler of
    [App], and the input is emptied. The result is the new input. *)
Definition handleAdd (onAdd : jsstring -> M unit) (newName : jsstring) : M jsstring :=
  if truthy (trim newName) then onAdd (trim newName) ;; ret []
  else ret newName.

Definition handleAddHospital (host : Host) (writeError : option JsError)
    (r : ReloadResponses) (newHospital : jsstring) : M jsstring :=
  handleAdd (fun name => handleAddHospital name host writeError r) newHospital.

Definition handleAddPlan (host : Host) (writeError : option JsError)
    (r : ReloadResponses) (newPlan : jsstring) : M jsstring :=
  handleAdd (fun name => handleAddPlan name host writeError r) newPlan.

Definition handleAddDoctor (host : Host) (writeError : option JsError)
    (r : ReloadResponses) (newDoctor : jsstring) : M jsstring :=
  handleAdd (fun name => handleAddDoctor name host writeError r) newDoctor.

End Settings.

(* ================================================================== *)
(** * The reload, when it succeeds *)
(* ================================================================== *)

Definition userOfRow (p : ProfileRow) (name : jsstring) : UserProfile :=
  {| u_id := r_id p; u_doctor_id := r_doctor_id p;
     u_is_admin := r_is_admin p; u_name := name |}.

(** The store answers every read of the reload without an error, the
    profile of the session is there, and every profile has its doctor. *)
Definition reloadSucceeds (r : ReloadResponses) : Prop :=
  error (profileRes r) = None
  /\ (exists p n, data (profileRes r) = Some p /\ r_doctor p = Some n)
  /\ error (doctorsRes r) = None /\ error (surgeriesRes r) = None
  /\ error (hospitalsRes r) = None /\ error (plansRes r) = None
  /\ error (profilesRes r) = None
  /\ exists rows, data (profilesRes r) = Some rows
                  /\ Forall (fun p => r_doctor p <> None) rows.

(** The users of the rows that have their doctor. *)
Definition usersOfRows (rows : list ProfileRow) : list UserProfile :=
  flat_map (fun p => match r_doctor p with
                     | Some n => [userOfRow p n]
                     | None => []
                     end) rows.

(** The notification of a write that succeeded. *)
Definition successMessage (op : Operation) : jsstring :=
  match op with
  | SaveSurgery _ editId =>
      str "Cirurgia "
      ++ match editId with
         | Some i => if truthy i then str "atualizada" else str "salva"
         | None => str "salva"
         end ++ str "!"
  | DropSurgery _ _ => str "Cirurgia movida com sucesso!"
  | AddDoctor _ => medico ++ str " adicionado!"
  | DeleteDoctor _ => medico ++ 32%N :: excluido
  | AddHospital _ => str "Hospital adicionado!"
  | DeleteHospital _ => str "Hospital " ++ excluido
  | AddPlan _ => convenio ++ str " adicionado!"
  | DeletePlan _ => convenio ++ 32%N :: excluido
  end.

(* ================================================================== *)
(** * What the application shows (App) *)
(* ================================================================== *)

(** The views of the navigation; [currentView] is one of them. *)
Inductive View := ViewDashboard | ViewAgenda | ViewRelatorios | ViewCadastros | ViewAdmin.

(** What the root component puts on the screen. *)
Inductive Screen :=
| LoginScreen | LoadingSpinner | NoContent
| DashboardScreen | CalendarScreen | ReportsScreen | SettingsScreen
| AdminScreen | AccessDenied.

Definition renderContent (st : AppState) (currentView : View) : Screen :=
  if loading st then LoadingSpinner
  else
    match loggedInProfile st with
    | None => NoContent
    | Some profile =>
        match currentView with
        | ViewDashboard => DashboardScreen
        | ViewAgenda => CalendarScreen
        | ViewRelatorios => ReportsScreen
        | ViewCadastros => SettingsScreen
        | ViewAdmin => if u_is_admin profile then AdminScreen else AccessDenied
        end
    end.

(** The root of [App]: the login view without a session or without a
    profile, and else the header with the content of the current view. *)
Definition appScreen (st : AppState) (currentView : View) : Screen :=
  match session st, loggedInProfile st with
  | Some _, Some _ => renderContent st currentView
  | _, _ => LoginScreen
  end.

(* ================================================================== *)
(** * Vocabulary of the properties of the forms, lists and reports *)
(* ================================================================== *)

(** A material the form accepts: its name is not blank and its quantity is
    not zero or less. *)
Definition validMaterial (m : Material) : Prop :=
  trim (m_name m) <> [] /\ PrimFloat.leb (m_quantity m) PrimFloat.zero = false.

Definition filterKeyEqb (a b : FilterKey) : bool :=
  match a, b with
  | KAuthStatus, KAuthStatus | KSurgeryStatus, KSurgeryStatus
  | KHospitalId, KHospitalId | KInsuranceId, KInsuranceId => true
  | _, _ => false
  end.

(** The surgeries of [l] that the report counts under the hospital name
    [name]. *)
Definition countedUnder (hospitals : list Hospital) (name : jsstring)
    (l : list Surgery) : nat :=
  List.length (filter (fun s => eqb (reportHospitalName hospitals s) name) l).

(** The requests of a reload: the reads and the sign-out. *)
Definition reloadRequest (q : Request) : Prop :=
  match q with
  | SelectProfile _ | SelectAll _ | SignOut => True
  | _ => False
  end.

(** A string that neither begins nor ends with white space. *)
Definition trimmed (s : jsstring) : Prop :=
  (forall c r, s = c :: r -> isWhiteSpace c = false)
  /\ (forall c r, s = r ++ [c] -> isWhiteSpace c = false).

(** The three kinds of reference data of the settings, with their add
    handler and their table. *)
Inductive ReferenceKind := KindHospital | KindPlan | KindDoctor.

Definition settingsAdd (kind : ReferenceKind)
    : Host -> option JsError -> ReloadResponses -> jsstring -> M jsstring :=
  match kind with
  | KindHospital => Settings.handleAddHospital
  | KindPlan => Settings.handleAddPlan
  | KindDoctor => Settings.handleAddDoctor
  end.

Definition tableOf (kind : ReferenceKind) : jsstring :=
  match kind with
  | KindHospital => str "hospitals"
  | KindPlan => str "insurance_plans"
  | KindDoctor => str "doctors"
  end.

(** The surgery has a date the host can read, and it is on the local
    calendar day of the instant [d]. *)
Definition onLocalDay (host : Host) (d : Z) (s : Surgery) : Prop :=
  exists ts, newDateString host (dateTime s) = Some ts /\ sameLocalDay host ts d.

(** Both surgeries have a date, and the first is not later than the
    second. *)
Definition notLater (host : Host) (a b : Surgery) : Prop :=
  exists ta tb,
    newDateString host (dateTime a) = Some ta
    /\ newDateString host (dateTime b) = Some tb /\ ta <= tb.

(** The surgery is at the instant [ts]. *)
Definition startsAt (host : Host) (ts : Z) (s : Surgery) : bool :=
  numEq (getTime (newDateString host (dateTime s))) (Some ts).

(** The value of a date input: YYYY-MM-DD. *)
Definition isoDate (y m d : Z) : jsstring :=
  pad 4 y ++ 45%N :: pad 2 m ++ 45%N :: pad 2 d.

(** The value of a date-and-time input: YYYY-MM-DDTHH:mm. *)
Definition localDateTimeText (y m d h mi : Z) : jsstring :=
  isoDate y m d ++ 84%N :: pad 2 h ++ 58%N :: pad 2 mi.

(** Report filters without a date range. *)
Definition anyDate (doctor : jsstring) : ReportFilters :=
  {| startDate := []; endDate := []; doctorId := doctor |}.

(* ================================================================== *)
(** * The application at run time: renders, the effect on the session,
      and the reloads in flight *)
(* ================================================================== *)

(** The handlers of the sync controller above are the functions of the
    source taken alone, with their own reload run to its end. At run time
    React renders between their steps. Every change of the list of
    notifications renders [ToastProvider] again, which hands [App] a new
    [addToast]; [fetchData] is memoised on [addToast] and is then a new
    function too, so the effect of [App] on [session] and [fetchData] runs
    again: with a session it starts a reload, without one it clears the
    logged-in profile. A reload stops at each [await], and the reloads in
    flight go on in the order in which the store answers them. This section
    has the operations as they run: the steps of the handler, the renders
    and the reloads, until nothing is in flight any more. *)

(** Where a reload stands while it waits. *)
Inductive ReloadPhase :=
| AwaitProfile | AwaitSignOut | SignedOut | AwaitData | Finished.

(** [fetchData] up to its first [await]. *)
Definition reloadStart (currentSession : Session) : M unit :=
  setLoading true ;; request (SelectProfile (user_id currentSession)).

(** The [catch] block of [fetchData] and then its [finally] block. *)
Definition reloadCaught (e : JsError) : M unit :=
  fetchDataCatch e ;; setLoading false.

(** [fetchData] after the five reads have been answered, inside its [try]. *)
Definition reloadData (host : Host) (r : ReloadResponses) : M unit :=
  throwIfError (doctorsRes r) ;; setDoctors (dataOrEmpty (doctorsRes r)) ;;
  throwIfError (surgeriesRes r) ;; setSurgeries (dataOrEmpty (surgeriesRes r)) ;;
  throwIfError (hospitalsRes r) ;; setHospitals (dataOrEmpty (hospitalsRes r)) ;;
  throwIfError (plansRes r) ;; setInsurancePlans (dataOrEmpty (plansRes r)) ;;
  throwIfError (profilesRes r) ;;
  allUsers <- match data (profilesRes r) with
              | Some rows => mapDoctorName host rows
              | None => throw {| message := nullPropertyMessage host (str "map") |}
              end ;;
  setUserProfiles allUsers.

(** [fetchData] from one [await] to the next, or to its end, given what
    the store answers; the result is where the reload stands then. The
    sign-out first reaches the auth-state listener of [App], which clears
    the session, the profile and the loading flag; [fetchData] goes on
    after it, with its [throw]. *)
Definition reloadResume (host : Host) (r : ReloadResponses) (phase : ReloadPhase)
    : M ReloadPhase :=
  match phase with
  | AwaitProfile =>
      match error (profileRes r), data (profileRes r) with
      | None, Some profile =>
          tryCatch
            (loggedInUser <- withDoctorName host profile ;;
             setLoggedInProfile (Some loggedInUser) ;;
             request (SelectAll (str "doctors")) ;;
             request (SelectAll (str "surgeries")) ;;
             request (SelectAll (str "hospitals")) ;;
             request (SelectAll (str "insurance_plans")) ;;
             request (SelectAll (str "user_profiles")) ;;
             ret AwaitData)
            (fun e => reloadCaught e ;; ret Finished)
      | _, _ => request SignOut ;; ret AwaitSignOut
      end
  | AwaitSignOut =>
      setSession None ;; setLoggedInProfile None ;; setLoading false ;;
      ret SignedOut
  | SignedOut => reloadCaught profileNotFound ;; ret Finished
  | AwaitData =>
      tryFinally (tryCatch (reloadData host r) fetchDataCatch)
                 (updApp (withLoading false)) ;;
      ret Finished
  | Finished => ret Finished
  end.

(** A reload that was started, with what the store answers to it. *)
Record Reload := { phase : ReloadPhase; answer : ReloadResponses }.

(** The application between two steps: its world and the reloads started
    so far, in the order they were started, the finished ones included. *)
Record Runtime := { world : World; reloads : list Reload }.

Definition idle (w : World) : Runtime := {| world := w; reloads := [] |}.

(** What the outside decides during an operation: what the store answers
    to each reload, numbered in the order the reloads start, and the order
    in which the answers arrive, each named by the number of its reload.
    An arrival that names no reload, or one that has finished, is passed
    over. *)
Record Outside := { answers : nat -> ReloadResponses; arrivals : list nat }.

Definition sameSession (a b : option Session) : bool :=
  match a, b with
  | None, None => true
  | Some x, Some y => eqb (user_id x) (user_id y)
  | _, _ => false
  end.

(** The render that follows a step, with the effect
    [if (session) fetchData(session) else setLoggedInProfile(null)]; [before]
    is the world of the render before. The effect runs when the session or
    [fetchData] changed, and [fetchData] changed when the notifications
    did; these are only added to, so their number tells. *)
Definition render (out : Outside) (before : World) (rt : Runtime) : Runtime :=
  let w := world rt in
  if negb (Nat.eqb (List.length (toasts w)) (List.length (toasts before)))
     || negb (sameSession (session (app w)) (session (app before)))
  then
    match session (app w) with
    | Some currentSession =>
        {| world := snd (reloadStart currentSession w);
           reloads := reloads rt
                      ++ [{| phase := AwaitProfile;
                             answer := answers out (List.length (reloads rt)) |}] |}
    | None => {| world := updApp (withLoggedInProfile None) w; reloads := reloads rt |}
    end
  else rt.

Fixpoint replaceAt {A : Type} (i : nat) (x : A) (l : list A) : list A :=
  match l, i with
  | [], _ => []
  | _ :: l', O => x :: l'
  | y :: l', S j => y :: replaceAt j x l'
  end.

(** The answer to reload number [i] arrives: the reload goes on to its
    next [await] or to its end, and React renders. A reload that throws
    is over. *)
Definition deliver (host : Host) (out : Outside) (i : nat) (rt : Runtime) : Runtime :=
  match nth_error (reloads rt) i with
  | Some {| phase := Finished |} => rt
  | Some rl =>
      let (res, w') := reloadResume host (answer rl) (phase rl) (world rt) in
      let phase' := match res with
                    | Return p => p
                    | Throw _ => Finished
                    end in
      render out (world rt)
        {| world := w';
           reloads := replaceAt i {| phase := phase'; answer := answer rl |} (reloads rt) |}
  | None => rt
  end.

(** The number of the first reload that has not finished. *)
Fixpoint firstPending (l : list Reload) : option nat :=
  match l with
  | [] => None
  | {| phase := Finished |} :: l' => option_map S (firstPending l')
  | _ :: _ => Some O
  end.

(** The answers still awaited arrive, those of the earlier reload first. *)
Fixpoint drain (host : Host) (out : Outside) (fuel : nat) (rt : Runtime) : Runtime :=
  match fuel with
  | O => rt
  | S fuel' =>
      match firstPending (reloads rt) with
      | Some i => drain host out fuel' (deliver host out i rt)
      | None => rt
      end
  end.

(** From the end of a step of a handler until nothing is in flight: the
    render after the step, the arrivals, and then the answers still
    awaited. An operation starts at most two reloads and a reload waits at
    most three times, so six more arrivals are enough. No other event comes
    in between: no click, and no removal of a notification, by its button
    or by its timer after five seconds, which renders and runs the effect
    as well. *)
Definition settle (host : Host) (out : Outside) (before : World) (rt : Runtime)
    : Runtime :=
  drain host out 6
    (fold_left (fun rt' i => deliver host out i rt') (arrivals out)
               (render out before rt)).

(** What a mutating handler is made of: its write, the text of the
    notification of a write that failed and of one that succeeded, and what
    it does to the form after a write that succeeded. *)
Record Steps := {
  write : Request;
  failureText : JsError -> jsstring;
  successText : jsstring;
  closing : M unit
}.

Definition referenceSteps (q : Request) (errorPrefix okMessage : jsstring) : Steps :=
  {| write := q; failureText := fun e => errorPrefix ++ message e;
     successText := okMessage; closing := ret tt |}.

(** The steps of each handler; a drop that finds no surgery has none, and
    one whose timestamp cannot be written throws before any. *)
Definition stepsOf (host : Host) (op : Operation) (w : World)
    : completion (option Steps) :=
  match op with
  | SaveSurgery formData editId =>
      let payloadId := match editId with
                       | Some i => if truthy i then Some i else None
                       | None => None
                       end in
      Return (Some
        {| write := Upsert payloadId formData;
           failureText := fun e => str "Erro: " ++ message e;
           successText := str "Cirurgia "
                          ++ match payloadId with
                             | Some _ => str "atualizada"
                             | None => str "salva"
                             end ++ str "!";
           closing := setIsModalOpen false ;; setSurgeryToEdit None |})
  | DropSurgery surgeryId newDate =>
      match find (fun s => eqb (id s) surgeryId) (surgeries (app w)) with
      | None => Return None
      | Some surgery =>
          match rescheduleTimestamp host surgery newDate with
          | Return newDateTime =>
              Return (Some (referenceSteps (UpdateDateTime surgeryId newDateTime)
                              (str "Erro ao mover cirurgia: ")
                              (str "Cirurgia movida com sucesso!")))
          | Throw e => Throw e
          end
      end
  | AddDoctor name =>
      Return (Some (referenceSteps (Insert (str "doctors") name)
                      (str "Erro ao adicionar m" ++ 233%N :: str "dico: ")
                      (medico ++ str " adicionado!")))
  | DeleteDoctor rowId =>
      Return (Some (referenceSteps (Delete (str "doctors") rowId)
                      (str "Erro ao excluir m" ++ 233%N :: str "dico: ")
                      (medico ++ 32%N :: excluido)))
  | AddHospital name =>
      Return (Some (referenceSteps (Insert (str "hospitals") name)
                      (str "Erro ao adicionar hospital: ") (str "Hospital adicionado!")))
  | DeleteHospital rowId =>
      Return (Some (referenceSteps (Delete (str "hospitals") rowId)
                      (str "Erro ao excluir hospital: ") (str "Hospital " ++ excluido)))
  | AddPlan name =>
      Return (Some (referenceSteps (Insert (str "insurance_plans") name)
                      (str "Erro ao adicionar conv" ++ 234%N :: str "nio: ")
                      (convenio ++ str " adicionado!")))
  | DeletePlan rowId =>
      Return (Some (referenceSteps (Delete (str "insurance_plans") rowId)
                      (str "Erro ao excluir conv" ++ 234%N :: str "nio: ")
                      (convenio ++ 32%N :: excluido)))
  end.

(** [if (session) fetchData(session)] of a handler, up to the first [await]
    of the reload; [closureSession] is the session of the render the
    handler was created in. *)
Definition ownReload (out : Outside) (closureSession : option Session) (w : World)
    : Runtime :=
  match closureSession with
  | Some currentSession =>
      {| world := snd (reloadStart currentSession w);
         reloads := [{| phase := AwaitProfile; answer := answers out 0%nat |}] |}
  | None => idle w
  end.

(** A mutating operation from the event to the moment nothing is in flight
    any more: the handler sends its write and waits; on the answer it
    notifies and, after a write that succeeded, starts its own reload;
    then React renders and the reloads go on as the outside has it. The
    result is what the handler itself returns or throws. *)
Definition perform (host : Host) (op : Operation) (writeError : option JsError)
    (out : Outside) (w : World) : completion unit * Runtime :=
  match stepsOf host op w with
  | Throw e => (Throw e, idle w)
  | Return None => (Return tt, idle w)
  | Return (Some steps) =>
      let sent := snd (request (write steps) w) in
      (Return tt,
       settle host out sent
         match writeError with
         | Some e => idle (snd (addToast (failureText steps e) Error sent))
         | None =>
             ownReload out (session (app w))
               (snd ((addToast (successText steps) Success ;; closing steps) sent))
         end)
  end.


(* ------------------------------------------------------------------ *)
(** Vocabulary of the properties of the run time *)

(** The error a reload ends with, [None] for a reload that succeeds: the
    fixed error of the profile lookup when the lookup fails or finds
    nothing, whatever the store said; the TypeError of the host when a
    profile has no doctor or the profiles come without data; and the error
    of the store for the first of the five reads that failed. *)
Definition reloadError (host : Host) (r : ReloadResponses) : option JsError :=
  match error (profileRes r), data (profileRes r) with
  | None, Some profile =>
      match r_doctor profile with
      | None => Some {| message := nullPropertyMessage host (str "name") |}
      | Some _ =>
          match error (doctorsRes r), error (surgeriesRes r), error (hospitalsRes r),
                error (plansRes r), error (profilesRes r) with
          | Some e, _, _, _, _ => Some e
          | None, Some e, _, _, _ => Some e
          | None, None, Some e, _, _ => Some e
          | None, None, None, Some e, _ => Some e
          | None, None, None, None, Some e => Some e
          | None, None, None, None, None =>
              match data (profilesRes r) with
              | None => Some {| message := nullPropertyMessage host (str "map") |}
              | Some rows =>
                  if forallb (fun p => match r_doctor p with
                                       | Some _ => true
                                       | None => false
                                       end) rows
                  then None
                  else Some {| message := nullPropertyMessage host (str "name") |}
              end
          end
      end
  | _, _ => Some profileNotFound
  end.

(** The notifications of a reload: none, or the one of its error. *)
Definition reloadToasts (host : Host) (r : ReloadResponses) : list Toast :=
  match reloadError host r with
  | Some e => [errorToast (str "Erro ao carregar dados: ") e]
  | None => []
  end.

(** The write request of an operation on the world [w]: a drop has one
    when its surgery is found and its timestamp can be written. *)
Definition writeSent (host : Host) (op : Operation) (w : World) (q : Request) : Prop :=
  match op with
  | SaveSurgery formData editId =>
      q = Upsert match editId with
                 | Some i => if truthy i then Some i else None
                 | None => None
                 end formData
  | DropSurgery surgeryId newDate =>
      exists surgery newDateTime,
        find (fun s => eqb (id s) surgeryId) (surgeries (app w)) = Some surgery
        /\ rescheduleTimestamp host surgery newDate = Return newDateTime
        /\ q = UpdateDateTime surgeryId newDateTime
  | AddDoctor name => q = Insert (str "doctors") name
  | DeleteDoctor rowId => q = Delete (str "doctors") rowId
  | AddHospital name => q = Insert (str "hospitals") name
  | DeleteHospital rowId => q = Delete (str "hospitals") rowId
  | AddPlan name => q = Insert (str "insurance_plans") name
  | DeletePlan rowId => q = Delete (str "insurance_plans") rowId
  end.

(** The requests of a reload for the user [userId]: the profile lookup,
    then the sign-out when the lookup fails or finds nothing, nothing when
    the profile has no doctor, and else the five reads. *)
Definition reloadReads (userId : jsstring) (r : ReloadResponses) : list Request :=
  SelectProfile userId
  :: match error (profileRes r), data (profileRes r) with
     | None, Some profile =>
         match r_doctor profile with
         | None => []
         | Some _ =>
             [SelectAll (str "doctors"); SelectAll (str "surgeries");
              SelectAll (str "hospitals"); SelectAll (str "insurance_plans");
              SelectAll (str "user_profiles")]
         end
     | _, _ => [SignOut]
     end.

(** Every reload that was started has come to its end. *)
Definition allFinished (rt : Runtime) : Prop :=
  Forall (fun rl => phase rl = Finished) (reloads rt).

(** The awaits a reload has before it, at most. *)
Definition awaitsLeft (p : ReloadPhase) : nat :=
  match p with
  | AwaitProfile => 3
  | AwaitSignOut => 2
  | SignedOut | AwaitData => 1
  | Finished => 0
  end.

Fixpoint awaitsLeftAll (l : list Reload) : nat :=
  match l with
  | [] => 0%nat
  | rl :: l' => (awaitsLeft (phase rl) + awaitsLeftAll l')%nat
  end.

(** The phase is one the reload can be in, given what the store answers:
    it waits for the sign-out only when the profile lookup failed or found
    nothing, and for the five reads only when the profile has its doctor. *)
Definition phaseFits (r : ReloadResponses) (p : ReloadPhase) : Prop :=
  match p with
  | AwaitSignOut | SignedOut =>
      match error (profileRes r), data (profileRes r) with
      | None, Some _ => False
      | _, _ => True
      end
  | AwaitData =>
      match error (profileRes r), data (profileRes r) with
      | None, Some profile => r_doctor profile <> None
      | _, _ => False
      end
  | AwaitProfile | Finished => True
  end.

(** The notifications a reload has emitted when it stands at [phase]. *)
Definition emitted (host : Host) (rl : Reload) : list Toast :=
  match phase rl with
  | Finished => reloadToasts host (answer rl)
  | _ => []
  end.

(** A reload run from [p] to its end without anything in between. *)
Fixpoint finish (host : Host) (r : ReloadResponses) (fuel : nat) (p : ReloadPhase)
    (w : World) : World :=
  match fuel with
  | O => w
  | S fuel' =>
      match p with
      | Finished => w
      | _ =>
          let (res, w') := reloadResume host r p w in
          match res with
          | Return p' => finish host r fuel' p' w'
          | Throw _ => w'
          end
      end
  end.

(** What holds of the run time while the reloads with the answers [given]
    go on from the world [base]: each reload is in a phase that fits its
    answers; the notifications added are those the reloads have emitted, in
    some order, and once there is one the session is cleared; the requests
    added are requests of a reload; the form is left alone; the surgeries
    are those of [base] or what the store answered to one of the reloads;
    the session is that of [base] or none; and the loading flag is down
    once every reload has come to its end. *)
Definition reloadsRunning (host : Host) (base : World) (given : list ReloadResponses)
    (rt : Runtime) : Prop :=
  map answer (reloads rt) = given
  /\ Forall (fun rl => phaseFits (answer rl) (phase rl)) (reloads rt)
  /\ (exists errs, toasts (world rt) = toasts base ++ errs
                   /\ Permutation errs (flat_map (emitted host) (reloads rt))
                   /\ (errs = [] \/ session (app (world rt)) = None))
  /\ (exists rest, requests (world rt) = requests base ++ rest
                   /\ Forall reloadRequest rest)
  /\ isModalOpen (app (world rt)) = isModalOpen (app base)
  /\ surgeryToEdit (app (world rt)) = surgeryToEdit (app base)
  /\ (surgeries (app (world rt)) = surgeries (app base)
      \/ exists r, In r given
                   /\ surgeries (app (world rt)) = dataOrEmpty (surgeriesRes r))
  /\ (session (app (world rt)) = session (app base)
      \/ session (app (world rt)) = None)
  /\ (allFinished rt -> given <> [] -> loading (app (world rt)) = false).

(* ================================================================== *)
(** * Properties of host strings *)
(* ================================================================== *)

Lemma eqb_eq (a b : jsstring) : eqb a b = true <-> a = b.
Proof.
  revert b; induction a as [|x a IH]; destruct b as [|y b]; simpl;
    try (split; [discriminate | discriminate]); try tauto.
  rewrite andb_true_iff, N.eqb_eq, IH.
  split; [intros [-> ->]; reflexivity | intros H; inversion H; auto].
Qed.

Lemma eqb_refl (a : jsstring) : eqb a a = true.
Proof. apply eqb_eq; reflexivity. Qed.

Lemma eqb_neq (a b : jsstring) : eqb a b = false <-> a <> b.
Proof.
  rewrite <- eqb_eq. destruct (eqb a b); split; congruence.
Qed.

Lemma arrayIncludes_In (l : list jsstring) (x : jsstring) :
  arrayIncludes l x = true <-> In x l.
Proof.
  unfold arrayIncludes. rewrite existsb_exists. split.
  - intros (y & Hy & E). apply eqb_eq in E. subst; exact Hy.
  - intros H. exists x. split; [exact H | apply eqb_refl].
Qed.

(** One guard of the filter callback against its reading in the
    specification. *)
Lemma field_guard (filterValue field : jsstring) :
  negb (eqb filterValue all) && negb (eqb field filterValue) = false
  <-> passesField filterValue field.
Proof.
  unfold passesField.
  destruct (eqb filterValue all) eqn:Ea; destruct (eqb field filterValue) eqn:Ef; simpl.
  - apply eqb_eq in Ea. split; [intros _ H; contradiction | reflexivity].
  - apply eqb_eq in Ea. split; [intros _ H; contradiction | reflexivity].
  - apply eqb_eq in Ef. split; [intros _ _; exact Ef | reflexivity].
  - apply eqb_neq in Ea. apply eqb_neq in Ef.
    split; [discriminate | intros H; elim Ef; apply H; exact Ea].
Qed.

Lemma doctor_guard (doctorFilter : jsstring) (s : Surgery) :
  negb (eqb doctorFilter all) && negb (eqb (mainSurgeonId s) doctorFilter)
    && negb (arrayIncludes (participatingIds s) doctorFilter) = false
  <-> passesDoctor doctorFilter s.
Proof.
  unfold passesDoctor.
  destruct (eqb doctorFilter all) eqn:Ea; simpl.
  - apply eqb_eq in Ea. split; [intros _ H; contradiction | reflexivity].
  - apply eqb_neq in Ea.
    destruct (eqb (mainSurgeonId s) doctorFilter) eqn:Em; simpl.
    + apply eqb_eq in Em. split; [intros _ _; left; congruence | reflexivity].
    + apply eqb_neq in Em.
      destruct (arrayIncludes (participatingIds s) doctorFilter) eqn:Ei; simpl.
      * apply arrayIncludes_In in Ei. split; [intros _ _; right; exact Ei | reflexivity].
      * split; [discriminate |].
        intros H. destruct (H Ea) as [E | E]; [congruence |].
        apply arrayIncludes_In in E. congruence.
Qed.

Lemma keepSurgery_spec (doctorFilter : jsstring) (f : AdvancedFilters) (s : Surgery) :
  keepSurgery doctorFilter f s = true <-> passesAll doctorFilter f s.
Proof.
  unfold keepSurgery, passesAll.
  rewrite <- doctor_guard, <- !field_guard.
  repeat match goal with
         | |- context [if ?b then false else _] => destruct b
         end; intuition congruence.
Qed.

(* ================================================================== *)
(** * The filter pipeline *)
(* ================================================================== *)

(** C4. A surgery is kept by the calendar's filter pipeline exactly when it
    is in the collection and passes every active filter: the doctor filter,
    when it is not "all", names the main surgeon or a participating doctor,
    and each of the four field filters that is not "all" equals the
    surgery's field. The kept surgeries are the passing ones in their
    original order. *)
Theorem filteredSurgeries_keeps_iff :
  forall (surgeries : list Surgery) (doctorFilter : jsstring)
         (advancedFilters : AdvancedFilters) (s : Surgery),
    (In s (filteredSurgeries surgeries doctorFilter advancedFilters)
     <-> In s surgeries /\ passesAll doctorFilter advancedFilters s)
    /\ (forall s', keepSurgery doctorFilter advancedFilters s' = true
                   <-> passesAll doctorFilter advancedFilters s').
Proof.
  intros surgeries doctorFilter f s. split.
  - unfold filteredSurgeries. rewrite filter_In, keepSurgery_spec. tauto.
  - intros s'. apply keepSurgery_spec.
Qed.

(** C7. With the doctor filter and the four field filters all set to "all"
    the pipeline returns the collection itself, same elements in the same
    order. *)
Theorem filteredSurgeries_all_identity :
  forall surgeries : list Surgery,
    filteredSurgeries surgeries all noFilters = surgeries.
Proof.
  intros surgeries. unfold filteredSurgeries.
  induction surgeries as [|s l IH]; simpl; [reflexivity |].
  rewrite IH. reflexivity.
Qed.

(* ================================================================== *)
(** * Header search *)
(* ================================================================== *)

Lemma startsWith_prefix (s p : jsstring) :
  startsWith s p = true <-> exists after, s = p ++ after.
Proof.
  revert s; induction p as [|y p IH]; intros s; simpl.
  - split; [intros _; exists s; reflexivity | destruct s; reflexivity].
  - destruct s as [|x s].
    + split; [discriminate | intros [after E]; discriminate].
    + simpl. rewrite andb_true_iff, N.eqb_eq, IH. split.
      * intros [-> [after ->]]. exists after. reflexivity.
      * intros [after E]. inversion E; subst. split; [reflexivity | eauto].
Qed.

Lemma includes_unfold (s q : jsstring) :
  includes s q = startsWith s q || match s with [] => false | _ :: s' => includes s' q end.
Proof. destruct s; reflexivity. Qed.

Lemma includes_occurs (s q : jsstring) :
  includes s q = true <-> exists before after, s = before ++ q ++ after.
Proof.
  induction s as [|x s IH]; rewrite includes_unfold, orb_true_iff, startsWith_prefix.
  - split.
    + intros [[after E] | H]; [exists [], after; exact E | discriminate].
    + intros (before & after & E). left. exists after.
      destruct before; [exact E | discriminate].
  - rewrite IH. split.
    + intros [[after E] | (before & after & E)].
      * exists [], after. exact E.
      * exists (x :: before), after. simpl. congruence.
    + intros (before & after & E). destruct before as [|b before]; simpl in E.
      * left. exists after. exact E.
      * right. exists before, after. congruence.
Qed.

Lemma trimStart_nil (s : jsstring) :
  trimStart s = [] <-> forallb isWhiteSpace s = true.
Proof.
  induction s as [|c s IH]; simpl; [tauto |].
  destruct (isWhiteSpace c); simpl; [exact IH | split; discriminate].
Qed.

Lemma trimStart_head (s : jsstring) (c : N) (r : jsstring) :
  trimStart s = c :: r -> isWhiteSpace c = false.
Proof.
  induction s as [|x s IH]; simpl; [discriminate |].
  destruct (isWhiteSpace x) eqn:E; [exact IH | congruence].
Qed.

Lemma trim_nil (s : jsstring) :
  trim s = [] <-> forallb isWhiteSpace s = true.
Proof.
  unfold trim, trimEnd. rewrite <- trimStart_nil. split.
  - intros H. destruct (trimStart s) as [|c r] eqn:E; [reflexivity |].
    apply (f_equal (@rev N)) in H. rewrite rev_involutive in H. simpl in H.
    apply trimStart_nil in H. rewrite forallb_forall in H.
    apply trimStart_head in E.
    rewrite (H c) in E; [discriminate | apply in_or_app; right; left; reflexivity].
  - intros ->. reflexivity.
Qed.

(** C8. The header search returns nothing for a query that is empty or made
    of white space only; for any other query it returns, in their order,
    exactly the surgeries whose patient name contains the query when case
    is ignored. *)
Theorem searchedSurgeries_spec :
  forall (host : Host) (surgeries : list Surgery) (searchQuery : jsstring),
    ((forall c, In c searchQuery -> isWhiteSpace c = true) ->
     searchedSurgeries host searchQuery surgeries = [])
    /\ ((exists c, In c searchQuery /\ isWhiteSpace c = false) ->
        searchedSurgeries host searchQuery surgeries
        = filter (fun s => includes (toLowerCase host (patientName s))
                                    (toLowerCase host searchQuery)) surgeries
        /\ forall s, In s (searchedSurgeries host searchQuery surgeries)
                     <-> In s surgeries
                         /\ containsIgnoringCase host (patientName s) searchQuery).
Proof.
  intros host surgeries q. unfold searchedSurgeries. split.
  - intros Hws. apply forallb_forall in Hws. apply trim_nil in Hws.
    rewrite Hws. reflexivity.
  - intros (c & Hc & Hnw).
    assert (Ht : truthy (trim q) = true).
    { destruct (trim q) eqn:E; [| reflexivity].
      apply trim_nil in E. rewrite forallb_forall in E.
      rewrite (E c Hc) in Hnw. discriminate. }
    rewrite Ht. simpl. split; [reflexivity |].
    intros s. rewrite filter_In, includes_occurs. reflexivity.
Qed.

(** A query and a collection on which the search is not empty. *)
Lemma searchedSurgeries_spec_witness :
  let s := sampleSurgery (str "2024-03-15T10:00") Agendada 0%float in
  searchedSurgeries utc (str "  ") [s] = []
  /\ searchedSurgeries utc (str "SILVA") [s] = [s].
Proof.
  intros s.
  destruct (searchedSurgeries_spec utc [s] (str "  ")) as [Hempty _].
  destruct (searchedSurgeries_spec utc [s] (str "SILVA")) as [_ Hsome].
  split.
  - apply Hempty. intros c Hc. simpl in Hc.
    destruct Hc as [<- | [<- | []]]; reflexivity.
  - destruct Hsome as [E _].
    + exists 83%N. split; [left; reflexivity | reflexivity].
    + rewrite E. reflexivity.
Defined.

(* ================================================================== *)
(** * Sync controller *)
(* ================================================================== *)

Ltac unfold_m :=
  unfold fetchDataCatch, signOut, throwIfError, withDoctorName, reloadIfSession,
    setSession, setLoading, setDoctors, setUserProfiles, setSurgeries, setHospitals,
    setInsurancePlans, setLoggedInProfile, setIsModalOpen, setSurgeryToEdit,
    tryCatch, tryFinally, bind, ret, throw, modify, addToast, request, updApp in *.

Lemma mapDoctorName_world (host : Host) (rows : list ProfileRow) (w : World) :
  snd (mapDoctorName host rows w) = w.
Proof.
  induction rows as [|p rows IH]; simpl; [reflexivity |].
  unfold bind, withDoctorName.
  destruct (r_doctor p); simpl; [| reflexivity].
  unfold ret at 1. destruct (mapDoctorName host rows w) as [[us | e] w'] eqn:E;
    simpl in IH; subst; reflexivity.
Qed.

Lemma find_unknown_id (surgeryId : jsstring) (l : list Surgery) :
  (forall s, In s l -> id s <> surgeryId) ->
  find (fun s => eqb (id s) surgeryId) l = None.
Proof.
  induction l as [|x l IH]; intros H; simpl; [reflexivity |].
  destruct (eqb (id x) surgeryId) eqn:E.
  - apply eqb_eq in E. elim (H x (or_introl eq_refl) E).
  - apply IH. intros s Hs. apply H. right. exact Hs.
Qed.

(** A failed write of one of the reference handlers. *)
Lemma referenceWrite_failed (q : Request) (prefix okMessage : jsstring) (host : Host)
    (e : JsError) (r : ReloadResponses) (w : World) :
  let w' := snd (referenceWrite q prefix okMessage host (Some e) r w) in
  app w' = app w
  /\ requests w' = requests w ++ [q]
  /\ toasts w' = toasts w ++ [errorToast prefix e].
Proof. repeat split. Qed.

Lemma fetchData_unfold (host : Host) (r : ReloadResponses) (s : Session) (w : World) :
  fetchData host r s w
  = let (res, w') :=
      match fetchDataBody host r s (updApp (withLoading true) w) with
      | (Return a, w1) => (Return a, w1)
      | (Throw e, w1) => fetchDataCatch e w1
      end in
    (res, updApp (withLoading false) w').
Proof. reflexivity. Qed.

(** C10. A drop whose surgery id names no surgery of the in-memory collection
    does nothing: the handler returns with the world as it was, so no request
    has been issued, no state has changed and no notification been emitted. *)
Theorem drop_unknown_id_noop :
  forall (host : Host) (updateError : option JsError) (r : ReloadResponses)
         (surgeryId : jsstring) (newDate : Date) (w : World),
    (forall s, In s (surgeries (app w)) -> id s <> surgeryId) ->
    handleSurgeryDrop host updateError r surgeryId newDate w = (Return tt, w).
Proof.
  intros host updateError r surgeryId newDate w H.
  unfold handleSurgeryDrop. rewrite (find_unknown_id _ _ H). reflexivity.
Qed.

Lemma drop_unknown_id_noop_witness :
  let s := sampleSurgery (str "2024-03-15T10:00") Agendada 0%float in
  let w := {| app := {| session := Some {| user_id := str "u1" |}; loading := false;
                        doctors := []; userProfiles := []; surgeries := [s];
                        hospitals := []; insurancePlans := [];
                        loggedInProfile := None; isModalOpen := false;
                        surgeryToEdit := None |};
              toasts := []; requests := [] |} in
  let r := {| profileRes := {| data := None; error := None |};
              doctorsRes := noResponse; surgeriesRes := noResponse;
              hospitalsRes := noResponse; plansRes := noResponse;
              profilesRes := noResponse |} in
  handleSurgeryDrop utc None r (str "s2") (Some 1710892800000) w = (Return tt, w).
Proof.
  intros s w r.
  apply (drop_unknown_id_noop utc None r (str "s2") (Some 1710892800000) w).
  intros x [<- | []]. discriminate.
Defined.

(* ================================================================== *)
(** * Host dates: days, years and months *)
(* ================================================================== *)

Ltac zdiv := Z.div_mod_to_equations; lia.

(** Closed goals [landsOnDay host x] and [wallClockExists host x]. *)
Ltac lands_on_day :=
  split; [split; vm_compute; discriminate | vm_compute; reflexivity].

Ltac case_ltb :=
  repeat match goal with
         | |- context [Z.ltb ?a ?b] => destruct (Z.ltb_spec a b); try lia
         end.

Lemma DaysInYear_cases (y : Z) : DaysInYear y = 365 \/ DaysInYear y = 366.
Proof.
  unfold DaysInYear.
  repeat match goal with |- context [if ?b then _ else _] => destruct b end; auto.
Qed.

Lemma DayFromYear_step (y : Z) : DayFromYear (y + 1) = DayFromYear y + DaysInYear y.
Proof.
  unfold DayFromYear, DaysInYear.
  destruct (Z.eqb_spec (y mod 4) 0); cbn [negb];
    [destruct (Z.eqb_spec (y mod 100) 0); cbn [negb];
     [destruct (Z.eqb_spec (y mod 400) 0); cbn [negb] |] |];
    zdiv.
Qed.

Lemma DayFromYear_lt (y1 y2 : Z) : y1 < y2 -> DayFromYear y1 < DayFromYear y2.
Proof. unfold DayFromYear. intros H. zdiv. Qed.

Lemma DayFromYear_le (y1 y2 : Z) : y1 <= y2 -> DayFromYear y1 <= DayFromYear y2.
Proof.
  intros H. destruct (Z.eq_dec y1 y2) as [-> | N]; [lia |].
  apply Z.lt_le_incl, DayFromYear_lt. lia.
Qed.

(** [YearFromDay] meets its specification: it is the year the day lies in. *)
Lemma YearFromDay_spec (d : Z) :
  DayFromYear (YearFromDay d) <= d < DayFromYear (YearFromDay d + 1).
Proof.
  unfold YearFromDay.
  set (y := 1970 + 400 * d / 146097).
  assert (Hy : 146097 * (y - 1970) <= 400 * d < 146097 * (y - 1970) + 146097)
    by (subst y; zdiv).
  clearbody y.
  destruct (Z.ltb_spec d (DayFromYear y)).
  - replace (y - 1 + 1) with y by lia. split; [| lia].
    unfold DayFromYear in *. zdiv.
  - destruct (Z.leb_spec (DayFromYear (y + 1)) d); [| lia].
    split; [lia |]. unfold DayFromYear in *. zdiv.
Qed.

Lemma YearFromDay_unique (y d : Z) :
  DayFromYear y <= d < DayFromYear (y + 1) -> YearFromDay d = y.
Proof.
  intros H. pose proof (YearFromDay_spec d) as S.
  destruct (Z.lt_trichotomy (YearFromDay d) y) as [L | [E | G]]; [| exact E |].
  - pose proof (DayFromYear_le (YearFromDay d + 1) y). lia.
  - pose proof (DayFromYear_le (y + 1) (YearFromDay d)). lia.
Qed.

(** The largest-year reading of the standard: no later year starts on or
    before the day. *)
Lemma YearFromDay_largest (d y : Z) : DayFromYear y <= d -> y <= YearFromDay d.
Proof.
  intros H. pose proof (YearFromDay_spec d) as S.
  destruct (Z.le_gt_cases y (YearFromDay d)) as [L | G]; [exact L |].
  pose proof (DayFromYear_le (YearFromDay d + 1) y). lia.
Qed.

Lemma DayWithinYear_range (t : Z) :
  0 <= DayWithinYear t < DaysInYear (YearFromTime t).
Proof.
  unfold DayWithinYear, YearFromTime.
  pose proof (YearFromDay_spec (Day t)) as S.
  rewrite DayFromYear_step in S. lia.
Qed.

Lemma InLeapYear_DaysInYear (t : Z) :
  DaysInYear (YearFromTime t) = 365 + InLeapYear t.
Proof.
  unfold InLeapYear. destruct (DaysInYear_cases (YearFromTime t)) as [E | E];
    rewrite E; reflexivity.
Qed.

Lemma MonthFromTime_range (t : Z) : 0 <= MonthFromTime t <= 11.
Proof. unfold MonthFromTime. case_ltb. Qed.

Lemma InLeapYear_cases (t : Z) : InLeapYear t = 0 \/ InLeapYear t = 1.
Proof. unfold InLeapYear. destruct (_ =? _); auto. Qed.

(** [MakeDay] on a month of the year itself. *)
Lemma MakeDay_normal (y m dt : Z) :
  0 <= m <= 11 ->
  MakeDay y m dt
  = DayFromYear y + daysBeforeMonth (if DaysInYear y =? 366 then 1 else 0) m + dt - 1.
Proof.
  intros H. unfold MakeDay.
  replace (m / 12) with 0 by zdiv. replace (m mod 12) with m by zdiv.
  rewrite Z.add_0_r. reflexivity.
Qed.

(** The date fields of a time value give its day back. *)
Lemma MakeDay_fields (t : Z) :
  MakeDay (YearFromTime t) (MonthFromTime t) (DateFromTime t) = Day t.
Proof.
  rewrite MakeDay_normal by apply MonthFromTime_range.
  change (if DaysInYear (YearFromTime t) =? 366 then 1 else 0) with (InLeapYear t).
  pose proof (DayWithinYear_range t) as R.
  rewrite InLeapYear_DaysInYear in R.
  pose proof (InLeapYear_cases t) as HL.
  unfold DateFromTime, MonthFromTime.
  assert (E : Day t = DayFromYear (YearFromTime t) + DayWithinYear t)
    by (unfold DayWithinYear; lia).
  rewrite E. generalize dependent (DayWithinYear t). intros dwy R _.
  generalize dependent (InLeapYear t). intros leap R HL.
  case_ltb; cbv beta iota delta [daysBeforeMonth]; lia.
Qed.

Lemma DateFromTime_range (t : Z) :
  1 <= DateFromTime t <= DaysInMonth (YearFromTime t) (MonthFromTime t).
Proof.
  pose proof (DayWithinYear_range t) as R.
  rewrite InLeapYear_DaysInYear in R.
  unfold DaysInMonth.
  change (DaysInYear (YearFromTime t) =? 366)
    with (DaysInYear (YearFromTime t) =? 366).
  assert (HL : (if DaysInYear (YearFromTime t) =? 366 then 29 else 28)
               = 28 + InLeapYear t)
    by (unfold InLeapYear; destruct (_ =? _); reflexivity).
  rewrite HL. pose proof (InLeapYear_cases t) as HC.
  unfold DateFromTime, MonthFromTime.
  generalize dependent (DayWithinYear t). intros dwy R.
  generalize dependent (InLeapYear t). intros leap _ R HC.
  case_ltb; cbv beta iota; lia.
Qed.

Lemma DaysInMonth_range (y m : Z) : 28 <= DaysInMonth y m <= 31.
Proof.
  unfold DaysInMonth.
  destruct m as [|p|p]; try lia.
  repeat (destruct p as [p|p|]; try lia); destruct (_ =? _); lia.
Qed.

(** Conversely, a day made from a year, a month of it and a date of that
    month has these fields. *)
Lemma fields_of_MakeDay (y m dt t : Z) :
  0 <= m <= 11 -> 1 <= dt <= DaysInMonth y m -> Day t = MakeDay y m dt ->
  YearFromTime t = y /\ MonthFromTime t = m /\ DateFromTime t = dt.
Proof.
  intros Hm Hd E. rewrite MakeDay_normal in E by exact Hm.
  unfold DateFromTime, MonthFromTime, DayWithinYear, InLeapYear, YearFromTime.
  unfold DaysInMonth in Hd.
  pose proof (DayFromYear_step y) as HS.
  assert (Hleap : (if DaysInYear y =? 366 then 29 else 28)
                  = 28 + (if DaysInYear y =? 366 then 1 else 0))
    by (destruct (_ =? _); reflexivity).
  rewrite Hleap in Hd. clear Hleap.
  set (leap := if DaysInYear y =? 366 then 1 else 0) in *.
  assert (HY : DayFromYear (y + 1) = DayFromYear y + 365 + leap).
  { rewrite HS. subst leap.
    destruct (DaysInYear_cases y) as [H | H]; rewrite H; simpl; lia. }
  assert (HC : leap = 0 \/ leap = 1) by (subst leap; destruct (_ =? _); auto).
  assert (Hc : m = 0 \/ m = 1 \/ m = 2 \/ m = 3 \/ m = 4 \/ m = 5 \/ m = 6
               \/ m = 7 \/ m = 8 \/ m = 9 \/ m = 10 \/ m = 11) by lia.
  assert (Hyear : YearFromDay (Day t) = y).
  { apply YearFromDay_unique. rewrite HY, E. clearbody leap. clear HS.
    repeat (destruct Hc as [-> | Hc]); try subst m;
      cbv beta iota delta [daysBeforeMonth] in *; lia. }
  rewrite Hyear. fold leap. rewrite E.
  replace (DayFromYear y + daysBeforeMonth leap m + dt - 1 - DayFromYear y)
    with (daysBeforeMonth leap m + dt - 1) by lia.
  split; [reflexivity |].
  clearbody leap. clear E HY Hyear HS.
  repeat (destruct Hc as [-> | Hc]); try subst m;
    cbv beta iota delta [daysBeforeMonth] in *;
    case_ltb; cbv beta iota; lia.
Qed.

(** Date 0 of the next month is the last day of the month. *)
Lemma MakeDay_date_zero (y m : Z) :
  0 <= m <= 11 -> MakeDay y (m + 1) 0 = MakeDay y m (DaysInMonth y m).
Proof.
  intros Hm. rewrite (MakeDay_normal y m) by exact Hm.
  destruct (Z.eq_dec m 11) as [-> | N].
  - unfold MakeDay. change ((11 + 1) / 12) with 1. change ((11 + 1) mod 12) with 0.
    rewrite DayFromYear_step.
    destruct (DaysInYear_cases y) as [H | H]; rewrite H;
      cbv beta iota delta [daysBeforeMonth DaysInMonth]; simpl; lia.
  - rewrite MakeDay_normal by lia.
    unfold DaysInMonth.
    assert (Hc : m = 0 \/ m = 1 \/ m = 2 \/ m = 3 \/ m = 4 \/ m = 5 \/ m = 6
                 \/ m = 7 \/ m = 8 \/ m = 9 \/ m = 10) by lia.
    repeat (destruct Hc as [-> | Hc]); try subst m;
      cbv beta iota delta [daysBeforeMonth]; simpl;
      destruct (DaysInYear y =? 366); lia.
Qed.

(* ================================================================== *)
(** * Host dates: the time within a day *)
(* ================================================================== *)

Ltac unfold_time :=
  unfold MakeDate, MakeTime, Day, TimeWithinDay, HourFromTime, MinFromTime,
    SecFromTime, msFromTime, msPerDay, msPerHour, msPerMinute, msPerSecond in *.

Lemma Day_MakeDate (d time : Z) :
  0 <= time < msPerDay -> Day (MakeDate d time) = d.
Proof. unfold_time. intros H. zdiv. Qed.

Lemma MakeTime_range (h m s ms : Z) :
  0 <= h <= 23 -> 0 <= m <= 59 -> 0 <= s <= 59 -> 0 <= ms <= 999 ->
  0 <= MakeTime h m s ms < msPerDay.
Proof. unfold_time. lia. Qed.

Lemma time_fields_range (t : Z) :
  0 <= HourFromTime t <= 23 /\ 0 <= MinFromTime t <= 59
  /\ 0 <= SecFromTime t <= 59 /\ 0 <= msFromTime t <= 999.
Proof. unfold_time. repeat split; zdiv. Qed.

(** The fields of a time value give it back. *)
Lemma MakeDate_fields (t : Z) :
  MakeDate (Day t)
    (MakeTime (HourFromTime t) (MinFromTime t) (SecFromTime t) (msFromTime t)) = t.
Proof. unfold_time. zdiv. Qed.

(** The time fields of a wall-clock time made from a day and a time of day. *)
Lemma fields_of_MakeDate (d h m s ms : Z) :
  0 <= h <= 23 -> 0 <= m <= 59 -> 0 <= s <= 59 -> 0 <= ms <= 999 ->
  let x := MakeDate d (MakeTime h m s ms) in
  Day x = d /\ HourFromTime x = h /\ MinFromTime x = m
  /\ SecFromTime x = s /\ msFromTime x = ms.
Proof. unfold_time. intros Hh Hm Hs Hms. repeat split; zdiv. Qed.

(** The date fields and the week day depend on the day only. *)
Lemma same_day_fields (t1 t2 : Z) :
  Day t1 = Day t2 ->
  YearFromTime t1 = YearFromTime t2 /\ MonthFromTime t1 = MonthFromTime t2
  /\ DateFromTime t1 = DateFromTime t2 /\ WeekDay t1 = WeekDay t2.
Proof.
  intros E.
  unfold DateFromTime, MonthFromTime, DayWithinYear, InLeapYear, YearFromTime, WeekDay.
  rewrite E. repeat split.
Qed.

Lemma TimeClip_valid (t : Z) : validTime t -> TimeClip t = Some t.
Proof.
  unfold validTime, TimeClip. intros [H1 H2].
  apply Z.leb_le in H1, H2. rewrite H1, H2. reflexivity.
Qed.


(* ================================================================== *)
(** * Calendar grid *)
(* ================================================================== *)

Lemma MakeFullYear_id (y : Z) : ~ (0 <= y <= 99) -> MakeFullYear y = y.
Proof.
  unfold MakeFullYear. intros H.
  destruct (Z.leb_spec 0 y); destruct (Z.leb_spec y 99); simpl; try reflexivity; lia.
Qed.

(** [new Date(year, month, i)] for a date [i] of the month. *)
Lemma newDateYMD_fields (host : Host) (y m i : Z) :
  ~ (0 <= y <= 99) -> 0 <= m <= 11 -> 1 <= i <= DaysInMonth y m ->
  landsOnDay host (MakeDate (MakeDay y m i) 0) ->
  exists u,
    newDateYMD host (Some y) (Some m) (Some i) = Some u
    /\ YearFromTime (LocalTime host u) = y
    /\ MonthFromTime (LocalTime host u) = m
    /\ DateFromTime (LocalTime host u) = i
    /\ WeekDay (LocalTime host u) = WeekDay (MakeDate (MakeDay y m i) 0).
Proof.
  intros Hy Hm Hi [Hv Hd].
  exists (UTC host (MakeDate (MakeDay y m i) 0)).
  unfold newDateYMD, newDateFields. rewrite (MakeFullYear_id y Hy).
  change (MakeTime 0 0 0 0) with 0. rewrite (TimeClip_valid _ Hv).
  split; [reflexivity |].
  destruct (same_day_fields _ _ Hd) as (EY & EM & ED & EW).
  rewrite EY, EM, ED, EW.
  assert (HD : Day (MakeDate (MakeDay y m i) 0) = MakeDay y m i)
    by (apply Day_MakeDate; unfold msPerDay; lia).
  destruct (fields_of_MakeDay y m i _ Hm Hi HD) as (FY & FM & FD).
  auto.
Qed.

(** The grid of the month [m] of the year [y], for a reference date in it. *)
Lemma calendarGrid_cells (host : Host) (t y m : Z) :
  YearFromTime (LocalTime host t) = y ->
  MonthFromTime (LocalTime host t) = m ->
  ~ (0 <= y <= 99) ->
  (forall i, 1 <= i <= DaysInMonth y m -> landsOnDay host (MakeDate (MakeDay y m i) 0)) ->
  calendarGrid host (Some t)
  = repeat None (Z.to_nat (WeekDay (MakeDate (MakeDay y m 1) 0)))
    ++ map (fun i => Some (newDateYMD host (Some y) (Some m) (Some (Z.of_nat i))))
           (seq 1 (Z.to_nat (DaysInMonth y m))).
Proof.
  intros Ey Em Hy Hz.
  assert (Hm : 0 <= m <= 11) by (rewrite <- Em; apply MonthFromTime_range).
  pose proof (DaysInMonth_range y m) as Hdays.
  unfold calendarGrid, getFullYear, getMonth, getDay, getDate, localField, option_map.
  rewrite Ey, Em.
  destruct (newDateYMD_fields host y m 1 Hy Hm ltac:(lia) (Hz 1 ltac:(lia)))
    as (u1 & E1 & _ & _ & _ & W1).
  rewrite E1, W1.
  destruct (newDateYMD_fields host y m (DaysInMonth y m) Hy Hm ltac:(lia)
              (Hz (DaysInMonth y m) ltac:(lia))) as (u2 & E2 & _ & _ & D2 & _).
  assert (E3 : newDateYMD host (Some y) (Some (m + 1)) (Some 0) = Some u2).
  { rewrite <- E2. unfold newDateYMD, newDateFields.
    rewrite (MakeFullYear_id y Hy), MakeDay_date_zero by exact Hm. reflexivity. }
  rewrite E3, D2. reflexivity.
Qed.

(** C5, amended. For a reference date whose local year is not one of 0 to
    99, in a zone where the midnight of each day of the month lands on that
    day, the month grid is as many empty cells as the week day of day 1
    (Sunday is 0), then one cell per day of the reference month, from day 1
    to the last day; its length is that offset plus the number of days of
    the month, so nothing follows the last day. *)
Theorem calendarGrid_month :
  forall (host : Host) (t : Z),
    let year := YearFromTime (LocalTime host t) in
    let month := MonthFromTime (LocalTime host t) in
    let days := DaysInMonth year month in
    let offset := WeekDay (MakeDate (MakeDay year month 1) 0) in
    let cell := fun i : nat =>
      newDateYMD host (Some year) (Some month) (Some (Z.of_nat i)) in
    ~ (0 <= year <= 99) ->
    (forall i, 1 <= i <= days -> landsOnDay host (MakeDate (MakeDay year month i) 0)) ->
    calendarGrid host (Some t)
    = repeat None (Z.to_nat offset) ++ map (fun i => Some (cell i)) (seq 1 (Z.to_nat days))
    /\ Z.of_nat (List.length (calendarGrid host (Some t))) = offset + days
    /\ (forall i : nat, (1 <= i <= Z.to_nat days)%nat ->
          getFullYear host (cell i) = Some year
          /\ getMonth host (cell i) = Some month
          /\ getDate host (cell i) = Some (Z.of_nat i)).
Proof.
  intros host t.
  generalize (calendarGrid_cells host t _ _ eq_refl eq_refl).
  generalize (MonthFromTime_range (LocalTime host t)).
  generalize (YearFromTime (LocalTime host t)) (MonthFromTime (LocalTime host t)).
  intros y m Hm Hcells. cbv zeta. intros Hy Hz.
  pose proof (DaysInMonth_range y m) as Hdays.
  split; [exact (Hcells Hy Hz) |]. split.
  - rewrite (Hcells Hy Hz), length_app, repeat_length, length_map, length_seq.
    assert (0 <= WeekDay (MakeDate (MakeDay y m 1) 0) < 7) by (unfold WeekDay; zdiv).
    lia.
  - intros i Hi.
    destruct (newDateYMD_fields host y m (Z.of_nat i) Hy Hm ltac:(lia)
                (Hz (Z.of_nat i) ltac:(lia))) as (u & E & FY & FM & FD & _).
    rewrite E. unfold getFullYear, getMonth, getDate, localField, option_map.
    rewrite FY, FM, FD. auto.
Qed.

(** February 2024 seen from Brasilia: four empty cells, then 29 days. *)
Lemma calendarGrid_month_witness :
  let t := 1708002000000 in
  List.length (calendarGrid brasilia (Some t)) = 33%nat
  /\ nth_error (calendarGrid brasilia (Some t)) 3 = Some None
  /\ getDate brasilia (newDateYMD brasilia (Some 2024) (Some 1) (Some 29)) = Some 29.
Proof.
  intros t.
  assert (Hy : ~ (0 <= YearFromTime (LocalTime brasilia t) <= 99))
    by (vm_compute; intros [_ H]; apply H; reflexivity).
  assert (Hz : forall i,
             1 <= i <= DaysInMonth (YearFromTime (LocalTime brasilia t))
                         (MonthFromTime (LocalTime brasilia t)) ->
             landsOnDay brasilia
               (MakeDate (MakeDay (YearFromTime (LocalTime brasilia t))
                            (MonthFromTime (LocalTime brasilia t)) i) 0)).
  { change (YearFromTime (LocalTime brasilia t)) with 2024.
    change (MonthFromTime (LocalTime brasilia t)) with 1.
    change (DaysInMonth 2024 1) with 29.
    intros i Hi.
    assert (Hc : i = 1 \/ i = 2 \/ i = 3 \/ i = 4 \/ i = 5 \/ i = 6 \/ i = 7 \/ i = 8
                 \/ i = 9 \/ i = 10 \/ i = 11 \/ i = 12 \/ i = 13 \/ i = 14 \/ i = 15
                 \/ i = 16 \/ i = 17 \/ i = 18 \/ i = 19 \/ i = 20 \/ i = 21 \/ i = 22
                 \/ i = 23 \/ i = 24 \/ i = 25 \/ i = 26 \/ i = 27 \/ i = 28 \/ i = 29)
      by lia.
    repeat (destruct Hc as [-> | Hc]); try subst i; lands_on_day. }
  destruct (calendarGrid_month brasilia t Hy Hz) as (Hgrid & Hlen & Hcells).
  split; [| split].
  - apply Nat2Z.inj. rewrite Hlen. reflexivity.
  - rewrite Hgrid. reflexivity.
  - assert (Hi : (1 <= 29 <= 29)%nat) by lia.
    destruct (Hcells 29%nat Hi) as (_ & _ & H). exact H.
Defined.

(** C5 as stated fails for a reference date in the year 50: January 50
    begins on a Saturday, and the grid is the 31 days of January 1950 with
    no empty cell before them. It fails in Samoa for December 2011, where
    the cell of day 30 is 31 December. *)
Lemma calendarGrid_counterexample :
  (let t := -60588086400000 in
   getFullYear utc (Some t) = Some 50
   /\ getMonth utc (Some t) = Some 0
   /\ WeekDay (MakeDate (MakeDay 50 0 1) 0) = 6
   /\ List.length (calendarGrid utc (Some t)) = 31%nat
   /\ nth_error (calendarGrid utc (Some t)) 0 = Some (Some (Some (-631152000000)))
   /\ getFullYear utc (Some (-631152000000)) = Some 1950)
  /\ (let t := 1323943200000 in
      getFullYear apia2011 (Some t) = Some 2011
      /\ getMonth apia2011 (Some t) = Some 11
      /\ exists d, nth_error (calendarGrid apia2011 (Some t)) (4 + 29) = Some (Some d)
                   /\ getDate apia2011 d = Some 31).
Proof.
  split.
  - vm_compute. repeat split.
  - split; [reflexivity | split; [reflexivity |]].
    exists (Some 1325239200000). split; vm_compute; reflexivity.
Qed.

(* ================================================================== *)
(** * Date strings: what [toISOString] writes, [Date.parse] reads back *)
(* ================================================================== *)

Lemma digitChar_range (d : Z) : 0 <= d <= 9 -> (48 <= digitChar d <= 57)%N.
Proof. unfold digitChar. lia. Qed.

Lemma digit_digitChar (d : Z) : 0 <= d <= 9 -> digit (digitChar d) = Some d.
Proof.
  intros H. pose proof (digitChar_range d H) as [L U]. unfold digit.
  apply N.leb_le in L, U. rewrite L, U. simpl. f_equal.
  unfold digitChar. lia.
Qed.

Lemma pad_head (k : nat) (n : Z) :
  pad (S k) n = digitChar ((n / 10 ^ Z.of_nat k) mod 10) :: pad k n.
Proof. reflexivity. Qed.

Lemma digits_pad (k : nat) (n acc : Z) (rest : jsstring) :
  digits k acc (pad k n ++ rest)
  = Some (acc * 10 ^ Z.of_nat k + n mod 10 ^ Z.of_nat k, rest).
Proof.
  revert acc. induction k as [|k IH]; intros acc.
  - simpl. rewrite Z.mod_1_r. do 2 f_equal. lia.
  - rewrite pad_head, <- app_comm_cons. cbn [digits].
    rewrite digit_digitChar
      by (pose proof (Z.mod_pos_bound (n / 10 ^ Z.of_nat k) 10); lia).
    rewrite IH. do 2 f_equal.
    assert (HP : 0 < 10 ^ Z.of_nat k) by (apply Z.pow_pos_nonneg; lia).
    rewrite Nat2Z.inj_succ, Z.pow_succ_r by lia.
    rewrite (Z.mul_comm 10 (10 ^ Z.of_nat k)), Z.rem_mul_r by lia. ring.
Qed.

(** Two, three and four digits of a number that has no more. *)
Lemma digits_pad_small (k : nat) (n : Z) (rest : jsstring) :
  0 <= n < 10 ^ Z.of_nat k ->
  digits k 0 (pad k n ++ rest) = Some (n, rest).
Proof.
  intros H. rewrite digits_pad, Z.mod_small by exact H. reflexivity.
Qed.

Lemma parseYear_isoYear (y : Z) (rest : jsstring) :
  -999999 <= y <= 999999 -> parseYear (isoYear y ++ rest) = Some (y, rest).
Proof.
  intros H. unfold isoYear.
  destruct (Z.leb_spec 0 y) as [H0 | H0]; cbn [andb].
  - destruct (Z.leb_spec y 9999) as [H1 | H1].
    + assert (E : parseYear (pad 4 y ++ rest) = digits 4 0 (pad 4 y ++ rest)).
      { rewrite pad_head, <- app_comm_cons. cbn [parseYear].
        pose proof (Z.mod_pos_bound (y / 10 ^ Z.of_nat 3) 10 ltac:(lia)) as B.
        pose proof (digitChar_range ((y / 10 ^ Z.of_nat 3) mod 10) ltac:(lia))
          as [L U].
        destruct (N.eqb_spec (digitChar ((y / 10 ^ Z.of_nat 3) mod 10)) 43); [lia |].
        destruct (N.eqb_spec (digitChar ((y / 10 ^ Z.of_nat 3) mod 10)) 45); [lia |].
        reflexivity. }
      rewrite E. apply digits_pad_small. simpl. lia.
    + destruct (Z.ltb_spec y 0); [lia |].
      rewrite <- app_comm_cons. cbn [parseYear N.eqb Pos.eqb].
      apply digits_pad_small. simpl. lia.
  - destruct (Z.ltb_spec y 0); [| lia].
    rewrite <- app_comm_cons. cbn [parseYear N.eqb Pos.eqb].
    rewrite digits_pad_small by (simpl; lia).
    destruct (Z.eqb_spec (- y) 0); [lia |]. do 2 f_equal. lia.
Qed.

Lemma parseMonthDay_iso (m d : Z) (c : N) (rest : jsstring) :
  0 <= m < 100 -> 0 <= d < 100 ->
  parseMonthDay (45%N :: pad 2 m ++ 45%N :: pad 2 d ++ c :: rest)
  = Some (m, d, c :: rest).
Proof.
  intros Hm Hd. cbn [parseMonthDay N.eqb Pos.eqb].
  rewrite digits_pad_small by (simpl; lia). cbn [N.eqb Pos.eqb].
  rewrite digits_pad_small by (simpl; lia). reflexivity.
Qed.

Lemma parseTime_iso (h mi s ms : Z) (rest : jsstring) :
  0 <= h < 100 -> 0 <= mi < 100 -> 0 <= s < 100 -> 0 <= ms < 1000 ->
  parseTime (84%N :: pad 2 h ++ 58%N :: pad 2 mi ++ 58%N :: pad 2 s
             ++ 46%N :: pad 3 ms ++ rest)
  = Some (h, mi, s, ms, rest).
Proof.
  intros Hh Hmi Hs Hms. cbn [parseTime N.eqb Pos.eqb].
  rewrite digits_pad_small by (simpl; lia). cbn [N.eqb Pos.eqb].
  rewrite digits_pad_small by (simpl; lia).
  cbn [parseSeconds N.eqb Pos.eqb].
  rewrite digits_pad_small by (simpl; lia). cbn [N.eqb Pos.eqb].
  rewrite digits_pad_small by (simpl; lia). reflexivity.
Qed.

(** The year of a time value a Date can hold has at most six digits. *)
Lemma YearFromTime_bounds (t : Z) :
  validTime t -> -271821 <= YearFromTime t <= 275760.
Proof.
  unfold validTime, maxTime, YearFromTime. intros H.
  assert (Hd : -100000000 <= Day t <= 100000000) by (unfold Day, msPerDay; zdiv).
  pose proof (YearFromDay_spec (Day t)) as S. split.
  - destruct (Z.le_gt_cases (-271821) (YearFromDay (Day t))) as [L | G]; [exact L |].
    pose proof (DayFromYear_le (YearFromDay (Day t) + 1) (-271821) ltac:(lia)) as M.
    assert (C : DayFromYear (-271821) < -100000000) by (vm_compute; reflexivity).
    lia.
  - destruct (Z.le_gt_cases (YearFromDay (Day t)) 275760) as [L | G]; [exact L |].
    pose proof (DayFromYear_le 275761 (YearFromDay (Day t)) ltac:(lia)) as M.
    assert (C : 100000000 < DayFromYear 275761) by (vm_compute; reflexivity).
    lia.
Qed.

(** The fields [Date.parse] reads in the string of a time value. *)
Lemma parseFormat_isoString (t : Z) :
  validTime t ->
  parseFormat (isoString t)
  = Some {| iso_year := YearFromTime t; iso_month := MonthFromTime t + 1;
            iso_day := DateFromTime t;
            iso_time := Some (HourFromTime t, MinFromTime t, SecFromTime t,
                              msFromTime t);
            iso_offset := Some (1, 0, 0) |}.
Proof.
  intros Hv.
  pose proof (YearFromTime_bounds t Hv) as HY.
  pose proof (MonthFromTime_range t) as HM.
  pose proof (DateFromTime_range t) as HD.
  pose proof (DaysInMonth_range (YearFromTime t) (MonthFromTime t)) as HDM.
  pose proof (time_fields_range t) as (Hh & Hmi & Hs & Hms).
  unfold parseFormat, isoString.
  rewrite parseYear_isoYear by lia.
  rewrite parseMonthDay_iso by lia.
  rewrite parseTime_iso by lia.
  reflexivity.
Qed.

(** [new Date(d.toISOString())] is [d] again, in every zone. *)
Lemma parse_isoString (host : Host) (t : Z) :
  validTime t -> parse host (isoString t) = Some t.
Proof.
  intros Hv. unfold parse. rewrite (parseFormat_isoString t Hv).
  pose proof (MonthFromTime_range t) as HM.
  pose proof (DateFromTime_range t) as HD.
  pose proof (DaysInMonth_range (YearFromTime t) (MonthFromTime t)) as HDM.
  pose proof (time_fields_range t) as (Hh & Hmi & Hs & Hms).
  assert (HB : inBounds
                 {| iso_year := YearFromTime t; iso_month := MonthFromTime t + 1;
                    iso_day := DateFromTime t;
                    iso_time := Some (HourFromTime t, MinFromTime t, SecFromTime t,
                                      msFromTime t);
                    iso_offset := Some (1, 0, 0) |} = true).
  { unfold inBounds. cbn [iso_month iso_day iso_time iso_offset].
    rewrite !(proj2 (Z.leb_le _ _)) by lia. reflexivity. }
  rewrite HB. unfold fieldsTime.
  cbn [iso_year iso_month iso_day iso_time iso_offset].
  replace (MonthFromTime t + 1 - 1) with (MonthFromTime t) by lia.
  rewrite MakeDay_fields, MakeDate_fields.
  replace (t - 1 * (0 * msPerHour + 0 * msPerMinute)) with t by (unfold_time; lia).
  apply TimeClip_valid. exact Hv.
Qed.

(* ================================================================== *)
(** * Reschedule *)
(* ================================================================== *)

(** The timestamp of a drop, when the wall-clock time asked for exists. *)
Lemma rescheduleTimestamp_value (host : Host) (surgery : Surgery) (told tnew : Z) :
  newDateString host (dateTime surgery) = Some told ->
  ~ (0 <= YearFromTime (LocalTime host tnew) <= 99) ->
  validTime (UTC host (droppedWallClock host told tnew)) ->
  rescheduleTimestamp host surgery (Some tnew)
  = Return (isoString (UTC host (droppedWallClock host told tnew))).
Proof.
  intros Hold Hy Hv.
  unfold rescheduleTimestamp. rewrite Hold.
  unfold newDateYMDHM, newDateFields, getFullYear, getMonth, getDate, getHours,
    getMinutes, localField, option_map.
  rewrite (MakeFullYear_id _ Hy), MakeDay_fields.
  fold (droppedWallClock host told tnew).
  rewrite (TimeClip_valid _ Hv). reflexivity.
Qed.







(** C1 as stated fails in three ways. In US Eastern time 02:30 does not
    exist on 10 March 2024, and a surgery of 02:30 dropped there is moved to
    03:30. A surgery whose [dateTime] is empty has no timestamp computed: the
    computation throws. A target date in the year 50 gives a timestamp in
    1950. *)
Lemma reschedule_counterexample :
  (let s := sampleSurgery (str "2024-03-01T02:30") Agendada 0%float in
   let target := newDateYMD easternSpring2024 (Some 2024) (Some 2) (Some 10) in
   rescheduleTimestamp easternSpring2024 s target
   = Return (str "2024-03-10T07:30:00.000Z")
   /\ getHours easternSpring2024
        (newDateString easternSpring2024 (str "2024-03-10T07:30:00.000Z")) = Some 3
   /\ getHours easternSpring2024 (newDateString easternSpring2024 (dateTime s))
      = Some 2)
  /\ (let s := sampleSurgery [] Agendada 0%float in
      let target := newDateYMD utc (Some 2024) (Some 2) (Some 10) in
      rescheduleTimestamp utc s target = Throw invalidTimeValue)
  /\ (let s := sampleSurgery (str "2024-03-15T10:00") Agendada 0%float in
      let target := Some (-60588086400000) in
      getFullYear utc target = Some 50
      /\ rescheduleTimestamp utc s target = Return (str "1950-01-15T10:00:00.000Z")
      /\ getFullYear utc (newDateString utc (str "1950-01-15T10:00:00.000Z"))
         = Some 1950).
Proof.
  split; [| split]; vm_compute; repeat split.
Qed.



(* ================================================================== *)
(** * Dashboard revenue *)
(* ================================================================== *)

Lemma isRealizada_spec (s : Surgery) :
  isRealizada s = true <-> surgeryStatus s = Realizada.
Proof.
  unfold isRealizada. destruct (surgeryStatus s); vm_compute;
    split; intros H; try reflexivity; discriminate H.
Qed.

Lemma numEq_Some (a : option Z) (b : Z) : numEq a (Some b) = true <-> a = Some b.
Proof.
  destruct a as [x|]; simpl.
  - rewrite Z.eqb_eq. split; [intros -> | intros H; inversion H]; reflexivity.
  - split; discriminate.
Qed.

(** [today] of the dashboard shows the year and month of [now]. *)
Lemma today_fields (host : Host) (now : Z) :
  landsOnDay host (MakeDate (Day (LocalTime host now)) 0) ->
  let today := setHours host (Some now) 0 0 0 0 in
  getMonth host today = Some (MonthFromTime (LocalTime host now))
  /\ getFullYear host today = Some (YearFromTime (LocalTime host now)).
Proof.
  intros [Hv Hd]. cbv zeta. unfold setHours.
  change (MakeTime 0 0 0 0) with 0. rewrite (TimeClip_valid _ Hv).
  unfold getMonth, getFullYear, localField, option_map.
  rewrite Day_MakeDate in Hd by (unfold msPerDay; lia).
  destruct (same_day_fields _ _ Hd) as (EY & EM & _).
  rewrite EY, EM. split; reflexivity.
Qed.

Lemma orZero_id (x : float) : properValue x -> orZero x = x.
Proof.
  unfold orZero. intros [Hn Hz]. rewrite Hn, orb_false_r.
  destruct (PrimFloat.is_zero x) eqn:E; [| reflexivity].
  unfold PrimFloat.is_zero in E. rewrite FloatAxioms.eqb_spec in E.
  rewrite <- (FloatAxioms.SF2Prim_Prim2SF x) in Hz |- *.
  change (Prim2SF PrimFloat.zero) with (SpecFloat.S754_zero false) in E.
  destruct (Prim2SF x) as [s | s | | s m e]; try discriminate E.
  - destruct s; [elim Hz |]; reflexivity.
  - destruct s; discriminate E.
  - destruct s; discriminate E.
Qed.

Lemma sumValues_plain (l : list Surgery) :
  Forall (fun s => properValue (totalValue s)) l -> sumValues l = plainSum l.
Proof.
  unfold sumValues, plainSum. generalize PrimFloat.zero.
  induction l as [|s l IH]; intros acc H; simpl; [reflexivity |].
  inversion H; subst. rewrite orZero_id by assumption. apply IH. assumption.
Qed.

Lemma Forall_filter {A : Type} (P : A -> Prop) (f : A -> bool) (l : list A) :
  Forall P l -> Forall P (filter f l).
Proof.
  intros H. apply Forall_forall. intros x Hx. apply filter_In in Hx.
  rewrite Forall_forall in H. apply H. tauto.
Qed.

(** C6. When the midnight of today lands on today in the local zone, the
    month revenue of the dashboard is the sum, from 0 and in the order of
    the collection, of the values of exactly the surgeries that are
    performed and whose date is in the year and month of [now]. Surgeries of
    any other status are not in the sum. The sum is the one the code makes,
    which takes a NaN value as 0; when no value is NaN or -0 it is the sum
    of the values as they are. *)
Theorem monthRevenue_sums_performed_this_month :
  forall (host : Host) (now : Z) (surgeries : list Surgery),
    landsOnDay host (MakeDate (Day (LocalTime host now)) 0) ->
    exists keep : Surgery -> bool,
      (forall s, keep s = true <-> performedThisMonth host now s)
      /\ (forall s, surgeryStatus s <> Realizada -> keep s = false)
      /\ monthRevenue host now surgeries = sumValues (filter keep surgeries)
      /\ (Forall (fun s => properValue (totalValue s)) surgeries ->
          monthRevenue host now surgeries = plainSum (filter keep surgeries)).
Proof.
  intros host now surgeries Hl.
  destruct (today_fields host now Hl) as [EM EY].
  exists (fun s =>
            isRealizada s
            && numEq (getMonth host (newDateString host (dateTime s)))
                     (Some (MonthFromTime (LocalTime host now)))
            && numEq (getFullYear host (newDateString host (dateTime s)))
                     (Some (YearFromTime (LocalTime host now)))).
  assert (Hspec : forall s,
             isRealizada s
             && numEq (getMonth host (newDateString host (dateTime s)))
                      (Some (MonthFromTime (LocalTime host now)))
             && numEq (getFullYear host (newDateString host (dateTime s)))
                      (Some (YearFromTime (LocalTime host now))) = true
             <-> performedThisMonth host now s).
  { intros s. unfold performedThisMonth.
    rewrite !andb_true_iff, isRealizada_spec, !numEq_Some.
    unfold getMonth, getFullYear, localField.
    destruct (newDateString host (dateTime s)) as [ts|]; simpl.
    - split.
      + intros [[Hs Hm] Hy]. split; [exact Hs |]. exists ts.
        inversion Hm. inversion Hy. auto.
      + intros [Hs (ts' & E & Hy & Hm)]. inversion E; subst ts'.
        rewrite Hy, Hm. auto.
    - split; [intros [[_ H] _]; discriminate H |].
      intros [_ (ts' & E & _)]. discriminate E. }
  split; [exact Hspec |]. split.
  - intros s Hs. destruct (isRealizada s) eqn:E; [| reflexivity].
    apply isRealizada_spec in E. contradiction.
  - assert (E : monthRevenue host now surgeries
                = sumValues
                    (filter (fun s =>
                       isRealizada s
                       && numEq (getMonth host (newDateString host (dateTime s)))
                                (Some (MonthFromTime (LocalTime host now)))
                       && numEq (getFullYear host (newDateString host (dateTime s)))
                                (Some (YearFromTime (LocalTime host now)))) surgeries))
      by (unfold monthRevenue; rewrite EM, EY; reflexivity).
    split; [exact E |].
    intros Hp. rewrite E. apply sumValues_plain, Forall_filter, Hp.
Qed.

(** The scenario of the specification: three performed surgeries of this
    month worth 100, 200 and 50 and a cancelled one worth 1000. *)
Lemma monthRevenue_witness :
  let now := 1710496800000 in
  let surgeries :=
    [sampleSurgery (str "2024-03-01T10:00") Realizada 100%float;
     sampleSurgery (str "2024-03-12T08:30") Realizada 200%float;
     sampleSurgery (str "2024-03-05T10:00") Cancelada 1000%float;
     sampleSurgery (str "2024-03-31T23:00") Realizada 50%float] in
  (exists keep : Surgery -> bool,
      (forall s, keep s = true <-> performedThisMonth brasilia now s)
      /\ monthRevenue brasilia now surgeries = plainSum (filter keep surgeries))
  /\ monthRevenue brasilia now surgeries = 350%float.
Proof.
  intros now surgeries.
  assert (Hl : landsOnDay brasilia (MakeDate (Day (LocalTime brasilia now)) 0))
    by lands_on_day.
  destruct (monthRevenue_sums_performed_this_month brasilia now surgeries Hl)
    as (keep & Hk & _ & _ & E).
  split; [| vm_compute; reflexivity].
  exists keep. split; [exact Hk |]. apply E.
  repeat constructor; vm_compute; intros H; discriminate H.
Defined.

(* ================================================================== *)
(** * Report date range *)
(* ================================================================== *)

(** C2 fails west of Greenwich. In Brasilia the end date 2024-01-31 is read
    as midnight UTC, which is 21:00 of 30 January there, so that the end
    bound becomes the last millisecond of 30 January and a surgery of
    2024-01-31T23:30 is left out of the range from 2024-01-01 to 2024-01-31.
    In UTC the same surgery is kept. *)
Theorem report_end_date_left_out_in_brasilia :
  let filters := {| startDate := str "2024-01-01"; endDate := str "2024-01-31";
                    doctorId := all |} in
  let s := sampleSurgery (str "2024-01-31T23:30") Agendada 0%float in
  reportFilteredSurgeries brasilia filters [s] = []
  /\ setHours brasilia (newDateString brasilia (str "2024-01-31")) 23 59 59 999
     = newDateString brasilia (str "2024-01-30T23:59:59.999")
  /\ reportFilteredSurgeries utc filters [s] = [s].
Proof.
  intros filters s. split; [| split]; vm_compute; reflexivity.
Qed.

(** The end bound in a zone at a constant offset (in minutes, less than a
    day), for an end date read as the midnight UTC [E] that begins a day: a
    surgery whose local day is that day passes the bound exactly when the
    zone is at or east of UTC. *)
Lemma report_end_bound_fixed_zone (o E ts : Z) :
  -1440 < o < 1440 -> E mod msPerDay = 0 ->
  validTime E -> validTime (E + msPerDay) -> validTime (E - 2 * msPerDay) ->
  Day (LocalTime (fixedZone o) ts) = Day E ->
  numGt (Some ts) (setHours (fixedZone o) (Some E) 23 59 59 999) = (o <? 0).
Proof.
  unfold validTime, maxTime. intros Ho HE [V1 V2] [V3 V4] [V5 V6] Hday.
  unfold setHours, LocalTime, UTC, fixedZone, LocalTZA in *.
  change (MakeTime 23 59 59 999) with 86399999.
  rewrite TimeClip_valid.
  - unfold numGt, numLt. destruct (Z.ltb_spec o 0) as [N | P].
    + apply Z.ltb_lt. unfold_time. zdiv.
    + apply Z.ltb_ge. unfold_time. zdiv.
  - unfold validTime, maxTime. unfold_time. zdiv.
Qed.

(* ================================================================== *)
(** * Zones without changes of offset *)
(* ================================================================== *)

(** In a zone at a constant offset every wall-clock time in the range of
    Date exists, and so lands on its day: there the zone conditions of the
    calendar grid, of the drop and of the dashboard come down to the range
    of Date. *)
Lemma fixedZone_wallClockExists (o x : Z) :
  validTime (x - o * msPerMinute) -> wallClockExists (fixedZone o) x.
Proof.
  intros Hv. unfold wallClockExists, UTC, LocalTime, fixedZone, LocalTZA.
  split; [exact Hv | lia].
Qed.

Lemma wallClockExists_landsOnDay (host : Host) (x : Z) :
  wallClockExists host x -> landsOnDay host x.
Proof. intros [Hv E]. split; [exact Hv | rewrite E; reflexivity]. Qed.

Lemma fixedZone_wholeMinuteZone (o : Z) : wholeMinuteZone (fixedZone o).
Proof. intros t b. unfold fixedZone, LocalTZA. apply Z.mod_mul. discriminate. Qed.

(** A date-time string without offset, in a zone at a constant offset: the
    fields are read as local time. *)
Lemma parse_local_fixedZone (o : Z) (s : jsstring) (f : IsoFields) (h mi sec ms : Z) :
  parseFormat s = Some f -> inBounds f = true ->
  iso_time f = Some (h, mi, sec, ms) -> iso_offset f = None ->
  parse (fixedZone o) s
  = TimeClip (MakeDate (MakeDay (iso_year f) (iso_month f - 1) (iso_day f))
                       (MakeTime h mi sec ms) - o * msPerMinute).
Proof.
  intros Hf Hb Ht Ho. unfold parse. rewrite Hf, Hb.
  unfold fieldsTime. rewrite Ht, Ho. reflexivity.
Qed.

(** The scenario of the specification in every zone at a constant offset of
    at most 14 hours: 2024-03-15T10:00 dropped onto 20 March 2024 gives the
    instant that 2024-03-20T10:00 names there. *)
Lemma reschedule_scenario_fixed_zone (o : Z) :
  -840 <= o <= 840 ->
  let host := fixedZone o in
  let s := sampleSurgery (str "2024-03-15T10:00") Agendada 0%float in
  let target := newDateYMD host (Some 2024) (Some 2) (Some 20) in
  exists newDateTime,
    rescheduleTimestamp host s target = Return newDateTime
    /\ newDateString host newDateTime = newDateString host (str "2024-03-20T10:00").
Proof.
  intros Ho host s target.
  assert (Hold : newDateString host (dateTime s)
                 = Some (1710496800000 - o * msPerMinute)).
  { unfold newDateString, host.
    rewrite (parse_local_fixedZone o _
               {| iso_year := 2024; iso_month := 3; iso_day := 15;
                  iso_time := Some (10, 0, 0, 0); iso_offset := None |} 10 0 0 0)
      by (vm_compute; reflexivity).
    cbn [iso_year iso_month iso_day].
    change (MakeDate (MakeDay 2024 (3 - 1) 15) (MakeTime 10 0 0 0)) with 1710496800000.
    apply TimeClip_valid. unfold validTime, maxTime, msPerMinute. lia. }
  assert (Htarget : target = Some (1710892800000 - o * msPerMinute)).
  { unfold target, newDateYMD, newDateFields, host, UTC, fixedZone, LocalTZA.
    change (MakeDate (MakeDay (MakeFullYear 2024) 2 20) (MakeTime 0 0 0 0))
      with 1710892800000.
    apply TimeClip_valid. unfold validTime, maxTime, msPerMinute. lia. }
  assert (Hwall : droppedWallClock host (1710496800000 - o * msPerMinute)
                    (1710892800000 - o * msPerMinute) = 1710928800000).
  { unfold droppedWallClock, host, LocalTime, fixedZone, LocalTZA.
    replace (1710892800000 - o * msPerMinute + o * msPerMinute)
      with 1710892800000 by lia.
    replace (1710496800000 - o * msPerMinute + o * msPerMinute)
      with 1710496800000 by lia.
    vm_compute. reflexivity. }
  assert (Hv : validTime (UTC host 1710928800000))
    by (unfold validTime, maxTime, UTC, host, fixedZone, LocalTZA, msPerMinute; lia).
  exists (isoString (UTC host 1710928800000)). split.
  - rewrite Htarget, <- Hwall.
    apply rescheduleTimestamp_value; [exact Hold | | rewrite Hwall; exact Hv].
    unfold host, LocalTime, fixedZone, LocalTZA.
    replace (1710892800000 - o * msPerMinute + o * msPerMinute)
      with 1710892800000 by lia.
    vm_compute. intros [_ H]. apply H. reflexivity.
  - unfold newDateString. rewrite (parse_isoString host _ Hv).
    unfold host.
    rewrite (parse_local_fixedZone o _
               {| iso_year := 2024; iso_month := 3; iso_day := 20;
                  iso_time := Some (10, 0, 0, 0); iso_offset := None |} 10 0 0 0)
      by (vm_compute; reflexivity).
    cbn [iso_year iso_month iso_day].
    change (MakeDate (MakeDay 2024 (3 - 1) 20) (MakeTime 10 0 0 0)) with 1710928800000.
    symmetry. apply TimeClip_valid. exact Hv.
Qed.

(* ================================================================== *)
(** * The surgery form *)
(* ================================================================== *)

Lemma filter_neq_absent (docId : jsstring) (l : list jsstring) :
  ~ In docId l -> filter (fun i => negb (eqb i docId)) l = l.
Proof.
  induction l as [|x l IH]; intros H; [reflexivity|].
  cbn [filter]. destruct (eqb x docId) eqn:E.
  - apply eqb_eq in E. subst. exfalso. apply H. left. reflexivity.
  - cbn [negb]. f_equal. apply IH. intros Hin. apply H. right. exact Hin.
Qed.

Lemma In_filter_neq (docId other : jsstring) (l : list jsstring) :
  In other (filter (fun i => negb (eqb i docId)) l) <-> In other l /\ other <> docId.
Proof.
  rewrite filter_In. split; intros [H1 H2]; split; try exact H1.
  - apply negb_true_iff, eqb_neq in H2. exact H2.
  - apply negb_true_iff, eqb_neq. exact H2.
Qed.

(** X1. Ticking a doctor in the form toggles that doctor and no other: the
    doctor is among the participants afterwards exactly when it was not
    before, every other doctor stays as it was, a list without repetitions
    stays so, and no other field of the form changes. *)
Theorem handleCheckboxChange_toggles (docId : jsstring) (p : Surgery) :
  let p' := handleCheckboxChange docId p in
  (In docId (participatingIds p') <-> ~ In docId (participatingIds p))
  /\ (forall other, other <> docId ->
        (In other (participatingIds p') <-> In other (participatingIds p)))
  /\ (NoDup (participatingIds p) -> NoDup (participatingIds p'))
  /\ p' = withParticipatingIds (participatingIds p') p.
Proof.
  intros p'. subst p'. unfold handleCheckboxChange.
  cbn [participatingIds withParticipatingIds].
  destruct (arrayIncludes (participatingIds p) docId) eqn:E.
  - apply arrayIncludes_In in E.
    split; [| split; [| split; [| reflexivity]]].
    + rewrite In_filter_neq. tauto.
    + intros other Ho. rewrite In_filter_neq. tauto.
    + intros H. apply NoDup_filter. exact H.
  - assert (Hn : ~ In docId (participatingIds p)).
    { intros H. apply arrayIncludes_In in H. congruence. }
    split; [| split; [| split; [| reflexivity]]].
    + rewrite in_app_iff. cbn [In]. tauto.
    + intros other Ho. rewrite in_app_iff. cbn [In].
      split; [intros [H | [H | []]]; [exact H | congruence] | tauto].
    + intros H. apply NoDup_app; [exact H | repeat constructor; intros [] | ].
      intros x Hx [Hd | []]. subst. tauto.
Qed.

Lemma handleCheckboxChange_toggles_witness :
  let p := sampleSurgery (str "2024-03-15T10:00") Agendada 0%float in
  NoDup (participatingIds (handleCheckboxChange (str "d2") p))
  /\ In (str "d2") (participatingIds (handleCheckboxChange (str "d2") p)).
Proof.
  split.
  - apply (proj1 (proj2 (proj2 (handleCheckboxChange_toggles (str "d2")
             (sampleSurgery (str "2024-03-15T10:00") Agendada 0%float))))).
    simpl. constructor.
  - apply (proj1 (handleCheckboxChange_toggles (str "d2")
             (sampleSurgery (str "2024-03-15T10:00") Agendada 0%float))).
    simpl. intros [].
Defined.

(** X2. Ticking a doctor that is not among the participants and ticking it
    again gives back the form as it was. *)
Theorem handleCheckboxChange_twice (docId : jsstring) (p : Surgery) :
  ~ In docId (participatingIds p) ->
  handleCheckboxChange docId (handleCheckboxChange docId p) = p.
Proof.
  intros Hn. unfold handleCheckboxChange.
  assert (E : arrayIncludes (participatingIds p) docId = false).
  { destruct (arrayIncludes (participatingIds p) docId) eqn:E; [|reflexivity].
    apply arrayIncludes_In in E. tauto. }
  rewrite E. cbn [participatingIds withParticipatingIds].
  assert (E2 : arrayIncludes (participatingIds p ++ [docId]) docId = true).
  { apply arrayIncludes_In. apply in_or_app. right. left. reflexivity. }
  rewrite E2, filter_app, (filter_neq_absent _ _ Hn).
  cbn [filter]. rewrite eqb_refl. cbn [negb]. rewrite app_nil_r.
  destruct p; reflexivity.
Qed.

Lemma handleCheckboxChange_twice_witness :
  let p := sampleSurgery (str "2024-03-15T10:00") Agendada 0%float in
  handleCheckboxChange (str "d2") (handleCheckboxChange (str "d2") p) = p.
Proof.
  apply (handleCheckboxChange_twice (str "d2")
           (sampleSurgery (str "2024-03-15T10:00") Agendada 0%float)).
  simpl. intros [].
Defined.

Lemma truthy_false (s : jsstring) : truthy s = false <-> s = [].
Proof. destruct s; cbn; split; congruence. Qed.

(** X3. Adding a material keeps the list of the form well formed: when
    every material listed has a name that is not blank and a quantity above
    zero, so has every one listed afterwards. An input that is refused
    leaves the form as it was and emits the one error notification; an
    input that is accepted is appended and the two input fields are
    reset. *)
Theorem handleAddMaterial_keeps_valid (st : ModalState) :
  Forall validMaterial (materials (formData st)) ->
  let st' := fst (handleAddMaterial st) in
  let emitted := snd (handleAddMaterial st) in
  Forall validMaterial (materials (formData st'))
  /\ ((emitted = [materialRequired] /\ st' = st
       /\ ~ validMaterial {| m_name := materialName st;
                             m_quantity := materialQuantity st |})
      \/ (emitted = []
          /\ materials (formData st')
             = materials (formData st)
               ++ [{| m_name := materialName st; m_quantity := materialQuantity st |}]
          /\ materialName st' = [] /\ materialQuantity st' = PrimFloat.one)).
Proof.
  intros Hall st' emitted. subst st' emitted. unfold handleAddMaterial.
  destruct (truthy (trim (materialName st))) eqn:Hn;
    [destruct (PrimFloat.leb (materialQuantity st) PrimFloat.zero) eqn:Hq|];
    cbn [negb orb fst snd formData materials withMaterials materialName materialQuantity].
  - split; [exact Hall|]. left. repeat split.
    intros [_ H]. cbn in H. congruence.
  - split.
    + apply Forall_app. split; [exact Hall|]. constructor; [|constructor].
      split; cbn [m_name m_quantity]; [|exact Hq].
      intros H. rewrite H in Hn. discriminate.
    + right. repeat split.
  - split; [exact Hall|]. left. repeat split.
    intros [H _]. cbn in H. apply truthy_false in Hn. contradiction.
Qed.

Lemma handleAddMaterial_keeps_valid_witness :
  let st := {| formData := sampleSurgery (str "2024-03-15T10:00") Agendada 0%float;
               materialName := str " Parafuso"; materialQuantity := 2%float |} in
  Forall validMaterial (materials (formData (fst (handleAddMaterial st)))).
Proof.
  apply (handleAddMaterial_keeps_valid
           {| formData := sampleSurgery (str "2024-03-15T10:00") Agendada 0%float;
              materialName := str " Parafuso"; materialQuantity := 2%float |}).
  simpl. constructor.
Defined.

Lemma removeIndex_from (A : Type) (l : list A) (start index : nat) :
  map snd (filter (fun e => negb (Nat.eqb (fst e) (start + index)))
                  (combine (seq start (List.length l)) l))
  = firstn index l ++ skipn (S index) l.
Proof.
  revert start index. induction l as [|x l IH]; intros start index.
  - destruct index; reflexivity.
  - cbn [List.length seq combine filter fst].
    destruct index as [|index].
    + rewrite Nat.add_0_r, Nat.eqb_refl. cbn [negb firstn skipn app].
      clear IH. assert (H : forall k, (start < k)%nat ->
         map snd (filter (fun e => negb (Nat.eqb (fst e) start))
                         (combine (seq k (List.length l)) l)) = l).
      { induction l as [|y l IHl]; intros k Hk; [reflexivity|].
        cbn [List.length seq combine filter fst].
        destruct (Nat.eqb_spec k start) as [E|E]; [lia|].
        cbn [negb map snd]. f_equal. apply IHl. lia. }
      apply H. lia.
    + destruct (Nat.eqb_spec start (start + S index)) as [E|E]; [lia|].
      cbn [negb map snd firstn app]. f_equal.
      replace (start + S index)%nat with (S start + index)%nat by lia.
      rewrite IH. reflexivity.
Qed.

Lemma removeIndex_spec (A : Type) (index : nat) (l : list A) :
  removeIndex index l = firstn index l ++ skipn (S index) l.
Proof. unfold removeIndex. apply (removeIndex_from A l 0 index). Qed.

Lemma nth_error_removed (A : Type) (index i : nat) (l : list A) :
  nth_error (firstn index l ++ skipn (S index) l) i
  = nth_error l (if (i <? index)%nat then i else S i).
Proof.
  revert index i. induction l as [|x l IH]; intros index i.
  - rewrite firstn_nil, skipn_nil. cbn [app].
    destruct (if (i <? index)%nat then i else S i); destruct i; reflexivity.
  - destruct index as [|index]; [reflexivity|].
    destruct i as [|i]; [reflexivity|].
    change (nth_error (firstn index l ++ skipn (S index) l) i
            = nth_error (x :: l) (if (i <? index)%nat then S i else S (S i))).
    rewrite IH. destruct (i <? index)%nat; reflexivity.
Qed.

(** X4. Removing a material removes the one at the position clicked and
    nothing else: the materials before it keep their place, the ones after
    it move up by one, no other field of the form changes, and a position
    past the end of the list removes nothing. *)
Theorem handleRemoveMaterial_removes_position (index : nat) (p : Surgery) :
  let p' := handleRemoveMaterial index p in
  materials p' = firstn index (materials p) ++ skipn (S index) (materials p)
  /\ (forall i : nat,
        nth_error (materials p') i
        = nth_error (materials p) (if (i <? index)%nat then i else S i))
  /\ List.length (materials p')
     = (if (index <? List.length (materials p))%nat
        then Nat.pred (List.length (materials p)) else List.length (materials p))
  /\ p' = withMaterials (materials p') p.
Proof.
  intros p'. subst p'. unfold handleRemoveMaterial. cbn [materials withMaterials].
  rewrite removeIndex_spec. split; [reflexivity|]. split; [|split; [|reflexivity]].
  - intros i. apply nth_error_removed.
  - rewrite length_app, length_firstn, length_skipn.
    destruct (Nat.ltb_spec index (List.length (materials p))); lia.
Qed.

(** X5. A material that was just added is the last of the list, and
    removing it there gives back the form as it was before it was added. *)
Theorem add_then_remove_material (st : ModalState) :
  snd (handleAddMaterial st) = [] ->
  handleRemoveMaterial (List.length (materials (formData st)))
                       (formData (fst (handleAddMaterial st)))
  = formData st.
Proof.
  unfold handleAddMaterial.
  destruct (negb (truthy (trim (materialName st)))
            || PrimFloat.leb (materialQuantity st) PrimFloat.zero);
    cbn [fst snd formData]; [discriminate|]. intros _.
  unfold handleRemoveMaterial. cbn [materials withMaterials].
  rewrite removeIndex_spec, firstn_app, Nat.sub_diag, firstn_all, firstn_O, app_nil_r.
  rewrite skipn_all2 by (rewrite length_app; cbn; lia). rewrite app_nil_r.
  destruct (formData st); reflexivity.
Qed.

Lemma add_then_remove_material_witness :
  let st := {| formData := sampleSurgery (str "2024-03-15T10:00") Agendada 0%float;
               materialName := str "Parafuso"; materialQuantity := 2%float |} in
  handleRemoveMaterial 0 (formData (fst (handleAddMaterial st))) = formData st.
Proof.
  apply (add_then_remove_material
           {| formData := sampleSurgery (str "2024-03-15T10:00") Agendada 0%float;
              materialName := str "Parafuso"; materialQuantity := 2%float |}).
  vm_compute. reflexivity.
Defined.

(* ================================================================== *)
(** * Filter tags *)
(* ================================================================== *)

Lemma eqb_all_cases (v : jsstring) : (eqb v all = true /\ v = all) \/ eqb v all = false.
Proof.
  destruct (eqb v all) eqn:E; [left | right; reflexivity].
  split; [reflexivity | apply eqb_eq; exact E].
Qed.

(** X6. The filter tags above the grid are the filters that are not
    ["all"], in the order of the filter object. Removing a tag removes that
    tag and keeps the others, there is no tag exactly when no filter is
    set, and the reset of the filter panel leaves none. *)
Theorem removeFilter_removes_tag (filterKey : FilterKey) (f : AdvancedFilters) :
  activeFilters (removeFilter filterKey f)
  = filter (fun entry => negb (filterKeyEqb (fst entry) filterKey)) (activeFilters f)
  /\ (activeFilters f = [] <-> f = noFilters)
  /\ activeFilters resetFilters = [].
Proof.
  destruct f as [a b c d]. unfold activeFilters, filterEntries, removeFilter.
  cbn [f_authStatus f_surgeryStatus f_hospitalId f_insuranceId].
  split; [|split; [|reflexivity]].
  - destruct filterKey; cbn [f_authStatus f_surgeryStatus f_hospitalId f_insuranceId];
      cbn [filter snd fst]; change (eqb all all) with true; cbn [negb];
      destruct (eqb a all), (eqb b all), (eqb c all), (eqb d all); reflexivity.
  - unfold noFilters. cbn [filter snd]. split.
    + destruct (eqb_all_cases a) as [[Ea ->] | Ea], (eqb_all_cases b) as [[Eb ->] | Eb],
        (eqb_all_cases c) as [[Ec ->] | Ec], (eqb_all_cases d) as [[Ed ->] | Ed];
        try rewrite Ea; try rewrite Eb; try rewrite Ec; try rewrite Ed;
        change (eqb all all) with true; cbn [negb];
        intros H; try discriminate H; reflexivity.
    + intros H. injection H as -> -> -> ->. reflexivity.
Qed.

Lemma keepSurgery_removeFilter (doctorFilter : jsstring) (f : AdvancedFilters)
    (filterKey : FilterKey) (s : Surgery) :
  keepSurgery doctorFilter f s = true ->
  keepSurgery doctorFilter (removeFilter filterKey f) s = true.
Proof.
  rewrite !keepSurgery_spec. unfold passesAll, passesField.
  intros (H0 & H1 & H2 & H3 & H4).
  destruct filterKey; cbn [removeFilter f_authStatus f_surgeryStatus f_hospitalId
                           f_insuranceId]; tauto.
Qed.

Lemma filter_filter_implied (A : Type) (p q : A -> bool) (l : list A) :
  (forall x, p x = true -> q x = true) -> filter p (filter q l) = filter p l.
Proof.
  intros H. induction l as [|x l IH]; [reflexivity|].
  cbn [filter]. destruct (q x) eqn:Eq.
  - cbn [filter]. rewrite IH. reflexivity.
  - rewrite IH. destruct (p x) eqn:Ep; [|reflexivity].
    apply H in Ep. congruence.
Qed.

(** X7. Removing a filter tag never hides a surgery that was shown, and
    the surgeries shown before are the ones of the wider list that pass the
    filters as they were. *)
Theorem removeFilter_shows_more (filterKey : FilterKey) (f : AdvancedFilters)
    (surgeries : list Surgery) (doctorFilter : jsstring) :
  incl (filteredSurgeries surgeries doctorFilter f)
       (filteredSurgeries surgeries doctorFilter (removeFilter filterKey f))
  /\ filteredSurgeries
       (filteredSurgeries surgeries doctorFilter (removeFilter filterKey f))
       doctorFilter f
     = filteredSurgeries surgeries doctorFilter f.
Proof.
  unfold filteredSurgeries. split.
  - intros s Hs. apply filter_In in Hs. apply filter_In.
    split; [tauto|]. apply keepSurgery_removeFilter. tauto.
  - apply filter_filter_implied. intros s. apply keepSurgery_removeFilter.
Qed.

(* ================================================================== *)
(** * Lookups and report aggregates *)
(* ================================================================== *)

Lemma mapGet_mapSet (V : Type) (m : list (jsstring * V)) (k k' : jsstring) (v : V) :
  mapGet (mapSet m k v) k' = if eqb k k' then Some v else mapGet m k'.
Proof.
  induction m as [|[k0 v0] m IH]; cbn [mapSet mapGet]; [reflexivity|].
  destruct (eqb k0 k) eqn:E0.
  - apply eqb_eq in E0. subst k0. cbn [mapGet].
    destruct (eqb k k'); reflexivity.
  - cbn [mapGet]. rewrite IH. destruct (eqb k0 k') eqn:E1; [|reflexivity].
    apply eqb_eq in E1. subst k0. rewrite (proj2 (eqb_neq k k')); [reflexivity|].
    apply eqb_neq in E0. congruence.
Qed.

Lemma find_app_first (A : Type) (p : A -> bool) (l1 l2 : list A) :
  find p (l1 ++ l2) = match find p l1 with Some x => Some x | None => find p l2 end.
Proof.
  induction l1 as [|x l1 IH]; [reflexivity|]. simpl.
  destruct (p x); [reflexivity | exact IH].
Qed.

Lemma mapGet_fold (V : Type) (entries : list (jsstring * V)) (m : list (jsstring * V))
    (k : jsstring) :
  mapGet (fold_left (fun m e => mapSet m (fst e) (snd e)) entries m) k
  = match find (fun e => eqb (fst e) k) (rev entries) with
    | Some e => Some (snd e)
    | None => mapGet m k
    end.
Proof.
  revert m. induction entries as [|e entries IH]; intros m; [reflexivity|].
  cbn [fold_left rev]. rewrite IH, find_app_first.
  destruct (find (fun e0 => eqb (fst e0) k) (rev entries)); [reflexivity|].
  cbn [find]. rewrite mapGet_mapSet. destruct (eqb (fst e) k); reflexivity.
Qed.

Lemma find_rev_distinct (hospitals : list Hospital) (i : jsstring) :
  NoDup (map h_id hospitals) ->
  find (fun h => eqb (h_id h) i) (rev hospitals) = find (fun h => eqb (h_id h) i) hospitals.
Proof.
  induction hospitals as [|h hs IH]; intros Hnd; [reflexivity|].
  cbn [map] in Hnd. apply NoDup_cons_iff in Hnd. destruct Hnd as [Hh Hnd].
  cbn [rev find]. rewrite find_app_first, (IH Hnd). cbn [find].
  destruct (eqb (h_id h) i) eqn:E.
  - apply eqb_eq in E. subst i.
    destruct (find (fun h0 => eqb (h_id h0) (h_id h)) hs) as [h'|] eqn:F; [|reflexivity].
    apply find_some in F. destruct F as [F1 F2]. apply eqb_eq in F2.
    exfalso. apply Hh. rewrite <- F2. apply in_map. exact F1.
  - destruct (find (fun h0 => eqb (h_id h0) i) hs); reflexivity.
Qed.

Lemma hospitalMap_get (hospitals : list Hospital) (i : jsstring) :
  mapGet (hospitalMap hospitals) i
  = option_map h_name (find (fun h => eqb (h_id h) i) (rev hospitals)).
Proof.
  unfold hospitalMap, newMap. rewrite mapGet_fold, <- map_rev.
  induction (rev hospitals) as [|h hs IH]; [reflexivity|].
  cbn [map find fst]. destruct (eqb (h_id h) i); [reflexivity | exact IH].
Qed.

(** X8. The calendar finds the hospital of a surgery by a search from the
    front of the list and the report through a map built from the list,
    which holds, for an id, the name of the last hospital that carries it.
    With hospital ids that are all different the two name the same
    hospital; they differ only in the label shown when there is none, or
    when it has no name. *)
Theorem hospital_lookups_agree (hospitals : list Hospital) (s : Surgery) :
  mapGet (hospitalMap hospitals) (hospitalId s)
  = option_map h_name (find (fun h => eqb (h_id h) (hospitalId s)) (rev hospitals))
  /\ (NoDup (map h_id hospitals) ->
      match find (fun h => eqb (h_id h) (hospitalId s)) hospitals with
      | Some h =>
          In h hospitals /\ h_id h = hospitalId s
          /\ (h_name h <> [] ->
              cellHospitalName hospitals s = h_name h
              /\ reportHospitalName hospitals s = h_name h)
      | None =>
          (forall h, In h hospitals -> h_id h <> hospitalId s)
          /\ cellHospitalName hospitals s
             = str "Hospital n" ++ 227%N :: str "o definido"
          /\ reportHospitalName hospitals s = desconhecido
      end).
Proof.
  split; [apply hospitalMap_get|]. intros Hnd.
  unfold cellHospitalName, reportHospitalName.
  rewrite hospitalMap_get, (find_rev_distinct _ _ Hnd).
  destruct (find (fun h => eqb (h_id h) (hospitalId s)) hospitals) as [h|] eqn:F.
  - apply find_some in F. destruct F as [F1 F2]. apply eqb_eq in F2.
    split; [exact F1|]. split; [exact F2|]. intros Hname.
    cbn [option_map orDefault]. destruct (h_name h); [contradiction|].
    split; reflexivity.
  - split; [|split; reflexivity].
    intros h Hh. apply eqb_neq. exact (find_none _ _ F h Hh).
Qed.

Lemma hospital_lookups_agree_witness :
  let hospitals := [{| h_id := str "h1"; h_name := str "Santa Casa" |};
                    {| h_id := str "h2"; h_name := str "Moinhos" |}] in
  let s := sampleSurgery (str "2024-03-15T10:00") Agendada 0%float in
  cellHospitalName hospitals s = str "Santa Casa"
  /\ reportHospitalName hospitals s = str "Santa Casa".
Proof.
  intros hospitals s.
  assert (Hnd : NoDup (map h_id hospitals))
    by (vm_compute; repeat constructor; cbn; intuition discriminate).
  destruct (proj2 (hospital_lookups_agree hospitals s) Hnd) as (_ & _ & H).
  apply H. discriminate.
Defined.

Lemma totalCount_mapSet (acc : JsObject) (k : jsstring) (v : JsVal) :
  totalCount (mapSet acc k v)
  = totalCount acc + countOf v
    - match mapGet acc k with Some o => countOf o | None => 0 end.
Proof.
  unfold totalCount. induction acc as [|[k0 v0] acc IH]; cbn [mapSet mapGet fold_right snd].
  - lia.
  - destruct (eqb k0 k); cbn [fold_right snd]; [lia|]. rewrite IH. lia.
Qed.

Lemma mapSet_keys (acc : JsObject) (k : jsstring) (v : JsVal) :
  map fst (mapSet acc k v)
  = if arrayIncludes (map fst acc) k then map fst acc else map fst acc ++ [k].
Proof.
  unfold arrayIncludes.
  induction acc as [|[k0 v0] acc IH]; cbn [mapSet map fst existsb]; [reflexivity|].
  destruct (eqb k0 k) eqn:E; cbn [map fst orb].
  - apply eqb_eq in E. subst. reflexivity.
  - rewrite IH. destruct (existsb (fun y => eqb y k) (map fst acc)); reflexivity.
Qed.

Lemma countByHospital_snoc (inherited : jsstring -> bool) (hospitals : list Hospital)
    (l : list Surgery) (s : Surgery) :
  countByHospital inherited hospitals (l ++ [s])
  = let acc := countByHospital inherited hospitals l in
    let hospitalName := reportHospitalName hospitals s in
    objSet acc hospitalName (orZeroPlusOne (objGet inherited acc hospitalName)).
Proof. unfold countByHospital. rewrite fold_left_app. reflexivity. Qed.

Lemma countByHospital_get (inherited : jsstring -> bool) (hospitals : list Hospital)
    (l : list Surgery) :
  (forall s, In s l ->
     reportHospitalName hospitals s <> protoKey
     /\ inherited (reportHospitalName hospitals s) = false) ->
  forall name,
    mapGet (countByHospital inherited hospitals l) name
    = match countedUnder hospitals name l with
      | O => None
      | S n => Some (VNum (Z.of_nat (S n)))
      end.
Proof.
  induction l as [|s l IH] using rev_ind; intros Hok name; [reflexivity|].
  assert (IH' := IH (fun s0 H0 => Hok s0 (in_or_app _ _ _ (or_introl H0)))).
  destruct (Hok s) as [Hp Hi]; [apply in_or_app; right; left; reflexivity|].
  rewrite countByHospital_snoc. cbv zeta. unfold objSet, objGet.
  apply eqb_neq in Hp. rewrite Hp, Hi. cbn [orb].
  rewrite mapGet_mapSet. unfold countedUnder in *.
  rewrite filter_app, length_app. cbn [filter].
  destruct (eqb (reportHospitalName hospitals s) name) eqn:E.
  - apply eqb_eq in E. subst name. rewrite IH'. cbn [List.length].
    destruct (List.length (filter _ l)) as [|n]; cbn [orZeroPlusOne].
    + reflexivity.
    + rewrite Nat.add_1_r. do 2 f_equal. lia.
  - cbn [List.length]. rewrite Nat.add_0_r. apply IH'.
Qed.

(** X9. The report counts the surgeries by hospital name, one entry for
    each name. As long as no name is [__proto__] or the name of a property
    that every object inherits, the entry of a name is the number of the
    filtered surgeries under that name, a name without surgeries has no
    entry, and the counts add up to the total number of surgeries. The
    surgeries performed are never more than the total. *)
Theorem reports_count_by_hospital (inherited : jsstring -> bool)
    (hospitals : list Hospital) (filteredSurgeries : list Surgery) :
  (forall s, In s filteredSurgeries ->
     reportHospitalName hospitals s <> protoKey
     /\ inherited (reportHospitalName hospitals s) = false) ->
  let r := reports inherited hospitals filteredSurgeries in
  (forall name,
     mapGet (surgeriesByHospital r) name
     = match countedUnder hospitals name filteredSurgeries with
       | O => None
       | S n => Some (VNum (Z.of_nat (S n)))
       end)
  /\ NoDup (map fst (surgeriesByHospital r))
  /\ totalCount (surgeriesByHospital r) = Z.of_nat (totalSurgeries r)
  /\ (realizedSurgeriesCount r <= totalSurgeries r)%nat.
Proof.
  intros Hok r. subst r. cbn [reports surgeriesByHospital totalSurgeries
                              realizedSurgeriesCount].
  split; [apply countByHospital_get; exact Hok|].
  split; [|split; [|apply filter_length_le]].
  - clear Hok. induction filteredSurgeries as [|s l IH] using rev_ind;
      [constructor|].
    rewrite countByHospital_snoc. cbv zeta. unfold objSet.
    destruct (eqb (reportHospitalName hospitals s) protoKey); [exact IH|].
    rewrite mapSet_keys.
    destruct (arrayIncludes (map fst (countByHospital inherited hospitals l))
                            (reportHospitalName hospitals s)) eqn:E; [exact IH|].
    apply NoDup_app; [exact IH | repeat constructor; intros [] |].
    intros x Hx [<- | []]. apply arrayIncludes_In in Hx. congruence.
  - induction filteredSurgeries as [|s l IH] using rev_ind; [reflexivity|].
    assert (Hok' := fun s0 H0 => Hok s0 (in_or_app _ _ _ (or_introl H0))).
    destruct (Hok s) as [Hp Hi]; [apply in_or_app; right; left; reflexivity|].
    rewrite countByHospital_snoc. cbv zeta. unfold objSet, objGet.
    apply eqb_neq in Hp. rewrite Hp, Hi. cbn [orb].
    rewrite totalCount_mapSet, (IH Hok'), length_app.
    rewrite (countByHospital_get inherited hospitals l Hok').
    destruct (countedUnder hospitals (reportHospitalName hospitals s) l);
      cbn [orZeroPlusOne countOf List.length]; lia.
Qed.

Lemma reports_count_by_hospital_witness :
  let hospitals := [{| h_id := str "h1"; h_name := str "Santa Casa" |}] in
  let l := [sampleSurgery (str "2024-03-15T10:00") Agendada 0%float;
            sampleSurgery (str "2024-03-16T10:00") Realizada 0%float] in
  totalCount (surgeriesByHospital
                (reports (fun k => eqb k (str "constructor")) hospitals l)) = 2.
Proof.
  apply (reports_count_by_hospital (fun k => eqb k (str "constructor"))
           [{| h_id := str "h1"; h_name := str "Santa Casa" |}]
           [sampleSurgery (str "2024-03-15T10:00") Agendada 0%float;
            sampleSurgery (str "2024-03-16T10:00") Realizada 0%float]).
  intros s [<- | [<- | []]]; split; vm_compute; congruence.
Defined.

(* ================================================================== *)
(** * The reload and the notifications *)
(* ================================================================== *)

Lemma mapDoctorName_ok (host : Host) (rows : list ProfileRow) (w : World) :
  Forall (fun p => r_doctor p <> None) rows ->
  mapDoctorName host rows w = (Return (usersOfRows rows), w).
Proof.
  induction 1 as [|p rows Hp Hrows IH]; [reflexivity|].
  cbn [mapDoctorName usersOfRows flat_map]. unfold bind, withDoctorName.
  destruct (r_doctor p) as [n|]; [|congruence].
  unfold ret at 1. rewrite IH. reflexivity.
Qed.

Lemma mapDoctorName_throws (host : Host) (rows : list ProfileRow) (w : World) :
  ~ Forall (fun p => r_doctor p <> None) rows ->
  exists e, mapDoctorName host rows w = (Throw e, w).
Proof.
  induction rows as [|p rows IH]; intros Hn; [elim Hn; constructor|].
  cbn [mapDoctorName]. unfold bind, withDoctorName.
  destruct (r_doctor p) as [n|] eqn:E; [|eexists; reflexivity].
  unfold ret at 1. destruct IH as [e He].
  - intros H. apply Hn. constructor; [congruence | exact H].
  - rewrite He. exists e. reflexivity.
Qed.

Lemma rows_doctor_dec (rows : list ProfileRow) :
  {Forall (fun p => r_doctor p <> None) rows}
  + {~ Forall (fun p => r_doctor p <> None) rows}.
Proof.
  apply Forall_dec. intros p. destruct (r_doctor p); [left | right]; congruence.
Qed.

Ltac reload_requests :=
  rewrite <- ?app_assoc; cbn [app];
  eexists; split; [reflexivity | repeat constructor].

Ltac reload_fails :=
  let H := fresh in
  intros H; unfold reloadSucceeds in H;
  repeat match goal with
         | H : _ /\ _ |- _ => destruct H
         | H : exists _, _ |- _ => destruct H
         end; congruence.

(** What the body of the reload does in each of its cases. *)
Lemma fetchDataBody_summary (host : Host) (r : ReloadResponses) (s : Session) (w : World) :
  let res := fetchDataBody host r s w in
  let w1 := snd res in
  toasts w1 = toasts w
  /\ (exists rest, requests w1 = requests w ++ rest /\ Forall reloadRequest rest)
  /\ isModalOpen (app w1) = isModalOpen (app w)
  /\ surgeryToEdit (app w1) = surgeryToEdit (app w)
  /\ match fst res with
     | Return _ =>
         reloadSucceeds r
         /\ session (app w1) = session (app w)
         /\ exists p n rows,
              data (profileRes r) = Some p /\ r_doctor p = Some n
              /\ data (profilesRes r) = Some rows
              /\ loggedInProfile (app w1) = Some (userOfRow p n)
              /\ doctors (app w1) = dataOrEmpty (doctorsRes r)
              /\ surgeries (app w1) = dataOrEmpty (surgeriesRes r)
              /\ hospitals (app w1) = dataOrEmpty (hospitalsRes r)
              /\ insurancePlans (app w1) = dataOrEmpty (plansRes r)
              /\ userProfiles (app w1) = usersOfRows rows
     | Throw _ => ~ reloadSucceeds r
     end.
Proof.
  unfold fetchDataBody.
  destruct (error (profileRes r)) as [pe|] eqn:E1;
    [unfold_m; simpl; repeat split; [reload_requests | reload_fails] |].
  destruct (data (profileRes r)) as [p|] eqn:E2;
    [| unfold_m; simpl; repeat split; [reload_requests | reload_fails]].
  unfold_m. simpl.
  destruct (r_doctor p) as [n|] eqn:E3; simpl;
    [| repeat split; [reload_requests | reload_fails]].
  destruct (error (doctorsRes r)) eqn:E4; simpl;
    [repeat split; [reload_requests | reload_fails] |].
  destruct (error (surgeriesRes r)) eqn:E5; simpl;
    [repeat split; [reload_requests | reload_fails] |].
  destruct (error (hospitalsRes r)) eqn:E6; simpl;
    [repeat split; [reload_requests | reload_fails] |].
  destruct (error (plansRes r)) eqn:E7; simpl;
    [repeat split; [reload_requests | reload_fails] |].
  destruct (error (profilesRes r)) eqn:E8; simpl;
    [repeat split; [reload_requests | reload_fails] |].
  destruct (data (profilesRes r)) as [rows|] eqn:E9; simpl;
    [| repeat split; [reload_requests | reload_fails]].
  destruct (rows_doctor_dec rows) as [Hrows | Hrows].
  - rewrite (mapDoctorName_ok host rows _ Hrows). simpl.
    split; [reflexivity|]. split; [reload_requests|].
    split; [reflexivity|]. split; [reflexivity|].
    split; [|split; [reflexivity|]].
    + unfold reloadSucceeds. rewrite E1, E2, E4, E5, E6, E7, E8, E9.
      repeat split; try reflexivity; [exists p, n; auto | exists rows; auto].
    + exists p, n, rows. repeat split; assumption.
  - match goal with
    | |- context [mapDoctorName host rows ?w0] =>
        destruct (mapDoctorName_throws host rows w0 Hrows) as [e He]; rewrite He
    end. simpl.
    repeat split; [reload_requests |].
    intros H. unfold reloadSucceeds in H.
    destruct H as (_ & _ & _ & _ & _ & _ & _ & rows' & H1 & H2).
    apply Hrows. congruence.
Qed.

(** The reload never throws; it appends its requests, keeps the form state
    and emits at most the one error notification. *)
Lemma fetchData_summary (host : Host) (r : ReloadResponses) (s : Session) (w : World) :
  exists w' rest,
    fetchData host r s w = (Return tt, w')
    /\ requests w' = requests w ++ rest /\ Forall reloadRequest rest
    /\ loading (app w') = false
    /\ (toasts w' = toasts w
        \/ exists e,
             toasts w' = toasts w ++ [errorToast (str "Erro ao carregar dados: ") e]
             /\ session (app w') = None /\ loggedInProfile (app w') = None).
Proof.
  rewrite fetchData_unfold.
  pose proof (fetchDataBody_summary host r s (updApp (withLoading true) w)) as H.
  cbv zeta in H.
  destruct (fetchDataBody host r s (updApp (withLoading true) w)) as [[[] | e] w1].
  - cbn [fst snd] in H. destruct H as (Ht & (rest & Hr & Hf) & _).
    exists (updApp (withLoading false) w1), rest.
    repeat split; [exact Hr | exact Hf | left; exact Ht].
  - cbn [fst snd] in H. destruct H as (Ht & (rest & Hr & Hf) & _).
    unfold_m. cbn [fst snd app toasts requests].
    eexists _, rest. split; [reflexivity|]. cbn [app toasts requests].
    repeat split; [exact Hr | exact Hf |].
    right. exists e. rewrite Ht. repeat split.
Qed.

(* ------------------------------------------------------------------ *)
(** The reload one [await] at a time *)

Lemma world_eta (w : World) :
  {| app := app w; toasts := toasts w; requests := requests w |} = w.
Proof. destruct w. reflexivity. Qed.

Lemma clear_profile_noop (w : World) :
  loggedInProfile (app w) = None -> updApp (withLoggedInProfile None) w = w.
Proof.
  destruct w as [[] ? ?]. cbn. intros ->. reflexivity.
Qed.

Lemma mapDoctorName_forallb (host : Host) (rows : list ProfileRow) (w : World) :
  mapDoctorName host rows w
  = if forallb (fun p => match r_doctor p with
                         | Some _ => true
                         | None => false
                         end) rows
    then (Return (usersOfRows rows), w)
    else (Throw {| message := nullPropertyMessage host (str "name") |}, w).
Proof.
  induction rows as [|p rows IH]; [reflexivity|].
  cbn [mapDoctorName usersOfRows flat_map forallb]. unfold bind, withDoctorName.
  destruct (r_doctor p) as [n|]; [|reflexivity].
  unfold ret at 1. rewrite IH. cbn [andb].
  destruct (forallb _ rows); reflexivity.
Qed.

Ltac step_requests :=
  rewrite <- ?app_assoc; cbn [app];
  first [ exists []; split; [symmetry; apply app_nil_r | constructor]
        | eexists; split; [reflexivity | repeat constructor] ].

Ltac step_done :=
  eexists _, _; split; [reflexivity|];
  repeat split;
  try (cbn [awaitsLeft]; lia); try reflexivity;
  try (rewrite app_nil_r; reflexivity); try exact I;
  try discriminate; try congruence; try step_requests;
  try (left; split; reflexivity); try (right; split; reflexivity);
  try (left; reflexivity); try (right; reflexivity).

Lemma reloadResume_step (host : Host) (r : ReloadResponses) (p : ReloadPhase) (w : World) :
  p <> Finished -> phaseFits r p ->
  exists p' w',
    reloadResume host r p w = (Return p', w')
    /\ (awaitsLeft p' < awaitsLeft p)%nat
    /\ phaseFits r p'
    /\ toasts w' = toasts w ++ emitted host {| phase := p'; answer := r |}
    /\ (exists rest, requests w' = requests w ++ rest /\ Forall reloadRequest rest)
    /\ ((toasts w' = toasts w /\ session (app w') = session (app w))
        \/ (session (app w') = None /\ loggedInProfile (app w') = None))
    /\ isModalOpen (app w') = isModalOpen (app w)
    /\ surgeryToEdit (app w') = surgeryToEdit (app w)
    /\ (surgeries (app w') = surgeries (app w)
        \/ surgeries (app w') = dataOrEmpty (surgeriesRes r))
    /\ (p' = Finished -> loading (app w') = false).
Proof.
  intros Hp Hfit.
  destruct p; [| | | | congruence]; unfold reloadResume, reloadCaught, reloadData,
    emitted, reloadToasts, reloadError, phaseFits in *; cbn [phase answer].
  - (* the profile lookup is answered *)
    destruct (error (profileRes r)) as [pe|] eqn:E1; [unfold_m; cbn; step_done |].
    destruct (data (profileRes r)) as [profile|] eqn:E2; [| unfold_m; cbn; step_done].
    unfold_m. destruct (r_doctor profile) as [n|] eqn:E3; cbn; step_done.
  - (* the sign-out is answered *)
    unfold_m; cbn; step_done.
  - (* after the sign-out *)
    unfold_m; cbn.
    destruct (error (profileRes r)); [step_done|].
    destruct (data (profileRes r)); [contradiction | step_done].
  - (* the five reads are answered *)
    destruct (error (profileRes r)) as [pe|] eqn:E1; [contradiction|].
    destruct (data (profileRes r)) as [profile|] eqn:E2; [|contradiction].
    destruct (r_doctor profile) as [n|] eqn:E3; [|congruence].
    unfold_m.
    destruct (error (doctorsRes r)) eqn:E4; cbn; [step_done|].
    destruct (error (surgeriesRes r)) eqn:E5; cbn; [step_done|].
    destruct (error (hospitalsRes r)) eqn:E6; cbn; [step_done|].
    destruct (error (plansRes r)) eqn:E7; cbn; [step_done|].
    destruct (error (profilesRes r)) eqn:E8; cbn; [step_done|].
    destruct (data (profilesRes r)) as [rows|] eqn:E9; cbn; [|step_done].
    rewrite mapDoctorName_forallb.
    destruct (forallb _ rows); cbn; step_done.
Qed.

(** The reload of the source is the reload taken one [await] at a time. *)
Lemma fetchData_in_steps (host : Host) (r : ReloadResponses) (s : Session) (w : World) :
  fetchData host r s w
  = (Return tt, finish host r 3 AwaitProfile (snd (reloadStart s w))).
Proof.
  unfold fetchData, fetchDataBody, reloadStart.
  cbn [finish]. unfold reloadResume, reloadCaught, reloadData.
  destruct (error (profileRes r)) as [pe|] eqn:E1; [unfold_m; reflexivity|].
  destruct (data (profileRes r)) as [profile|] eqn:E2; [|unfold_m; reflexivity].
  unfold_m. destruct (r_doctor profile) as [n|] eqn:E3; cbn; [|reflexivity].
  destruct (error (doctorsRes r)); cbn; [reflexivity|].
  destruct (error (surgeriesRes r)); cbn; [reflexivity|].
  destruct (error (hospitalsRes r)); cbn; [reflexivity|].
  destruct (error (plansRes r)); cbn; [reflexivity|].
  destruct (error (profilesRes r)); cbn; [reflexivity|].
  destruct (data (profilesRes r)) as [rows|]; cbn; [|reflexivity].
  rewrite !mapDoctorName_forallb.
  destruct (forallb _ rows); reflexivity.
Qed.

(** What a reload leaves, by the error it ends with. *)
Lemma fetchData_pinned (host : Host) (r : ReloadResponses) (s : Session) (w : World) :
  let w' := snd (fetchData host r s w) in
  fst (fetchData host r s w) = Return tt
  /\ requests w' = requests w ++ reloadReads (user_id s) r
  /\ toasts w' = toasts w ++ reloadToasts host r
  /\ loading (app w') = false
  /\ isModalOpen (app w') = isModalOpen (app w)
  /\ surgeryToEdit (app w') = surgeryToEdit (app w)
  /\ match reloadError host r with
     | None =>
         session (app w') = session (app w)
         /\ exists p n rows,
              data (profileRes r) = Some p /\ r_doctor p = Some n
              /\ data (profilesRes r) = Some rows
              /\ loggedInProfile (app w') = Some (userOfRow p n)
              /\ doctors (app w') = dataOrEmpty (doctorsRes r)
              /\ surgeries (app w') = dataOrEmpty (surgeriesRes r)
              /\ hospitals (app w') = dataOrEmpty (hospitalsRes r)
              /\ insurancePlans (app w') = dataOrEmpty (plansRes r)
              /\ userProfiles (app w') = usersOfRows rows
     | Some _ =>
         session (app w') = None /\ loggedInProfile (app w') = None
         /\ (failsEarly r -> collections (app w') = collections (app w))
         /\ (surgeries (app w') = surgeries (app w)
             \/ surgeries (app w') = dataOrEmpty (surgeriesRes r))
     end.
Proof.
  unfold fetchData, fetchDataBody, reloadReads, reloadToasts, reloadError, failsEarly,
    collections.
  destruct (error (profileRes r)) as [pe|] eqn:E1;
    [unfold_m; cbn; rewrite <- !app_assoc; repeat split; left; reflexivity|].
  destruct (data (profileRes r)) as [profile|] eqn:E2;
    [|unfold_m; cbn; rewrite <- !app_assoc; repeat split; left; reflexivity].
  unfold_m. destruct (r_doctor profile) as [n|] eqn:E3; cbn;
    [|rewrite <- ?app_assoc; repeat split; left; reflexivity].
  destruct (error (doctorsRes r)); cbn;
    [rewrite <- !app_assoc; repeat split; left; reflexivity|].
  destruct (error (surgeriesRes r)); cbn;
    [rewrite <- !app_assoc; repeat split;
     [intros [? | ?]; congruence | left; reflexivity]|].
  destruct (error (hospitalsRes r)); cbn;
    [rewrite <- !app_assoc; repeat split;
     [intros [? | ?]; congruence | right; reflexivity]|].
  destruct (error (plansRes r)); cbn;
    [rewrite <- !app_assoc; repeat split;
     [intros [? | ?]; congruence | right; reflexivity]|].
  destruct (error (profilesRes r)); cbn;
    [rewrite <- !app_assoc; repeat split;
     [intros [? | ?]; congruence | right; reflexivity]|].
  destruct (data (profilesRes r)) as [rows|]; cbn;
    [|rewrite <- !app_assoc; repeat split;
      [intros [? | ?]; congruence | right; reflexivity]].
  rewrite !mapDoctorName_forallb.
  destruct (forallb _ rows); cbn; rewrite <- !app_assoc, ?app_nil_r.
  - repeat split. exists profile, n, rows. repeat split. exact E3.
  - repeat split; [intros [? | ?]; congruence | right; reflexivity].
Qed.

(** After a step of a reload the render has nothing to do: the effect runs
    only when the step cleared the session, and then it clears a profile
    that the step has cleared already. *)
Lemma render_after_step (out : Outside) (w w' : World) (l : list Reload) :
  (toasts w' = toasts w /\ session (app w') = session (app w))
  \/ (session (app w') = None /\ loggedInProfile (app w') = None) ->
  render out w {| world := w'; reloads := l |} = {| world := w'; reloads := l |}.
Proof.
  unfold render. cbn [world reloads].
  intros [[Ht Hs] | [Hs Hp]].
  - rewrite Ht, Hs, Nat.eqb_refl.
    assert (E : sameSession (session (app w)) (session (app w)) = true).
    { destruct (session (app w)); [apply eqb_refl | reflexivity]. }
    rewrite E. reflexivity.
  - rewrite Hs. rewrite (clear_profile_noop w' Hp).
    destruct (_ || _); reflexivity.
Qed.

Lemma nth_error_replaceAt {A : Type} (i : nat) (x y : A) (l : list A) :
  nth_error l i = Some y ->
  exists l1 l2,
    l = l1 ++ y :: l2 /\ List.length l1 = i /\ replaceAt i x l = l1 ++ x :: l2.
Proof.
  revert i. induction l as [|z l IH]; intros [|i] H; try discriminate.
  - injection H as ->. exists [], l. repeat split.
  - destruct (IH i H) as (l1 & l2 & -> & Hlen & E).
    exists (z :: l1), l2. cbn [replaceAt app List.length]. rewrite E, Hlen.
    repeat split.
Qed.

Lemma deliver_unfold (host : Host) (out : Outside) (i : nat) (rt : Runtime) :
  deliver host out i rt
  = match nth_error (reloads rt) i with
    | Some rl =>
        match phase rl with
        | Finished => rt
        | _ =>
            let (res, w') := reloadResume host (answer rl) (phase rl) (world rt) in
            render out (world rt)
              {| world := w';
                 reloads := replaceAt i
                              {| phase := match res with
                                          | Return p => p
                                          | Throw _ => Finished
                                          end;
                                 answer := answer rl |} (reloads rt) |}
        end
    | None => rt
    end.
Proof.
  unfold deliver. destruct (nth_error (reloads rt) i) as [[[] a]|]; reflexivity.
Qed.

(** An arrival either finds no reload waiting for it, or lets one reload
    take its next step; it never starts a reload. *)
Lemma deliver_cases (host : Host) (out : Outside) (i : nat) (rt : Runtime) :
  Forall (fun rl => phaseFits (answer rl) (phase rl)) (reloads rt) ->
  deliver host out i rt = rt
  \/ exists l1 rl l2 p' w',
       reloads rt = l1 ++ rl :: l2
       /\ List.length l1 = i
       /\ phase rl <> Finished
       /\ reloadResume host (answer rl) (phase rl) (world rt) = (Return p', w')
       /\ deliver host out i rt
          = {| world := w';
               reloads := l1 ++ {| phase := p'; answer := answer rl |} :: l2 |}.
Proof.
  intros Hfit. rewrite deliver_unfold.
  destruct (nth_error (reloads rt) i) as [rl|] eqn:E; [|left; reflexivity].
  assert (Hrl : phaseFits (answer rl) (phase rl)).
  { rewrite Forall_forall in Hfit. apply Hfit. exact (nth_error_In _ _ E). }
  assert (Hdec : phase rl = Finished \/ phase rl <> Finished).
  { destruct (phase rl); [right | right | right | right | left];
      congruence. }
  destruct Hdec as [Hf | Hf]; [left; rewrite Hf; reflexivity | right].
  destruct (reloadResume_step host (answer rl) (phase rl) (world rt) Hf Hrl)
    as (p' & w' & E1 & _ & _ & _ & _ & Hr & _).
  destruct (nth_error_replaceAt i {| phase := p'; answer := answer rl |} rl _ E)
    as (l1 & l2 & El & Hlen & Er).
  exists l1, rl, l2, p', w'.
  split; [exact El|]. split; [exact Hlen|]. split; [exact Hf|]. split; [exact E1|].
  rewrite E1, Er.
  rewrite (render_after_step out (world rt) w' _ Hr).
  destruct (phase rl); try reflexivity. congruence.
Qed.

Lemma awaitsLeftAll_app (l1 l2 : list Reload) :
  awaitsLeftAll (l1 ++ l2) = (awaitsLeftAll l1 + awaitsLeftAll l2)%nat.
Proof.
  induction l1 as [|x l1 IH]; [reflexivity|].
  simpl. rewrite IH. lia.
Qed.

Lemma emitted_step (host : Host) (errs : list Toast) (l1 l2 : list Reload)
    (rl rl' : Reload) :
  phase rl <> Finished ->
  Permutation errs (flat_map (emitted host) (l1 ++ rl :: l2)) ->
  Permutation (errs ++ emitted host rl')
              (flat_map (emitted host) (l1 ++ rl' :: l2)).
Proof.
  intros Hp H. rewrite flat_map_app in *. cbn [flat_map] in *.
  assert (E : emitted host rl = []).
  { unfold emitted. destruct (phase rl); try reflexivity. congruence. }
  rewrite E in H. cbn [app] in H.
  rewrite H, <- app_assoc.
  apply Permutation_app_head, Permutation_app_comm.
Qed.

(** An arrival keeps what holds while the reloads go on, and leaves no
    more awaits than there were. *)
Lemma deliver_running (host : Host) (out : Outside) (base : World)
    (given : list ReloadResponses) (i : nat) (rt : Runtime) :
  reloadsRunning host base given rt ->
  reloadsRunning host base given (deliver host out i rt)
  /\ (awaitsLeftAll (reloads (deliver host out i rt)) <= awaitsLeftAll (reloads rt))%nat.
Proof.
  intros H. pose proof H as (Hg & Hfit & (errs & Ht & Hperm & Hnone)
                             & (rest & Hr & Hrest) & Hm & He & Hs & Hsess & Hl).
  destruct (deliver_cases host out i rt Hfit)
    as [-> | (l1 & rl & l2 & p' & w' & El & _ & Hp & Estep & ->)];
    [split; [exact H | lia]|].
  destruct (reloadResume_step host (answer rl) (phase rl) (world rt) Hp)
    as (p1 & w1 & E1 & Hlt & Hfit' & Ht' & (rest' & Hr' & Hrest') & Hsess'
        & Hm' & He' & Hs' & Hl').
  { rewrite Forall_forall in Hfit. apply Hfit. rewrite El.
    apply in_or_app. right. left. reflexivity. }
  rewrite Estep in E1. injection E1 as <- <-.
  assert (Hin : In (answer rl) given).
  { rewrite <- Hg, El, map_app. apply in_or_app. right. left. reflexivity. }
  split.
  - unfold reloadsRunning. cbn [world reloads].
    split; [rewrite <- Hg, El, !map_app; reflexivity|].
    split.
    { rewrite El in Hfit. apply Forall_app in Hfit. destruct Hfit as [H1 H2].
      apply Forall_app. split; [exact H1|].
      inversion H2; subst. constructor; [exact Hfit' | assumption]. }
    split.
    { exists (errs ++ emitted host {| phase := p'; answer := answer rl |}).
      split; [rewrite Ht', Ht, app_assoc; reflexivity|].
      split.
      - apply (emitted_step host errs l1 l2 rl); [exact Hp|].
        rewrite <- El. exact Hperm.
      - destruct Hsess' as [[Hx Hy] | [Hx _]]; [|right; exact Hx].
        rewrite Ht' in Hx. rewrite <- (app_nil_r (toasts (world rt))) in Hx at 2.
        apply app_inv_head in Hx. rewrite Hx, app_nil_r, Hy. exact Hnone. }
    split.
    { exists (rest ++ rest'). split; [rewrite Hr', Hr, app_assoc; reflexivity|].
      apply Forall_app. split; assumption. }
    split; [congruence|]. split; [congruence|].
    split.
    { destruct Hs' as [Hs' | Hs']; [rewrite Hs'; exact Hs|].
      right. exists (answer rl). split; assumption. }
    split.
    { destruct Hsess' as [[_ Hx] | [Hx _]]; [rewrite Hx; exact Hsess | right; exact Hx]. }
    intros Hall _. apply Hl'.
    unfold allFinished in Hall. cbn [reloads] in Hall.
    apply Forall_app in Hall. destruct Hall as [_ Hall].
    inversion Hall; subst. assumption.
  - cbn [reloads]. rewrite El, !awaitsLeftAll_app.
    cbn [awaitsLeftAll phase]. lia.
Qed.

Lemma firstPending_spec (l : list Reload) :
  match firstPending l with
  | Some i => exists l1 rl l2, l = l1 ++ rl :: l2 /\ List.length l1 = i
                               /\ phase rl <> Finished
  | None => Forall (fun rl => phase rl = Finished) l
  end.
Proof.
  induction l as [|[p a] l IH]; [constructor|].
  assert (Hdec : p = Finished \/ p <> Finished).
  { destruct p; [right | right | right | right | left]; congruence. }
  destruct Hdec as [-> | Hp].
  - cbn [firstPending]. destruct (firstPending l) as [i|]; cbn [option_map].
    + destruct IH as (l1 & rl & l2 & -> & Hlen & Hrl).
      exists ({| phase := Finished; answer := a |} :: l1), rl, l2.
      cbn [List.length app]. rewrite Hlen. repeat split. exact Hrl.
    + constructor; [reflexivity | exact IH].
  - assert (E : firstPending ({| phase := p; answer := a |} :: l) = Some O).
    { destruct p; try reflexivity. congruence. }
    rewrite E. exists [], {| phase := p; answer := a |}, l. repeat split. exact Hp.
Qed.

(** The arrival of the answer the first waiting reload waits for leaves
    fewer awaits. *)
Lemma deliver_pending (host : Host) (out : Outside) (i : nat) (rt : Runtime) :
  Forall (fun rl => phaseFits (answer rl) (phase rl)) (reloads rt) ->
  firstPending (reloads rt) = Some i ->
  (awaitsLeftAll (reloads (deliver host out i rt)) < awaitsLeftAll (reloads rt))%nat.
Proof.
  intros Hfit Hi. pose proof (firstPending_spec (reloads rt)) as H. rewrite Hi in H.
  destruct H as (l1 & rl & l2 & El & Hlen & Hp).
  rewrite deliver_unfold.
  assert (E : nth_error (reloads rt) i = Some rl).
  { rewrite El, <- Hlen, nth_error_app2, Nat.sub_diag; [reflexivity | lia]. }
  rewrite E.
  destruct (reloadResume_step host (answer rl) (phase rl) (world rt) Hp)
    as (p1 & w1 & E1 & Hlt & _ & _ & _ & Hsess' & _).
  { rewrite Forall_forall in Hfit. apply Hfit. exact (nth_error_In _ _ E). }
  rewrite E1.
  destruct (nth_error_replaceAt i {| phase := p1; answer := answer rl |} rl _ E)
    as (k1 & k2 & Ek & _ & Er).
  rewrite Er, (render_after_step out (world rt) w1 _ Hsess').
  assert (Hgoal : (awaitsLeftAll (k1 ++ {| phase := p1; answer := answer rl |} :: k2)
                   < awaitsLeftAll (reloads rt))%nat).
  { rewrite Ek, !awaitsLeftAll_app. cbn [awaitsLeftAll phase]. lia. }
  destruct (phase rl); try exact Hgoal. congruence.
Qed.

(** With fuel for every await that is left, the reloads all come to their
    end. *)
Lemma drain_running (host : Host) (out : Outside) (base : World)
    (given : list ReloadResponses) (fuel : nat) (rt : Runtime) :
  reloadsRunning host base given rt ->
  (awaitsLeftAll (reloads rt) <= fuel)%nat ->
  reloadsRunning host base given (drain host out fuel rt)
  /\ allFinished (drain host out fuel rt).
Proof.
  revert rt. induction fuel as [|fuel IH]; intros rt H Hle.
  - cbn [drain]. split; [exact H|].
    pose proof (firstPending_spec (reloads rt)) as Hf.
    destruct (firstPending (reloads rt)) as [i|]; [|exact Hf].
    destruct Hf as (l1 & rl & l2 & El & _ & Hp).
    rewrite El, awaitsLeftAll_app in Hle. cbn [awaitsLeftAll] in Hle.
    destruct (phase rl); cbn [awaitsLeft] in Hle; try lia. congruence.
  - cbn [drain].
    pose proof (firstPending_spec (reloads rt)) as Hf.
    destruct (firstPending (reloads rt)) as [i|] eqn:Ei; [|split; [exact H | exact Hf]].
    destruct (deliver_running host out base given i rt H) as [H' _].
    apply IH; [exact H'|].
    pose proof (deliver_pending host out i rt (proj1 (proj2 H)) Ei). lia.
Qed.

Lemma arrivals_running (host : Host) (out : Outside) (base : World)
    (given : list ReloadResponses) (l : list nat) (rt : Runtime) :
  reloadsRunning host base given rt ->
  let rt' := fold_left (fun rt' i => deliver host out i rt') l rt in
  reloadsRunning host base given rt'
  /\ (awaitsLeftAll (reloads rt') <= awaitsLeftAll (reloads rt))%nat.
Proof.
  revert rt. induction l as [|i l IH]; intros rt H; cbn [fold_left].
  - split; [exact H | lia].
  - destruct (deliver_running host out base given i rt H) as [H1 H2].
    destruct (IH _ H1) as [H3 H4]. split; [exact H3 | lia].
Qed.

(** From a run time in which at most two reloads have been started, and
    to which the render adds nothing, everything comes to its end. *)
Lemma settle_running (host : Host) (out : Outside) (base before : World)
    (given : list ReloadResponses) (rt : Runtime) :
  reloadsRunning host base given (render out before rt) ->
  (awaitsLeftAll (reloads (render out before rt)) <= 6)%nat ->
  reloadsRunning host base given (settle host out before rt)
  /\ allFinished (settle host out before rt).
Proof.
  intros H Hle. unfold settle.
  destruct (arrivals_running host out base given (arrivals out) _ H) as [H1 H2].
  apply drain_running; [exact H1 | cbv zeta in H2; lia].
Qed.

Lemma finish_more (host : Host) (r : ReloadResponses) (fuel : nat) (p : ReloadPhase)
    (w : World) :
  phaseFits r p -> (awaitsLeft p <= fuel)%nat ->
  finish host r fuel p w = finish host r (S fuel) p w.
Proof.
  revert p w. induction fuel as [|fuel IH]; intros p w Hfit Hle.
  - destruct p; cbn [awaitsLeft] in Hle; try lia. reflexivity.
  - assert (Hdec : p = Finished \/ p <> Finished).
    { destruct p; [right | right | right | right | left]; congruence. }
    destruct Hdec as [-> | Hp]; [reflexivity|].
    destruct (reloadResume_step host r p w Hp Hfit) as (p' & w' & E & Hlt & Hfit' & _).
    assert (E1 : forall f, finish host r (S f) p w = finish host r f p' w').
    { intros f. destruct p; try congruence; cbn [finish]; rewrite E; reflexivity. }
    rewrite !E1. apply IH; [exact Hfit' | lia].
Qed.

Lemma finish_fuel (host : Host) (r : ReloadResponses) (p : ReloadPhase) (w : World) :
  phaseFits r p -> (awaitsLeft p <= 2)%nat ->
  finish host r 2 p w = finish host r 3 p w.
Proof. apply finish_more. Qed.

(** One reload in flight: an arrival lets it go on or changes nothing, and
    what the reload comes to in the end stays the same. *)
Lemma deliver_alone (host : Host) (out : Outside) (r : ReloadResponses) (i : nat)
    (p : ReloadPhase) (w : World) :
  phaseFits r p ->
  exists p' w',
    deliver host out i {| world := w; reloads := [{| phase := p; answer := r |}] |}
    = {| world := w'; reloads := [{| phase := p'; answer := r |}] |}
    /\ phaseFits r p'
    /\ finish host r 3 p' w' = finish host r 3 p w.
Proof.
  intros Hfit.
  destruct (deliver_cases host out i
              {| world := w; reloads := [{| phase := p; answer := r |}] |})
    as [-> | (l1 & rl & l2 & p' & w' & El & _ & Hp & Estep & ->)].
  - constructor; [exact Hfit | constructor].
  - exists p, w. repeat split. exact Hfit.
  - cbn [reloads world] in *.
    destruct l1 as [|x l1]; [| destruct l1; discriminate El].
    injection El as <- <-. cbn [phase answer] in *.
    exists p', w'. split; [reflexivity|].
    destruct (reloadResume_step host r p w Hp Hfit) as (p1 & w1 & E1 & Hlt & Hfit' & _).
    rewrite Estep in E1. injection E1 as <- <-.
    split; [exact Hfit'|].
    rewrite <- (finish_fuel host r p' w' Hfit').
    + destruct p; try congruence; cbn [finish]; rewrite Estep; reflexivity.
    + destruct p; cbn [awaitsLeft] in Hlt; lia.
Qed.

Lemma arrivals_alone (host : Host) (out : Outside) (r : ReloadResponses)
    (l : list nat) (p : ReloadPhase) (w : World) :
  phaseFits r p ->
  exists p' w',
    fold_left (fun rt' i => deliver host out i rt') l
      {| world := w; reloads := [{| phase := p; answer := r |}] |}
    = {| world := w'; reloads := [{| phase := p'; answer := r |}] |}
    /\ phaseFits r p'
    /\ finish host r 3 p' w' = finish host r 3 p w.
Proof.
  revert p w. induction l as [|i l IH]; intros p w Hfit; cbn [fold_left].
  - exists p, w. repeat split. exact Hfit.
  - destruct (deliver_alone host out r i p w Hfit) as (p1 & w1 & -> & Hfit1 & E1).
    destruct (IH p1 w1 Hfit1) as (p2 & w2 & -> & Hfit2 & E2).
    exists p2, w2. split; [reflexivity|]. split; [exact Hfit2 | congruence].
Qed.

Lemma drain_alone (host : Host) (out : Outside) (r : ReloadResponses)
    (fuel : nat) (p : ReloadPhase) (w : World) :
  phaseFits r p -> (awaitsLeft p <= fuel)%nat ->
  drain host out fuel {| world := w; reloads := [{| phase := p; answer := r |}] |}
  = {| world := finish host r 3 p w;
       reloads := [{| phase := Finished; answer := r |}] |}.
Proof.
  revert p w. induction fuel as [|fuel IH]; intros p w Hfit Hle.
  - destruct p; cbn [awaitsLeft] in Hle; try lia. reflexivity.
  - assert (Hdec : p = Finished \/ p <> Finished).
    { destruct p; [right | right | right | right | left]; congruence. }
    destruct Hdec as [-> | Hp]; [reflexivity|].
    assert (E : drain host out (S fuel)
                  {| world := w; reloads := [{| phase := p; answer := r |}] |}
                = drain host out fuel
                    (deliver host out 0
                       {| world := w; reloads := [{| phase := p; answer := r |}] |})).
    { destruct p; try reflexivity. congruence. }
    rewrite E.
    pose proof (deliver_pending host out 0
                  {| world := w; reloads := [{| phase := p; answer := r |}] |}) as Hlt.
    destruct (deliver_alone host out r 0 p w Hfit) as (p1 & w1 & E1 & Hfit1 & E2).
    rewrite E1 in *. cbn [reloads awaitsLeftAll phase] in Hlt.
    rewrite IH, E2; [reflexivity | exact Hfit1 |].
    assert ((awaitsLeft p1 + 0 < awaitsLeft p + 0)%nat); [|lia].
    apply Hlt; [constructor; [exact Hfit | constructor]|].
    destruct p; try reflexivity. congruence.
Qed.

Lemma toast_added (ts : list Toast) (t : Toast) :
  Nat.eqb (List.length (ts ++ [t])) (List.length ts) = false.
Proof. apply Nat.eqb_neq. rewrite length_app. cbn. lia. Qed.

(** What follows a notification that no reload is behind: the render runs
    the effect; with a session, the reload it starts goes to its end as
    [fetchData] does, however its answers arrive, and without one the
    logged-in profile is cleared. *)
Lemma after_notification (host : Host) (out : Outside) (before w : World) (t : Toast) :
  toasts w = toasts before ++ [t] ->
  settle host out before (idle w)
  = match session (app w) with
    | Some s =>
        {| world := snd (fetchData host (answers out 0%nat) s w);
           reloads := [{| phase := Finished; answer := answers out 0%nat |}] |}
    | None => {| world := updApp (withLoggedInProfile None) w; reloads := [] |}
    end.
Proof.
  intros Ht. unfold settle, render, idle. cbn [world reloads List.length].
  rewrite Ht, toast_added. cbn [negb orb].
  destruct (session (app w)) as [s|].
  - cbn [List.app].
    destruct (arrivals_alone host out (answers out 0%nat) (arrivals out) AwaitProfile
                (snd (reloadStart s w)) I) as (p & w' & -> & Hfit & E).
    rewrite drain_alone; [| exact Hfit | destruct p; cbn; lia].
    rewrite E, fetchData_in_steps. reflexivity.
  - assert (E : forall l rt, reloads rt = [] ->
                  fold_left (fun rt' i => deliver host out i rt') l rt = rt).
    { induction l as [|i l IH]; intros rt Hrt; [reflexivity|]. cbn [fold_left].
      assert (Ed : deliver host out i rt = rt).
      { rewrite deliver_unfold, Hrt. destruct i; reflexivity. }
      rewrite Ed. apply IH. exact Hrt. }
    rewrite E; reflexivity.
Qed.

Lemma reloadError_succeeds (host : Host) (r : ReloadResponses) :
  reloadError host r = None <-> reloadSucceeds r.
Proof.
  unfold reloadError, reloadSucceeds.
  destruct (error (profileRes r)) as [pe|];
    [split; [discriminate | intros (H & _); discriminate H]|].
  destruct (data (profileRes r)) as [p|];
    [|split; [discriminate | intros (_ & (p & n & H & _) & _); discriminate H]].
  destruct (r_doctor p) as [n|] eqn:E3;
    [|split; [discriminate | intros (_ & (p' & n & H & H') & _); congruence]].
  destruct (error (doctorsRes r));
    [split; [discriminate | intros (_ & _ & H & _); discriminate H]|].
  destruct (error (surgeriesRes r));
    [split; [discriminate | intros (_ & _ & _ & H & _); discriminate H]|].
  destruct (error (hospitalsRes r));
    [split; [discriminate | intros (_ & _ & _ & _ & H & _); discriminate H]|].
  destruct (error (plansRes r));
    [split; [discriminate | intros (_ & _ & _ & _ & _ & H & _); discriminate H]|].
  destruct (error (profilesRes r));
    [split; [discriminate | intros (_ & _ & _ & _ & _ & _ & H & _); discriminate H]|].
  destruct (data (profilesRes r)) as [rows|];
    [|split; [discriminate
             | intros (_ & _ & _ & _ & _ & _ & _ & rows & H & _); discriminate H]].
  destruct (forallb _ rows) eqn:Ef.
  - split; [intros _ | reflexivity].
    repeat split; [exists p, n; auto|].
    exists rows. split; [reflexivity|].
    rewrite forallb_forall in Ef. apply Forall_forall. intros x Hx.
    specialize (Ef x Hx). destruct (r_doctor x); [discriminate | discriminate Ef].
  - split; [discriminate|].
    intros (_ & _ & _ & _ & _ & _ & _ & rows' & H & HF). injection H as <-.
    assert (Et : forallb (fun p0 => match r_doctor p0 with
                                    | Some _ => true
                                    | None => false
                                    end) rows = true).
    { apply forallb_forall. intros x Hx. rewrite Forall_forall in HF.
      specialize (HF x Hx). destruct (r_doctor x); [reflexivity | congruence]. }
    congruence.
Qed.


(** A write that succeeded, then the reload. *)
Lemma write_then_reload (host : Host) (r : ReloadResponses) (q : Request)
    (prefix okMessage : jsstring) (w : World) :
  let w' := snd (referenceWrite q prefix okMessage host None r w) in
  let ok := {| t_message := okMessage; t_type := Success |} in
  fst (referenceWrite q prefix okMessage host None r w) = Return tt
  /\ (exists rest, requests w' = requests w ++ q :: rest /\ Forall reloadRequest rest)
  /\ (toasts w' = toasts w ++ [ok]
      \/ exists e,
           toasts w'
           = toasts w ++ [ok; errorToast (str "Erro ao carregar dados: ") e]
           /\ session (app w') = None).
Proof.
  unfold referenceWrite. unfold_m. cbn [fst snd app toasts requests].
  destruct (session (app w)) as [s|].
  - match goal with
    | |- context [fetchData host r s ?w0] =>
        destruct (fetchData_summary host r s w0) as (w1 & rest & E & Hr & Hf & _ & Ht);
        rewrite E
    end.
    cbn [fst snd requests toasts] in *. split; [reflexivity|]. split.
    + exists rest. rewrite Hr, <- app_assoc. split; [reflexivity | exact Hf].
    + destruct Ht as [Ht | (e & Ht & Hs)]; [left; exact Ht | right].
      exists e. rewrite Ht, <- app_assoc. split; [reflexivity | exact (proj1 Hs)].
  - cbn [fst snd requests toasts]. split; [reflexivity|]. split.
    + exists []. split; [reflexivity | constructor].
    + left. reflexivity.
Qed.

(* ------------------------------------------------------------------ *)
(** The operations at run time *)

Lemma reloadReads_requests (userId : jsstring) (r : ReloadResponses) :
  Forall reloadRequest (reloadReads userId r).
Proof.
  unfold reloadReads.
  destruct (error (profileRes r)); [repeat constructor|].
  destruct (data (profileRes r)) as [p|]; [|repeat constructor].
  destruct (r_doctor p); repeat constructor.
Qed.

(** The steps of an operation that has a write. *)
Lemma stepsOf_write (host : Host) (op : Operation) (w : World) (q : Request) :
  writeSent host op w q ->
  exists steps f,
    stepsOf host op w = Return (Some steps)
    /\ write steps = q
    /\ (forall e, failureText steps e = errorPrefix op ++ message e)
    /\ successText steps = successMessage op
    /\ (forall w0, closing steps w0 = (Return tt, updApp f w0))
    /\ (forall st, session (f st) = session st
                   /\ loggedInProfile (f st) = loggedInProfile st
                   /\ collections (f st) = collections st).
Proof.
  assert (Hid : forall w0 : World, ret tt w0 = (Return tt, updApp (fun st => st) w0)).
  { intros w0. unfold ret, updApp. rewrite world_eta. reflexivity. }
  destruct op; cbn [writeSent stepsOf errorPrefix successMessage].
  - intros ->. eexists _, (fun st => withSurgeryToEdit None (withIsModalOpen false st)).
    split; [reflexivity|]. cbn [write failureText successText closing].
    repeat split.
    destruct editId as [i|]; [destruct (truthy i)|]; reflexivity.
  - intros (surgery & newDateTime & Hfind & Hts & ->). rewrite Hfind, Hts.
    eexists _, (fun st => st). split; [reflexivity|]. repeat split. exact Hid.
  - intros ->. eexists _, (fun st => st). split; [reflexivity|]. repeat split. exact Hid.
  - intros ->. eexists _, (fun st => st). split; [reflexivity|]. repeat split. exact Hid.
  - intros ->. eexists _, (fun st => st). split; [reflexivity|]. repeat split. exact Hid.
  - intros ->. eexists _, (fun st => st). split; [reflexivity|]. repeat split. exact Hid.
  - intros ->. eexists _, (fun st => st). split; [reflexivity|]. repeat split. exact Hid.
  - intros ->. eexists _, (fun st => st). split; [reflexivity|]. repeat split. exact Hid.
Qed.

(** The handler taken alone, when its write fails. *)
Lemma run_failed_write (host : Host) (op : Operation) (e : JsError)
    (r : ReloadResponses) (w : World) (q : Request) :
  writeSent host op w q ->
  run host op (Some e) r w
  = (Return tt, {| app := app w;
                   toasts := toasts w ++ [errorToast (errorPrefix op) e];
                   requests := requests w ++ [q] |}).
Proof.
  destruct op; cbn [writeSent run errorPrefix]; try (intros ->; reflexivity).
  intros (surgery & newDateTime & Hfind & Hts & ->).
  unfold handleSurgeryDrop. rewrite Hfind. unfold bind at 1. rewrite Hts. reflexivity.
Qed.

(** A failed write at run time: the handler, and then what its
    notification starts. *)
Lemma perform_failed_write (host : Host) (op : Operation) (e : JsError)
    (r : ReloadResponses) (out : Outside) (w : World) (q : Request) :
  writeSent host op w q ->
  perform host op (Some e) out w
  = (Return tt,
     let handled := snd (run host op (Some e) r w) in
     match session (app w) with
     | Some s =>
         {| world := snd (fetchData host (answers out 0%nat) s handled);
            reloads := [{| phase := Finished; answer := answers out 0%nat |}] |}
     | None => {| world := updApp (withLoggedInProfile None) handled; reloads := [] |}
     end).
Proof.
  intros Hq. cbv zeta. rewrite (run_failed_write host op e r w q Hq). cbn [snd].
  destruct (stepsOf_write host op w q Hq) as (steps & f & Es & <- & Hfail & _).
  unfold perform. rewrite Es.
  unfold addToast, request. cbn [snd app toasts requests].
  rewrite (after_notification host out _ _ {| t_message := failureText steps e;
                                               t_type := Error |});
    [| reflexivity].
  cbn [app]. rewrite Hfail. reflexivity.
Qed.

Lemma finished_emitted (host : Host) (l : list Reload) :
  Forall (fun rl => phase rl = Finished) l ->
  flat_map (emitted host) l = flat_map (reloadToasts host) (map answer l).
Proof.
  induction 1 as [|rl l Hrl _ IH]; [reflexivity|].
  cbn [flat_map map]. rewrite IH. unfold emitted. rewrite Hrl. reflexivity.
Qed.

(** A write that succeeded at run time. With a session two reloads go on,
    the handler's own and the one the success notification starts. *)
Lemma perform_succeeded (host : Host) (op : Operation) (out : Outside) (w : World)
    (q : Request) :
  writeSent host op w q ->
  exists rt,
    perform host op None out w = (Return tt, rt)
    /\ allFinished rt
    /\ (exists rest, requests (world rt) = requests w ++ q :: rest
                     /\ Forall reloadRequest rest)
    /\ (surgeries (app (world rt)) = surgeries (app w)
        \/ exists k, surgeries (app (world rt))
                     = dataOrEmpty (surgeriesRes (answers out k)))
    /\ match session (app w) with
       | Some _ =>
           map answer (reloads rt) = [answers out 0%nat; answers out 1%nat]
           /\ loading (app (world rt)) = false
           /\ exists errs,
                toasts (world rt)
                = toasts w ++ {| t_message := successMessage op; t_type := Success |}
                              :: errs
                /\ Permutation errs (reloadToasts host (answers out 0%nat)
                                     ++ reloadToasts host (answers out 1%nat))
                /\ (errs = [] \/ session (app (world rt)) = None)
       | None =>
           reloads rt = []
           /\ toasts (world rt)
              = toasts w ++ [{| t_message := successMessage op; t_type := Success |}]
       end.
Proof.
  intros Hq.
  destruct (stepsOf_write host op w q Hq)
    as (steps & f & Es & <- & _ & Hok & Hclose & Hf).
  unfold perform. rewrite Es. eexists. split; [reflexivity|].
  unfold bind, addToast, request. cbn [snd app toasts requests].
  rewrite Hclose, Hok. cbn [snd].
  destruct (Hf (app w)) as (Hfs & _ & Hfc).
  destruct (session (app w)) as [s|] eqn:Esess.
  - unfold ownReload.
    set (wC := updApp f _).
    set (rt0 := {| world := snd (reloadStart s wC); reloads := _ |}).
    set (sent := {| app := app w; toasts := toasts w; requests := requests w ++ _ |}).
    assert (Er : render out sent rt0
                 = {| world := snd (reloadStart s (snd (reloadStart s wC)));
                      reloads := [{| phase := AwaitProfile; answer := answers out 0%nat |};
                                  {| phase := AwaitProfile;
                                     answer := answers out 1%nat |}] |}).
    { unfold render. subst rt0 wC sent. unfold reloadStart. unfold_m.
      cbn [world reloads snd app toasts requests List.length session withLoading].
      rewrite toast_added, Hfs, Esess. reflexivity. }
    destruct (settle_running host out
                (snd (reloadStart s (snd (reloadStart s wC)))) sent
                [answers out 0%nat; answers out 1%nat] rt0)
      as [Hrun Hall].
    { rewrite Er. unfold reloadsRunning. cbn [world reloads].
      split; [reflexivity|].
      split; [repeat constructor|].
      split.
      { exists []. split; [symmetry; apply app_nil_r|].
        split; [constructor | left; reflexivity]. }
      split; [exists []; split; [symmetry; apply app_nil_r | constructor]|].
      repeat split; try (left; reflexivity).
      intros Hall. inversion Hall as [|? ? H1 _]. discriminate H1. }
    { rewrite Er. cbn. lia. }
    destruct Hrun as (Hg & _ & (errs & Ht & Hperm & Hnone) & (rest & Hr & Hrest)
                      & _ & _ & Hs & _ & Hl).
    split; [exact Hall|].
    split.
    { exists (SelectProfile (user_id s) :: SelectProfile (user_id s) :: rest).
      split; [|repeat constructor; exact Hrest].
      rewrite Hr. subst wC sent. unfold reloadStart. unfold_m.
      cbn [snd app requests]. rewrite <- !app_assoc. reflexivity. }
    split.
    { destruct Hs as [Hs | (r & Hin & Hs)].
      - left. rewrite Hs. subst wC. unfold reloadStart. unfold_m.
        cbn [snd app withLoading surgeries].
        unfold collections in Hfc. congruence.
      - right. destruct Hin as [<- | [<- | []]]; eauto. }
    split; [exact Hg|].
    split; [apply Hl; [exact Hall | discriminate]|].
    exists errs. split.
    { rewrite Ht. subst wC. unfold reloadStart. unfold_m. cbn [snd app toasts].
      rewrite <- app_assoc. reflexivity. }
    split; [|exact Hnone].
    rewrite Hperm, (finished_emitted host _ Hall), Hg. cbn [flat_map].
    rewrite app_nil_r. reflexivity.
  - unfold ownReload.
    rewrite (after_notification host out _ _
               {| t_message := successMessage op; t_type := Success |});
      [| reflexivity].
    unfold updApp. cbn [app toasts requests session]. rewrite Hfs.
    cbn [world reloads app toasts requests surgeries withLoggedInProfile].
    split; [constructor|].
    split; [exists []; split; [reflexivity | constructor]|].
    split; [left; unfold collections in Hfc; congruence|].
    split; reflexivity.
Qed.

(** Without a session the operation at run time is the handler taken
    alone and then the effect, which clears the logged-in profile. *)
Lemma perform_without_session (host : Host) (op : Operation)
    (writeError : option JsError) (r : ReloadResponses) (out : Outside) (w : World)
    (q : Request) :
  writeSent host op w q ->
  session (app w) = None ->
  perform host op writeError out w
  = (Return tt,
     {| world := updApp (withLoggedInProfile None) (snd (run host op writeError r w));
        reloads := [] |}).
Proof.
  intros Hq Hs. destruct writeError as [e|].
  - rewrite (perform_failed_write host op e r out w q Hq), Hs. reflexivity.
  - assert (Hsettle : forall (before w0 : World) (t : Toast),
               toasts w0 = toasts before ++ [t] ->
               session (app w0) = None ->
               settle host out before (ownReload out (session (app w)) w0)
               = {| world := updApp (withLoggedInProfile None) w0; reloads := [] |}).
    { intros before w0 t Ht Hs0. rewrite Hs. unfold ownReload.
      rewrite (after_notification host out before w0 t Ht), Hs0. reflexivity. }
    unfold perform.
    destruct op; cbn [writeSent] in Hq; cbn [stepsOf run].
    2: { destruct Hq as (surgery & newDateTime & Hfind & Hts & _).
         unfold handleSurgeryDrop. rewrite Hfind, Hts.
         unfold referenceSteps. cbn [write successText closing].
         erewrite Hsettle; [| unfold_m; cbn; reflexivity | unfold_m; cbn; exact Hs].
         unfold_m. cbn. rewrite Hs. reflexivity. }
    all: unfold handleSaveSurgery, handleAddDoctor, handleDeleteDoctor, handleAddHospital,
        handleDeleteHospital, handleAddPlan, handleDeletePlan, referenceWrite,
        referenceSteps;
      cbn [write successText closing];
      (erewrite Hsettle; [| unfold_m; cbn; reflexivity | unfold_m; cbn; exact Hs]);
      unfold_m; cbn; rewrite Hs; reflexivity.
Qed.



(* ================================================================== *)
(** * Validation of the forms *)
(* ================================================================== *)




Lemma trimStart_idem (s : jsstring) : trimStart (trimStart s) = trimStart s.
Proof.
  induction s as [|c s IH]; [reflexivity|]. cbn [trimStart].
  destruct (isWhiteSpace c) eqn:E; [exact IH|]. cbn [trimStart]. rewrite E. reflexivity.
Qed.

Lemma trimStart_keeps_last (u : jsstring) (c : N) :
  isWhiteSpace c = false -> exists u', trimStart (u ++ [c]) = u' ++ [c].
Proof.
  intros Hc. induction u as [|x u IH].
  - exists []. change ([] ++ [c]) with [c]. unfold trimStart. rewrite Hc. reflexivity.
  - change ((x :: u) ++ [c]) with (x :: (u ++ [c])).
    change (trimStart (x :: (u ++ [c])))
      with (if isWhiteSpace x then trimStart (u ++ [c]) else x :: (u ++ [c])).
    destruct (isWhiteSpace x); [exact IH|]. exists (x :: u). reflexivity.
Qed.

Lemma trimStart_fixed (s : jsstring) :
  (forall c r, s = c :: r -> isWhiteSpace c = false) -> trimStart s = s.
Proof.
  destruct s as [|c r]; [reflexivity|]. intros H. cbn [trimStart].
  rewrite (H c r eq_refl). reflexivity.
Qed.

Lemma trim_head (s : jsstring) (c : N) (r : jsstring) :
  trim s = c :: r -> isWhiteSpace c = false.
Proof.
  unfold trim, trimEnd. destruct (trimStart s) as [|c0 r0] eqn:E; [discriminate|].
  pose proof (trimStart_head s c0 r0 E) as Hc0.
  cbn [rev]. destruct (trimStart_keeps_last (rev r0) c0 Hc0) as [u' Hu].
  rewrite Hu, rev_app_distr. cbn [rev app]. intros H. injection H as <- _. exact Hc0.
Qed.

Lemma trim_last (s : jsstring) (c : N) (r : jsstring) :
  trim s = r ++ [c] -> isWhiteSpace c = false.
Proof.
  unfold trim, trimEnd. intros H.
  assert (H' : trimStart (rev (trimStart s)) = c :: rev r).
  { rewrite <- (rev_involutive (trimStart (rev (trimStart s)))), H, rev_app_distr.
    reflexivity. }
  exact (trimStart_head _ _ _ H').
Qed.

Lemma trim_trimmed (s : jsstring) : trimmed (trim s) /\ trim (trim s) = trim s.
Proof.
  assert (Ht : trimmed (trim s)).
  { split; intros c r H; [exact (trim_head s c r H) | exact (trim_last s c r H)]. }
  split; [exact Ht|].
  unfold trim at 1. rewrite (trimStart_fixed (trim s) (proj1 Ht)).
  unfold trim, trimEnd. rewrite rev_involutive, trimStart_idem. reflexivity.
Qed.

(** The shape the three add forms share, over the write they make. *)
Lemma handleAdd_referenceWrite (table prefix okMessage : jsstring) (host : Host)
    (writeError : option JsError) (r : ReloadResponses) (newName : jsstring)
    (w : World) :
  let res := Settings.handleAdd
               (fun name => referenceWrite (Insert table name) prefix okMessage
                              host writeError r) newName w in
  (trim newName = [] -> res = (Return newName, w))
  /\ (trim newName <> [] ->
      fst res = Return []
      /\ exists rest,
           requests (snd res) = requests w ++ Insert table (trim newName) :: rest
           /\ Forall reloadRequest rest).
Proof.
  intros res. subst res. unfold Settings.handleAdd.
  destruct (truthy (trim newName)) eqn:Hn.
  - split; [intros H; rewrite H in Hn; discriminate|]. intros _.
    unfold bind, ret. destruct writeError as [e|].
    + destruct (referenceWrite_failed (Insert table (trim newName)) prefix okMessage
                  host e r w) as (_ & H2 & _).
      cbv zeta in H2.
      destruct (referenceWrite _ _ _ host (Some e) r w) as [[[] | e'] w1] eqn:E;
        [| unfold referenceWrite in E; unfold_m; discriminate E].
      cbn [fst snd] in *. split; [reflexivity|].
      exists []. split; [exact H2 | constructor].
    + destruct (write_then_reload host r (Insert table (trim newName)) prefix okMessage w)
        as (H1 & (rest & H2 & H3) & _).
      destruct (referenceWrite _ _ _ host None r w) as [[[] | e'] w1];
        cbn [fst snd] in *; [| discriminate H1].
      split; [reflexivity|]. exists rest. split; assumption.
  - apply truthy_false in Hn. split; [reflexivity | contradiction].
Qed.

(** X13. The three add forms of the settings ignore a blank name: nothing
    is requested, nothing is notified and the input keeps its text. Any
    other name is sent to the store once, as an insert into the table of
    the form, stripped of the white space around it, and the input is
    emptied, whether or not the store accepts the insert. *)
Theorem settings_add_sends_trimmed_name (kind : ReferenceKind) (host : Host)
    (writeError : option JsError) (r : ReloadResponses) (newName : jsstring)
    (w : World) :
  let res := settingsAdd kind host writeError r newName w in
  (trim newName = [] -> res = (Return newName, w))
  /\ (trim newName <> [] ->
      fst res = Return []
      /\ trimmed (trim newName)
      /\ exists rest,
           requests (snd res)
           = requests w ++ Insert (tableOf kind) (trim newName) :: rest
           /\ Forall reloadRequest rest).
Proof.
  intros res. subst res.
  assert (H : forall table prefix okMessage,
            let res := Settings.handleAdd
                         (fun name => referenceWrite (Insert table name) prefix
                                        okMessage host writeError r) newName w in
            (trim newName = [] -> res = (Return newName, w))
            /\ (trim newName <> [] ->
                fst res = Return [] /\ trimmed (trim newName)
                /\ exists rest,
                     requests (snd res)
                     = requests w ++ Insert table (trim newName) :: rest
                     /\ Forall reloadRequest rest)).
  { intros table prefix okMessage.
    destruct (handleAdd_referenceWrite table prefix okMessage host writeError r
                newName w) as [H1 H2].
    split; [exact H1|]. intros Hn. destruct (H2 Hn) as [H3 H4].
    split; [exact H3|]. split; [exact (proj1 (trim_trimmed newName)) | exact H4]. }
  destruct kind; apply H.
Qed.

Lemma settings_add_sends_trimmed_name_witness :
  let w := {| app := {| session := None; loading := false;
                        doctors := []; userProfiles := []; surgeries := [];
                        hospitals := []; insurancePlans := [];
                        loggedInProfile := None; isModalOpen := false;
                        surgeryToEdit := None |};
              toasts := []; requests := [] |} in
  let r := {| profileRes := noResponse; doctorsRes := noResponse;
              surgeriesRes := noResponse; hospitalsRes := noResponse;
              plansRes := noResponse; profilesRes := noResponse |} in
  settingsAdd KindHospital utc None r (str "  ") w = (Return (str "  "), w)
  /\ fst (settingsAdd KindPlan utc None r (str " Unimed ") w) = Return [].
Proof.
  intros w r. split.
  - apply (proj1 (settings_add_sends_trimmed_name KindHospital utc None r (str "  ") w)).
    vm_compute. reflexivity.
  - apply (proj2 (settings_add_sends_trimmed_name KindPlan utc None r
                    (str " Unimed ") w)).
    vm_compute. discriminate.
Defined.

(* ================================================================== *)
(** * Date setters, the week grid and the navigation *)
(* ================================================================== *)

Lemma MakeDay_linear (y m d k : Z) : MakeDay y m (d + k) = MakeDay y m d + k.
Proof. unfold MakeDay. cbv zeta. lia. Qed.

Lemma MakeDay_shift (t k : Z) :
  MakeDay (YearFromTime t) (MonthFromTime t) (DateFromTime t + k) = Day t + k.
Proof. rewrite MakeDay_linear, MakeDay_fields. reflexivity. Qed.

Lemma MakeDate_shift (t k : Z) :
  MakeDate (Day t + k) (TimeWithinDay t) = t + k * msPerDay.
Proof. unfold_time. zdiv. Qed.

Lemma TimeWithinDay_range (t : Z) : 0 <= TimeWithinDay t < msPerDay.
Proof. unfold_time. zdiv. Qed.

(** [setDate] by an offset from the date of the month: the wall clock moves
    by that many days. *)
Lemma setDate_local (host : Host) (tv k : Z) :
  wallClockExists host (LocalTime host tv + k * msPerDay) ->
  exists u,
    setDate host (Some tv) (Some (DateFromTime (LocalTime host tv) + k)) = Some u
    /\ LocalTime host u = LocalTime host tv + k * msPerDay.
Proof.
  intros [Hv Hl]. unfold setDate. cbv zeta.
  rewrite MakeDay_shift, MakeDate_shift, (TimeClip_valid _ Hv).
  eexists. split; [reflexivity | exact Hl].
Qed.

Lemma Day_shift (t k : Z) : Day (t + k * msPerDay) = Day t + k.
Proof. unfold_time. zdiv. Qed.

Lemma TimeWithinDay_shift (t k : Z) : TimeWithinDay (t + k * msPerDay) = TimeWithinDay t.
Proof. unfold_time. zdiv. Qed.

Lemma weekGrid_cells (host : Host) (t L sunday : Z) :
  LocalTime host t = L ->
  L - WeekDay L * msPerDay = sunday ->
  (forall i, 0 <= i < 7 -> wallClockExists host (sunday + i * msPerDay)) ->
  exists u0,
    LocalTime host u0 = sunday
    /\ weekGrid host (Some t)
       = map (fun i => setDate host (Some u0)
                         (Some (DateFromTime sunday + Z.of_nat i))) (seq 0 7).
Proof.
  intros HL Hs Hw. unfold weekGrid. cbv zeta.
  unfold getDate, getDay, localField, option_map, numSub. rewrite HL.
  assert (H0 : wallClockExists host (LocalTime host t + (- WeekDay L) * msPerDay)).
  { rewrite HL. replace (L + - WeekDay L * msPerDay) with (sunday + 0 * msPerDay) by lia.
    apply Hw. lia. }
  destruct (setDate_local host t (- WeekDay L) H0) as (u0 & E0 & L0).
  rewrite HL in E0, L0.
  replace (DateFromTime L + - WeekDay L) with (DateFromTime L - WeekDay L) in E0 by lia.
  rewrite E0. exists u0. split; [lia|].
  unfold numAdd. replace (LocalTime host u0) with sunday by lia. reflexivity.
Qed.

(** X14. The week grid has seven cells, one for each day of the week that
    contains the current date, from Sunday to Saturday, each at the time of
    day of the current date; the cell at the week day of the current date
    is its own day. This holds when the seven wall-clock times exist in the
    zone. *)
Theorem weekGrid_week (host : Host) (t : Z) :
  let L := LocalTime host t in
  let sunday := L - WeekDay L * msPerDay in
  (forall i, 0 <= i < 7 -> wallClockExists host (sunday + i * msPerDay)) ->
  List.length (weekGrid host (Some t)) = 7%nat
  /\ forall i : nat, (i < 7)%nat ->
       exists u,
         nth_error (weekGrid host (Some t)) i = Some (Some u)
         /\ LocalTime host u = sunday + Z.of_nat i * msPerDay
         /\ WeekDay (LocalTime host u) = Z.of_nat i
         /\ Day (LocalTime host u) = Day L - WeekDay L + Z.of_nat i
         /\ TimeWithinDay (LocalTime host u) = TimeWithinDay L.
Proof.
  intros L sunday Hw.
  destruct (weekGrid_cells host t L sunday eq_refl eq_refl Hw) as (u0 & L0 & E).
  rewrite E. split; [reflexivity|].
  intros i Hi. rewrite nth_error_map, nth_error_seq.
  destruct (Nat.ltb_spec i 7) as [_|]; [|lia]. cbn [option_map Nat.add].
  assert (Hwi : wallClockExists host (LocalTime host u0 + Z.of_nat i * msPerDay))
    by (rewrite L0; apply Hw; lia).
  destruct (setDate_local host u0 (Z.of_nat i) Hwi) as (u & Eu & Lu).
  rewrite L0 in Eu, Lu. exists u. split; [rewrite Eu; reflexivity|].
  split; [exact Lu|]. rewrite Lu.
  assert (Hday : Day (sunday + Z.of_nat i * msPerDay) = Day L - WeekDay L + Z.of_nat i).
  { rewrite Day_shift. unfold sunday.
    replace (L - WeekDay L * msPerDay) with (L + (- WeekDay L) * msPerDay) by lia.
    rewrite Day_shift. lia. }
  split; [|split; [exact Hday|]].
  - unfold WeekDay at 1. rewrite Hday. unfold WeekDay. zdiv.
  - rewrite TimeWithinDay_shift. unfold sunday.
    replace (L - WeekDay L * msPerDay) with (L + (- WeekDay L) * msPerDay) by lia.
    apply TimeWithinDay_shift.
Qed.

Lemma weekGrid_week_witness :
  (* Wednesday 2024-03-20 10:00 in Brasilia *)
  List.length (weekGrid brasilia (Some 1710939600000)) = 7%nat
  /\ exists u, nth_error (weekGrid brasilia (Some 1710939600000)) 3 = Some (Some u)
               /\ LocalTime brasilia u = LocalTime brasilia 1710939600000.
Proof.
  destruct (weekGrid_week brasilia 1710939600000) as [Hlen Hcells].
  - intros i Hi. apply fixedZone_wallClockExists.
    unfold validTime, maxTime, LocalTime, brasilia, fixedZone, LocalTZA.
    change (WeekDay (1710939600000 + -180 * msPerMinute)) with 3.
    unfold msPerDay, msPerMinute. lia.
  - split; [exact Hlen|].
    destruct (Hcells 3%nat ltac:(lia)) as (u & H1 & H2 & _).
    exists u. split; [exact H1|]. rewrite H2. vm_compute. reflexivity.
Defined.

(** X15. In the week view, Next moves the current date seven days ahead and
    Previous seven days back, at the same time of day, when that wall-clock
    time exists in the zone; and Previous after Next gives back the date it
    started from, when that date is the instant its own wall clock is read
    as. *)
Theorem week_navigation (host : Host) (t : Z) :
  let L := LocalTime host t in
  (wallClockExists host (L + 7 * msPerDay) ->
   exists u, handleNext host WeekView (Some t) = Some u
             /\ LocalTime host u = L + 7 * msPerDay
             /\ (validTime t -> UTC host L = t ->
                 handlePrev host WeekView (Some u) = Some t))
  /\ (wallClockExists host (L - 7 * msPerDay) ->
      exists u, handlePrev host WeekView (Some t) = Some u
                /\ LocalTime host u = L - 7 * msPerDay).
Proof.
  intros L. unfold handleNext, handlePrev. cbv zeta.
  unfold getDate, localField, option_map, numAdd, numSub. split.
  - intros Hw. destruct (setDate_local host t 7 Hw) as (u & Eu & Lu).
    exists u. split; [exact Eu|]. split; [exact Lu|].
    intros Hv Hback. unfold setDate. cbv zeta. rewrite Lu.
    replace (DateFromTime (LocalTime host t + 7 * msPerDay) - 7)
      with (DateFromTime (LocalTime host t + 7 * msPerDay) + (-7)) by lia.
    rewrite MakeDay_shift, MakeDate_shift.
    replace (LocalTime host t + 7 * msPerDay + -7 * msPerDay) with L by (unfold L; lia).
    rewrite Hback. apply TimeClip_valid. exact Hv.
  - intros Hw.
    replace (L - 7 * msPerDay) with (LocalTime host t + (-7) * msPerDay) in Hw
      by (unfold L; lia).
    destruct (setDate_local host t (-7) Hw) as (u & Eu & Lu).
    exists u. split; [|unfold L; lia].
    replace (DateFromTime (LocalTime host t) - 7)
      with (DateFromTime (LocalTime host t) + -7) by lia. exact Eu.
Qed.

Lemma week_navigation_witness :
  exists u, handleNext brasilia WeekView (Some 1710939600000) = Some u
            /\ handlePrev brasilia WeekView (Some u) = Some 1710939600000.
Proof.
  destruct (proj1 (week_navigation brasilia 1710939600000)) as (u & H1 & _ & H3).
  - apply fixedZone_wallClockExists. vm_compute. split; discriminate.
  - exists u. split; [exact H1|]. apply H3.
    + vm_compute. split; discriminate.
    + vm_compute. reflexivity.
Defined.

Lemma MakeDay_normalize (y m d : Z) :
  MakeDay y m d = MakeDay (y + m / 12) (m mod 12) d.
Proof.
  unfold MakeDay.
  replace (m mod 12 / 12) with 0 by zdiv.
  replace ((m mod 12) mod 12) with (m mod 12) by zdiv.
  rewrite Z.add_0_r. reflexivity.
Qed.

Lemma MakeDay_overflow (y m d : Z) :
  0 <= m <= 10 -> MakeDay y m d = MakeDay y (m + 1) (d - DaysInMonth y m).
Proof.
  intros Hm.
  replace (d - DaysInMonth y m) with (0 + (d - DaysInMonth y m)) by lia.
  rewrite MakeDay_linear, MakeDay_date_zero by lia.
  replace d with (DaysInMonth y m + (d - DaysInMonth y m)) at 1 by lia.
  apply MakeDay_linear.
Qed.

Lemma setMonth_local (host : Host) (tv m : Z) :
  let L := LocalTime host tv in
  wallClockExists host
    (MakeDate (MakeDay (YearFromTime L) m (DateFromTime L)) (TimeWithinDay L)) ->
  exists u,
    setMonth host (Some tv) (Some m) = Some u
    /\ LocalTime host u
       = MakeDate (MakeDay (YearFromTime L) m (DateFromTime L)) (TimeWithinDay L).
Proof.
  intros L [Hv Hl]. unfold setMonth. cbv zeta. fold L.
  rewrite (TimeClip_valid _ Hv). eexists. split; [reflexivity | exact Hl].
Qed.

(** The fields of a wall clock built from a year, a month and a date that
    may run past the end of the month. *)
Lemma month_fields (y m d x : Z) :
  0 <= m <= 11 -> 1 <= d <= 31 ->
  Day x = MakeDay y m d ->
  (d <= DaysInMonth y m ->
   YearFromTime x = y /\ MonthFromTime x = m /\ DateFromTime x = d)
  /\ (DaysInMonth y m < d ->
      YearFromTime x = y /\ MonthFromTime x = m + 1
      /\ DateFromTime x = d - DaysInMonth y m).
Proof.
  intros Hm Hd Hx. split; intros Hdim.
  - apply fields_of_MakeDay; [exact Hm | lia | exact Hx].
  - assert (Hm' : 0 <= m <= 10).
    { destruct (Z.eq_dec m 11) as [-> | ]; [|lia].
      change (DaysInMonth y 11) with 31 in Hdim. lia. }
    pose proof (DaysInMonth_range y m). pose proof (DaysInMonth_range y (m + 1)).
    apply fields_of_MakeDay; [lia | lia |].
    rewrite Hx. apply MakeDay_overflow. exact Hm'.
Qed.

Lemma month_step_fields (host : Host) (t L y m d step y' m' : Z) :
  LocalTime host t = L ->
  YearFromTime L = y -> MonthFromTime L = m -> DateFromTime L = d ->
  y + (m + step) / 12 = y' -> (m + step) mod 12 = m' ->
  wallClockExists host (MakeDate (MakeDay y (m + step) d) (TimeWithinDay L)) ->
  exists u,
    setMonth host (Some t) (Some (m + step)) = Some u
    /\ TimeWithinDay (LocalTime host u) = TimeWithinDay L
    /\ (d <= DaysInMonth y' m' ->
        YearFromTime (LocalTime host u) = y' /\ MonthFromTime (LocalTime host u) = m'
        /\ DateFromTime (LocalTime host u) = d)
    /\ (DaysInMonth y' m' < d ->
        YearFromTime (LocalTime host u) = y'
        /\ MonthFromTime (LocalTime host u) = m' + 1
        /\ DateFromTime (LocalTime host u) = d - DaysInMonth y' m').
Proof.
  intros HL Hy Hm Hd Hy' Hm' Hw.
  destruct (setMonth_local host t (m + step)) as (u & Eu & Lu).
  { cbv zeta. rewrite HL, Hy, Hd. exact Hw. }
  cbv zeta in Lu. rewrite HL, Hy, Hd in Lu.
  exists u. split; [exact Eu|].
  pose proof (TimeWithinDay_range L) as Hr.
  pose proof (DateFromTime_range L) as Rd. rewrite Hd in Rd.
  pose proof (DaysInMonth_range (YearFromTime L) (MonthFromTime L)) as Rdim.
  split.
  - rewrite Lu. unfold MakeDate, TimeWithinDay, msPerDay in *. zdiv.
  - apply month_fields.
    + subst m'. zdiv.
    + lia.
    + rewrite Lu, Day_MakeDate by exact Hr.
      rewrite MakeDay_normalize, Hy', Hm'. reflexivity.
Qed.

(** X16. In the month view, Next and Previous show the month after and the
    month before: the current date moves to the same day of the month and
    the same time of day in that month, with December followed by January
    of the next year and January preceded by December of the year before.
    When that month is too short for the day, the date runs over into the
    month that follows it by the days that are missing: from 31 January,
    Next leads to the first days of March, and from 31 March, Previous
    leads to the first days of March again. This holds when the wall-clock
    time asked for exists in the zone. *)
Theorem month_navigation (host : Host) (forward : bool) (t : Z) :
  let L := LocalTime host t in
  let y := YearFromTime L in
  let m := MonthFromTime L in
  let d := DateFromTime L in
  let step := if forward then 1 else -1 in
  let y' := y + (m + step) / 12 in
  let m' := (m + step) mod 12 in
  wallClockExists host (MakeDate (MakeDay y (m + step) d) (TimeWithinDay L)) ->
  exists u,
    (if forward then handleNext else handlePrev) host MonthView (Some t) = Some u
    /\ TimeWithinDay (LocalTime host u) = TimeWithinDay L
    /\ (d <= DaysInMonth y' m' ->
        getFullYear host (Some u) = Some y' /\ getMonth host (Some u) = Some m'
        /\ getDate host (Some u) = Some d)
    /\ (DaysInMonth y' m' < d ->
        getFullYear host (Some u) = Some y'
        /\ getMonth host (Some u) = Some (m' + 1)
        /\ getDate host (Some u) = Some (d - DaysInMonth y' m')).
Proof.
  intros L y m d step y' m' Hw.
  destruct (month_step_fields host t L y m d step y' m'
              eq_refl eq_refl eq_refl eq_refl eq_refl eq_refl Hw)
    as (u & Eu & Ht & Hfit & Hover).
  exists u. split.
  - rewrite <- Eu. unfold step. destruct forward; reflexivity.
  - split; [exact Ht|].
    unfold getFullYear, getMonth, getDate, localField, option_map.
    split; intros H.
    + destruct (Hfit H) as (-> & -> & ->). repeat split.
    + destruct (Hover H) as (-> & -> & ->). repeat split.
Qed.

Lemma month_navigation_witness :
  (* from 31 March 2024, 10:00 in Brasilia, Previous leads to 2 March *)
  exists u, handlePrev brasilia MonthView (Some 1711890000000) = Some u
            /\ getMonth brasilia (Some u) = Some 2
            /\ getDate brasilia (Some u) = Some 2.
Proof.
  destruct (month_navigation brasilia false 1711890000000) as (u & H1 & _ & _ & H4).
  - apply fixedZone_wallClockExists. vm_compute. split; discriminate.
  - exists u. split; [exact H1|].
    destruct H4 as (_ & H5 & H6); [vm_compute; reflexivity|].
    split; [exact H5 | exact H6].
Defined.

(* ================================================================== *)
(** * The surgeries of a day, in the order shown *)
(* ================================================================== *)

Lemma insertSorted_perm (A : Type) (compare : A -> A -> option Z) (x : A) (l : list A) :
  Permutation (insertSorted compare x l) (x :: l).
Proof.
  induction l as [|y l IH]; [reflexivity|]. cbn [insertSorted].
  destruct (compare x y) as [v|]; [|reflexivity].
  destruct (0 <? v); [|reflexivity].
  rewrite IH. apply perm_swap.
Qed.

Lemma sortWith_perm (A : Type) (compare : A -> A -> option Z) (l : list A) :
  Permutation (sortWith compare l) l.
Proof.
  induction l as [|x l IH]; [reflexivity|]. cbn [sortWith].
  rewrite insertSorted_perm. constructor. exact IH.
Qed.

Lemma notLater_trans (host : Host) (a b c : Surgery) :
  notLater host a b -> notLater host b c -> notLater host a c.
Proof.
  intros (ta & tb & Ha & Hb & Hab) (tb' & tc & Hb' & Hc & Hbc).
  exists ta, tc. repeat split; try assumption. rewrite Hb in Hb'.
  injection Hb' as <-. lia.
Qed.

Lemma insertSorted_sorted (host : Host) (x : Surgery) (l : list Surgery) :
  newDateString host (dateTime x) <> None ->
  Forall (fun s => newDateString host (dateTime s) <> None) l ->
  StronglySorted (notLater host) l ->
  StronglySorted (notLater host) (insertSorted (byTime host) x l).
Proof.
  intros Hx Hl Hs. induction Hs as [|y l Hs IH Hy].
  - cbn [insertSorted]. repeat constructor.
  - apply Forall_cons_iff in Hl. destruct Hl as [Hyv Hl].
    cbn [insertSorted]. unfold byTime at 1, getTime, numSub.
    destruct (newDateString host (dateTime x)) as [tx|] eqn:Ex; [|congruence].
    destruct (newDateString host (dateTime y)) as [ty|] eqn:Ey; [|congruence].
    destruct (Z.ltb_spec 0 (tx - ty)) as [Hlt | Hge].
    + constructor; [apply IH; exact Hl|].
      apply Forall_forall. intros z Hz.
      apply (Permutation_in _ (insertSorted_perm _ _ _ _)) in Hz.
      destruct Hz as [<- | Hz].
      * exists ty, tx. repeat split; [exact Ey | exact Ex | lia].
      * exact (proj1 (Forall_forall _ _) Hy z Hz).
    + assert (Hxy : notLater host x y)
        by (exists tx, ty; repeat split; [exact Ex | exact Ey | lia]).
      constructor; [constructor; assumption|].
      constructor; [exact Hxy|].
      apply Forall_forall. intros z Hz.
      apply (notLater_trans host x y z Hxy).
      exact (proj1 (Forall_forall _ _) Hy z Hz).
Qed.

Lemma insertSorted_stable (host : Host) (ts : Z) (x : Surgery) (l : list Surgery) :
  filter (startsAt host ts) (insertSorted (byTime host) x l)
  = filter (startsAt host ts) (x :: l).
Proof.
  induction l as [|y l IH]; [reflexivity|].
  cbn [insertSorted]. unfold byTime at 1, getTime, numSub.
  destruct (newDateString host (dateTime x)) as [tx|] eqn:Ex; [|reflexivity].
  destruct (newDateString host (dateTime y)) as [ty|] eqn:Ey; [|reflexivity].
  destruct (Z.ltb_spec 0 (tx - ty)) as [Hlt | Hge]; [|reflexivity].
  cbn [filter] in *. rewrite IH.
  unfold startsAt, getTime, numEq. rewrite Ex, Ey.
  destruct (Z.eqb_spec tx ts), (Z.eqb_spec ty ts); try reflexivity. lia.
Qed.

(** The list the three views show: the same surgeries, the earlier first,
    and surgeries at the same instant in the order they had. *)
Lemma sortWith_byTime (host : Host) (l : list Surgery) :
  Permutation (sortWith (byTime host) l) l
  /\ (Forall (fun s => newDateString host (dateTime s) <> None) l ->
      StronglySorted (notLater host) (sortWith (byTime host) l))
  /\ (forall ts, filter (startsAt host ts) (sortWith (byTime host) l)
                 = filter (startsAt host ts) l).
Proof.
  split; [apply sortWith_perm|]. split.
  - induction 1 as [|x l Hx Hl IH]; [constructor|].
    cbn [sortWith]. apply insertSorted_sorted; [exact Hx | | exact IH].
    apply Forall_forall. intros z Hz.
    apply (Permutation_in _ (sortWith_perm _ _ _)) in Hz.
    exact (proj1 (Forall_forall _ _) Hl z Hz).
  - intros ts. induction l as [|x l IH]; [reflexivity|].
    cbn [sortWith]. rewrite insertSorted_stable. cbn [filter]. rewrite IH. reflexivity.
Qed.

(** The test of a day cell holds exactly for two dates of the same local
    calendar day. *)
Lemma sameDate_spec (host : Host) (a b : Z) :
  sameDate host (Some a) (Some b) = true <-> sameLocalDay host a b.
Proof.
  unfold sameDate, sameLocalDay, getFullYear, getMonth, getDate, localField, option_map,
    numEq.
  rewrite !andb_true_iff, !Z.eqb_eq. split.
  - intros [[HY HM] HD].
    rewrite <- (MakeDay_fields (LocalTime host a)), <- (MakeDay_fields (LocalTime host b)).
    rewrite HY, HM, HD. reflexivity.
  - intros H. destruct (same_day_fields _ _ H) as (HY & HM & HD & _). auto.
Qed.

Lemma sameDate_invalid (host : Host) (a b : Date) :
  a = None \/ b = None -> sameDate host a b = false.
Proof.
  intros [-> | ->]; unfold sameDate; cbn.
  - reflexivity.
  - destruct a; reflexivity.
Qed.

Lemma daySurgeries_In (host : Host) (l : list Surgery) (d : Z) (s : Surgery) :
  In s (daySurgeries host l (Some (Some d))) <-> In s l /\ onLocalDay host d s.
Proof.
  unfold daySurgeries, onLocalDay. rewrite filter_In.
  destruct (newDateString host (dateTime s)) as [ts|].
  - rewrite sameDate_spec. split.
    + intros [H1 H2]. split; [exact H1 | exists ts; auto].
    + intros [H1 (ts' & E & H2)]. injection E as <-. auto.
  - rewrite sameDate_invalid by auto. split.
    + intros [_ H]. discriminate.
    + intros [_ (ts & E & _)]. discriminate.
Qed.

(** X17. A day cell of the grid shows the filtered surgeries whose date is
    on the local calendar day of the cell, each once, the earlier first;
    surgeries at the same instant keep the order of the list. A surgery
    whose date cannot be read is in no cell. *)
Theorem day_cell_surgeries (host : Host) (filteredSurgeries : list Surgery) (d : Z) :
  let cell := sortedDaySurgeries host filteredSurgeries (Some (Some d)) in
  (forall s, In s cell <-> In s filteredSurgeries /\ onLocalDay host d s)
  /\ Permutation cell (daySurgeries host filteredSurgeries (Some (Some d)))
  /\ StronglySorted (notLater host) cell
  /\ (forall ts, filter (startsAt host ts) cell
                 = filter (startsAt host ts)
                          (daySurgeries host filteredSurgeries (Some (Some d)))).
Proof.
  intros cell. subst cell. unfold sortedDaySurgeries.
  destruct (sortWith_byTime host (daySurgeries host filteredSurgeries (Some (Some d))))
    as (Hp & Hs & Hst).
  split; [|split; [exact Hp | split; [|exact Hst]]].
  - intros s. rewrite <- daySurgeries_In. split; apply Permutation_in.
    + exact Hp.
    + symmetry. exact Hp.
  - apply Hs. apply Forall_forall. intros s Hs'.
    apply daySurgeries_In in Hs'. destruct Hs' as [_ (ts & E & _)]. congruence.
Qed.

Lemma today_date (host : Host) (now : Z) :
  landsOnDay host (MakeDate (Day (LocalTime host now)) 0) ->
  exists u, setHours host (Some now) 0 0 0 0 = Some u /\ sameLocalDay host u now.
Proof.
  intros [Hv Hd]. unfold setHours. change (MakeTime 0 0 0 0) with 0.
  rewrite (TimeClip_valid _ Hv). eexists. split; [reflexivity|].
  unfold sameLocalDay. rewrite Hd. apply Day_MakeDate. unfold msPerDay. lia.
Qed.

(** X18. The dashboard lists under today the surgeries whose date is on
    the local calendar day of the current instant, in the order of the
    list, and shows them the earlier first. This holds when midnight of
    today lands on today in the zone. *)
Theorem surgeriesToday_same_day (host : Host) (now : Z) (surgeries : list Surgery) :
  landsOnDay host (MakeDate (Day (LocalTime host now)) 0) ->
  surgeriesToday host now surgeries = daySurgeries host surgeries (Some (Some now))
  /\ (forall s, In s (surgeriesToday host now surgeries)
                <-> In s surgeries /\ onLocalDay host now s)
  /\ StronglySorted (notLater host)
       (sortWith (byTime host) (surgeriesToday host now surgeries)).
Proof.
  intros Hland. destruct (today_date host now Hland) as (u & Eu & Hu).
  assert (E : surgeriesToday host now surgeries
              = daySurgeries host surgeries (Some (Some now))).
  { unfold surgeriesToday, daySurgeries. cbv zeta. rewrite Eu.
    apply filter_ext. intros s. unfold sameDate.
    unfold sameLocalDay in Hu. destruct (same_day_fields _ _ Hu) as (HY & HM & HD & _).
    unfold getFullYear, getMonth, getDate, localField, option_map.
    rewrite HY, HM, HD. reflexivity. }
  split; [exact E|]. rewrite E. split; [intros s; apply daySurgeries_In|].
  apply sortWith_byTime. apply Forall_forall. intros s Hs.
  apply daySurgeries_In in Hs. destruct Hs as [_ (ts & Es & _)]. congruence.
Qed.

Lemma surgeriesToday_same_day_witness :
  let s := sampleSurgery (str "2024-03-20T10:00") Agendada 0%float in
  surgeriesToday brasilia 1710939600000 [s]
  = daySurgeries brasilia [s] (Some (Some 1710939600000)).
Proof.
  refine (proj1 (surgeriesToday_same_day brasilia 1710939600000
                   [sampleSurgery (str "2024-03-20T10:00") Agendada 0%float] _)).
  split; [split; vm_compute; discriminate | vm_compute; reflexivity].
Defined.

(* ================================================================== *)
(** * Numbers and dates as text *)
(* ================================================================== *)

Lemma pad_length (k : nat) (n : Z) : List.length (pad k n) = k.
Proof. induction k as [|k IH]; [reflexivity|]. cbn [pad List.length]. rewrite IH. reflexivity. Qed.

Lemma pad_value (k : nat) (n : Z) :
  0 <= n < 10 ^ Z.of_nat k -> digits k 0 (pad k n) = Some (n, []).
Proof.
  intros H. rewrite <- (app_nil_r (pad k n)). apply digits_pad_small. exact H.
Qed.

Lemma pad_leading_zeros (j k : nat) (n : Z) :
  0 <= n < 10 ^ Z.of_nat k -> repeat 48%N j ++ pad k n = pad (j + k) n.
Proof.
  intros H. induction j as [|j IH]; [reflexivity|].
  cbn [repeat Nat.add]. rewrite pad_head, <- app_comm_cons, IH. f_equal.
  assert (Hle : 10 ^ Z.of_nat k <= 10 ^ Z.of_nat (j + k))
    by (apply Z.pow_le_mono_r; lia).
  rewrite Z.div_small by lia. reflexivity.
Qed.

Lemma numDigitsFuel_spec (fuel : nat) (n : Z) :
  0 <= n < 2 ^ Z.of_nat (S fuel) ->
  (1 <= numDigitsFuel fuel n)%nat
  /\ n < 10 ^ Z.of_nat (numDigitsFuel fuel n)
  /\ (numDigitsFuel fuel n = 1%nat
      \/ 10 ^ (Z.of_nat (numDigitsFuel fuel n) - 1) <= n).
Proof.
  revert n. induction fuel as [|fuel IH]; intros n Hn.
  - cbn [numDigitsFuel]. change (2 ^ Z.of_nat 1) with 2 in Hn.
    change (10 ^ Z.of_nat 1) with 10. split; [lia|]. split; [lia | left; reflexivity].
  - cbn [numDigitsFuel]. destruct (Z.ltb_spec n 10) as [Hlt | Hge].
    + change (10 ^ Z.of_nat 1) with 10. split; [lia|]. split; [lia | left; reflexivity].
    + assert (Hn' : 0 <= n / 10 < 2 ^ Z.of_nat (S fuel)).
      { replace (Z.of_nat (S (S fuel))) with (Z.succ (Z.of_nat (S fuel))) in Hn by lia.
        rewrite Z.pow_succ_r in Hn by lia. zdiv. }
      destruct (IH (n / 10) Hn') as (H1 & H2 & H3).
      set (k := numDigitsFuel fuel (n / 10)) in *.
      replace (Z.of_nat (S k)) with (Z.succ (Z.of_nat k)) by lia.
      rewrite Z.pow_succ_r by lia.
      split; [lia|]. split; [zdiv|]. right.
      replace (Z.succ (Z.of_nat k) - 1) with (Z.of_nat k) by lia.
      destruct H3 as [H3 | H3].
      * rewrite H3. change (10 ^ Z.of_nat 1) with 10. exact Hge.
      * replace (Z.of_nat k) with (Z.succ (Z.of_nat k - 1)) by lia.
        rewrite Z.pow_succ_r by lia. zdiv.
Qed.

Lemma numDigits_spec (n : Z) :
  0 <= n ->
  (1 <= numDigits n)%nat
  /\ n < 10 ^ Z.of_nat (numDigits n)
  /\ (numDigits n = 1%nat \/ 10 ^ (Z.of_nat (numDigits n) - 1) <= n).
Proof.
  intros Hn. unfold numDigits. apply numDigitsFuel_spec.
  destruct (Z.eq_dec n 0) as [-> | Hne]; [cbn; lia|].
  destruct (Z.log2_spec n) as [_ H]; [lia|].
  rewrite Nat2Z.inj_succ, Z2Nat.id by apply Z.log2_nonneg. lia.
Qed.

(** The digits of a number, padded to at least [k] places. *)
Lemma padStart_decimal (k : nat) (n : Z) :
  0 <= n -> padStart k 48%N (decimal n) = pad (Nat.max k (numDigits n)) n.
Proof.
  intros Hn. unfold padStart, decimal. rewrite pad_length.
  destruct (numDigits_spec n Hn) as (_ & H & _).
  rewrite pad_leading_zeros by lia. f_equal. lia.
Qed.

Lemma pad_inj (k k' : nat) (a b : Z) :
  0 <= a < 10 ^ Z.of_nat k -> 0 <= b < 10 ^ Z.of_nat k' ->
  pad k a = pad k' b -> a = b.
Proof.
  intros Ha Hb E.
  assert (Hk : k = k') by (rewrite <- (pad_length k a), E; apply pad_length).
  subst k'. pose proof (pad_value k a Ha) as Va. rewrite E, (pad_value k b Hb) in Va.
  congruence.
Qed.

Lemma pow10_mono (k k' : nat) : (k <= k')%nat -> 10 ^ Z.of_nat k <= 10 ^ Z.of_nat k'.
Proof. intros H. apply Z.pow_le_mono_r; lia. Qed.

Lemma yearText_inj (a b : Z) : yearText a = yearText b -> a = b.
Proof.
  unfold yearText.
  assert (Hd : forall k n, exists c r, pad (S k) n = c :: r /\ c <> 45%N).
  { intros k n. rewrite pad_head. eexists _, _. split; [reflexivity|].
    unfold digitChar. assert (0 <= (n / 10 ^ Z.of_nat k) mod 10 < 10)
      by (apply Z.mod_pos_bound; lia). lia. }
  assert (Hmax : forall n, exists j, Nat.max 4 (numDigits n) = S j)
    by (intros n; exists (Nat.pred (Nat.max 4 (numDigits n))); lia).
  assert (Hlt : forall n, 0 <= n -> n < 10 ^ Z.of_nat (Nat.max 4 (numDigits n))).
  { intros n Hn. destruct (numDigits_spec n Hn) as (_ & H & _).
    pose proof (pow10_mono (numDigits n) (Nat.max 4 (numDigits n))). lia. }
  destruct (Z.ltb_spec a 0) as [Ha | Ha], (Z.ltb_spec b 0) as [Hb | Hb];
    rewrite !padStart_decimal by lia; intros E.
  - injection E as E. apply pad_inj in E; [lia | split; [lia | apply Hlt; lia] ..].
  - exfalso. destruct (Hmax b) as [j Hj]. rewrite Hj in E.
    destruct (Hd j b) as (c & r & Ec & Hc). rewrite Ec in E. congruence.
  - exfalso. destruct (Hmax a) as [j Hj]. rewrite Hj in E.
    destruct (Hd j a) as (c & r & Ec & Hc). rewrite Ec in E. congruence.
  - apply pad_inj in E; [exact E | split; [lia | apply Hlt; lia] ..].
Qed.

Lemma WeekDay_range (t : Z) : 0 <= WeekDay t <= 6.
Proof. unfold WeekDay. zdiv. Qed.

Lemma dayName_chars (w : Z) :
  0 <= w <= 6 -> exists a b c, dayName w = [a; b; c] /\ a <> 73%N.
Proof.
  intros H.
  assert (C : w = 0 \/ w = 1 \/ w = 2 \/ w = 3 \/ w = 4 \/ w = 5 \/ w = 6) by lia.
  destruct C as [-> | [-> | [-> | [-> | [-> | [-> | ->]]]]]];
    eexists _, _, _; (split; [reflexivity | discriminate]).
Qed.

Lemma monthName_chars (m : Z) : exists a b c, monthName m = [a; b; c].
Proof.
  unfold monthName.
  repeat match goal with
         | |- context [match ?x with _ => _ end] => destruct x
         end; eexists _, _, _; reflexivity.
Qed.

Lemma monthName_inj (a b : Z) :
  0 <= a <= 11 -> 0 <= b <= 11 -> monthName a = monthName b -> a = b.
Proof.
  intros Ha Hb.
  assert (Ca : a = 0 \/ a = 1 \/ a = 2 \/ a = 3 \/ a = 4 \/ a = 5 \/ a = 6 \/ a = 7
               \/ a = 8 \/ a = 9 \/ a = 10 \/ a = 11) by lia.
  assert (Cb : b = 0 \/ b = 1 \/ b = 2 \/ b = 3 \/ b = 4 \/ b = 5 \/ b = 6 \/ b = 7
               \/ b = 8 \/ b = 9 \/ b = 10 \/ b = 11) by lia.
  clear Ha Hb.
  repeat (destruct Ca as [-> | Ca]); try subst a;
    repeat (destruct Cb as [-> | Cb]); try subst b;
    intros E; solve [reflexivity | discriminate E].
Qed.

(** Two valid dates have the same date text exactly when they are on the
    same local calendar day, and no valid date has the text of the Invalid
    Date. *)
Lemma toDateString_same_day (host : Host) (a b : Z) :
  toDateString host (Some a) = toDateString host (Some b) <-> sameLocalDay host a b.
Proof.
  unfold toDateString, sameLocalDay. cbv zeta.
  set (x := LocalTime host a). set (y := LocalTime host b). split.
  - intros E.
    destruct (dayName_chars _ (WeekDay_range x)) as (a1 & a2 & a3 & Ea & _).
    destruct (dayName_chars _ (WeekDay_range y)) as (b1 & b2 & b3 & Eb & _).
    destruct (monthName_chars (MonthFromTime x)) as (c1 & c2 & c3 & Ec).
    destruct (monthName_chars (MonthFromTime y)) as (d1 & d2 & d3 & Ed).
    rewrite Ea, Eb, Ec, Ed in E. cbn [app pad] in E.
    injection E as _ _ _ E1 E2 E3 E4 E5 E6.
    assert (HM : MonthFromTime x = MonthFromTime y).
    { apply monthName_inj; [apply MonthFromTime_range .. |]. congruence. }
    assert (HD : DateFromTime x = DateFromTime y).
    { pose proof (DateFromTime_range x) as Rx. pose proof (DateFromTime_range y) as Ry.
      pose proof (DaysInMonth_range (YearFromTime x) (MonthFromTime x)).
      pose proof (DaysInMonth_range (YearFromTime y) (MonthFromTime y)).
      apply (pad_inj 2 2); [change (10 ^ Z.of_nat 2) with 100; lia .. |].
      exact (f_equal2 (fun p q => [p; q]) E4 E5). }
    assert (HY : YearFromTime x = YearFromTime y) by (apply yearText_inj; exact E6).
    rewrite <- (MakeDay_fields x), <- (MakeDay_fields y), HY, HM, HD. reflexivity.
  - intros H. destruct (same_day_fields _ _ H) as (-> & -> & -> & ->). reflexivity.
Qed.

Lemma toDateString_valid (host : Host) (a : Z) :
  toDateString host (Some a) <> toDateString host None.
Proof.
  unfold toDateString. cbv zeta.
  destruct (dayName_chars _ (WeekDay_range (LocalTime host a))) as (c1 & c2 & c3 & E & H).
  rewrite E. cbn [app]. intros E'. apply H. injection E' as E' _. exact E'.
Qed.

Lemma filter_comm (A : Type) (p q : A -> bool) (l : list A) :
  filter p (filter q l) = filter q (filter p l).
Proof.
  induction l as [|x l IH]; [reflexivity|]. cbn [filter].
  destruct (q x) eqn:Q, (p x) eqn:P; cbn [filter]; rewrite ?Q, ?P, IH; reflexivity.
Qed.

(** X19. The panel of a day selects its surgeries by comparing date texts.
    For a valid date this is the test of the grid: the panel lists the
    surgeries of the whole list that are on the local calendar day
    selected, so a cell shows the surgeries of its panel that pass the
    filters of the calendar. With no date selected the list is empty, and
    the Invalid Date selects the surgeries whose date cannot be read. *)
Theorem surgeriesForSelectedDay_same_day (host : Host) (surgeries : list Surgery) :
  (forall d,
     surgeriesForSelectedDay host (Some (Some d)) surgeries
     = daySurgeries host surgeries (Some (Some d))
     /\ (forall s, In s (surgeriesForSelectedDay host (Some (Some d)) surgeries)
                   <-> In s surgeries /\ onLocalDay host d s)
     /\ (forall doctorFilter advancedFilters,
           daySurgeries host (filteredSurgeries surgeries doctorFilter advancedFilters)
                        (Some (Some d))
           = filteredSurgeries (surgeriesForSelectedDay host (Some (Some d)) surgeries)
                               doctorFilter advancedFilters))
  /\ surgeriesForSelectedDay host None surgeries = []
  /\ surgeriesForSelectedDay host (Some None) surgeries
     = filter (fun s => match newDateString host (dateTime s) with
                        | None => true
                        | Some _ => false
                        end) surgeries.
Proof.
  assert (E : forall d, surgeriesForSelectedDay host (Some (Some d)) surgeries
                        = daySurgeries host surgeries (Some (Some d))).
  { intros d. unfold surgeriesForSelectedDay, daySurgeries.
    apply filter_ext. intros s.
    destruct (newDateString host (dateTime s)) as [ts|].
    - destruct (sameDate host (Some ts) (Some d)) eqn:Hs.
      + apply eqb_eq, toDateString_same_day, sameDate_spec. exact Hs.
      + apply eqb_neq. intros H. apply toDateString_same_day, sameDate_spec in H.
        congruence.
    - rewrite sameDate_invalid by auto. apply eqb_neq.
      intros H. symmetry in H. exact (toDateString_valid host d H). }
  split; [|split; [reflexivity|]].
  - intros d. split; [apply E|]. split.
    + intros s. rewrite E. apply daySurgeries_In.
    + intros doctorFilter advancedFilters. rewrite E.
      unfold daySurgeries, filteredSurgeries. apply filter_comm.
  - unfold surgeriesForSelectedDay. apply filter_ext. intros s.
    destruct (newDateString host (dateTime s)) as [ts|].
    + apply eqb_neq. apply toDateString_valid.
    + apply eqb_refl.
Qed.

(* ================================================================== *)
(** * The date of the form *)
(* ================================================================== *)

Lemma parseYear_pad4 (y : Z) (rest : jsstring) :
  0 <= y <= 9999 -> parseYear (pad 4 y ++ rest) = Some (y, rest).
Proof.
  intros H. pose proof (parseYear_isoYear y rest) as P. unfold isoYear in P.
  rewrite (proj2 (Z.leb_le 0 y)), (proj2 (Z.leb_le y 9999)) in P by lia.
  apply P. lia.
Qed.

Lemma parseMonthDay_date_only (m d : Z) :
  0 <= m < 100 -> 0 <= d < 100 ->
  parseMonthDay (45%N :: pad 2 m ++ 45%N :: pad 2 d) = Some (m, d, []).
Proof.
  intros Hm Hd. cbn [parseMonthDay N.eqb Pos.eqb].
  rewrite digits_pad_small by (simpl; lia). cbn [N.eqb Pos.eqb].
  rewrite pad_value by (simpl; lia). reflexivity.
Qed.

Lemma parseTime_minutes (h mi : Z) :
  0 <= h < 100 -> 0 <= mi < 100 ->
  parseTime (84%N :: pad 2 h ++ 58%N :: pad 2 mi) = Some (h, mi, 0, 0, []).
Proof.
  intros Hh Hmi. cbn [parseTime N.eqb Pos.eqb].
  rewrite digits_pad_small by (simpl; lia). cbn [N.eqb Pos.eqb].
  rewrite pad_value by (simpl; lia). reflexivity.
Qed.

(** A date input is read as the midnight that begins its day in UTC. *)
Lemma parse_isoDate (host : Host) (y m d : Z) :
  0 <= y <= 9999 -> 1 <= m <= 12 -> 1 <= d <= 31 ->
  parse host (isoDate y m d) = TimeClip (MakeDate (MakeDay y (m - 1) d) 0).
Proof.
  intros Hy Hm Hd. unfold parse, parseFormat, isoDate.
  rewrite parseYear_pad4 by lia. rewrite parseMonthDay_date_only by lia.
  unfold inBounds, fieldsTime. cbn [iso_year iso_month iso_day iso_time iso_offset].
  rewrite !(proj2 (Z.leb_le _ _)) by lia. reflexivity.
Qed.

(** A date-and-time input is read as local time. *)
Lemma parse_localDateTimeText (host : Host) (y m d h mi : Z) :
  0 <= y <= 9999 -> 1 <= m <= 12 -> 1 <= d <= 31 -> 0 <= h <= 23 -> 0 <= mi <= 59 ->
  parse host (localDateTimeText y m d h mi)
  = TimeClip (UTC host (MakeDate (MakeDay y (m - 1) d) (MakeTime h mi 0 0))).
Proof.
  intros Hy Hm Hd Hh Hmi. unfold parse, parseFormat, localDateTimeText, isoDate.
  rewrite <- !app_assoc, <- !app_comm_cons, <- !app_assoc, <- !app_comm_cons.
  rewrite parseYear_pad4 by lia. rewrite parseMonthDay_iso by lia.
  rewrite parseTime_minutes by lia.
  unfold inBounds, fieldsTime. cbn [parseOffset iso_year iso_month iso_day iso_time iso_offset].
  rewrite !(proj2 (Z.leb_le _ _)) by lia. reflexivity.
Qed.

Lemma numDigits_four (y : Z) : 1000 <= y <= 9999 -> numDigits y = 4%nat.
Proof.
  intros H. destruct (numDigits_spec y ltac:(lia)) as (H1 & H2 & H3).
  destruct (Nat.lt_total (numDigits y) 4) as [Hlt | [E | Hgt]]; [| exact E |].
  - pose proof (pow10_mono (numDigits y) 3 ltac:(lia)) as P.
    change (10 ^ Z.of_nat 3) with 1000 in P. lia.
  - destruct H3 as [H3 | H3]; [lia|].
    pose proof (pow10_mono 4 (Nat.pred (numDigits y)) ltac:(lia)) as P.
    change (10 ^ Z.of_nat 4) with 10000 in P.
    replace (Z.of_nat (Nat.pred (numDigits y))) with (Z.of_nat (numDigits y) - 1) in P
      by lia. lia.
Qed.

Lemma padStart_two (n : Z) : 0 <= n < 100 -> padStart 2 48%N (decimal n) = pad 2 n.
Proof.
  intros H. rewrite padStart_decimal by lia. f_equal.
  destruct (numDigits_spec n ltac:(lia)) as (H1 & H2 & H3).
  destruct (Nat.le_gt_cases (numDigits n) 2) as [Hle | Hgt]; [lia|].
  destruct H3 as [H3 | H3]; [lia|].
  pose proof (pow10_mono 2 (Nat.pred (numDigits n)) ltac:(lia)) as P.
  change (10 ^ Z.of_nat 2) with 100 in P.
  replace (Z.of_nat (Nat.pred (numDigits n))) with (Z.of_nat (numDigits n) - 1) in P
    by lia. lia.
Qed.

Lemma defaultDateTime_text (host : Host) (t : Z) :
  let L := LocalTime host t in
  1000 <= YearFromTime L <= 9999 ->
  defaultDateTime host (Some t)
  = localDateTimeText (YearFromTime L) (MonthFromTime L + 1) (DateFromTime L) 10 0.
Proof.
  intros L Hy.
  pose proof (MonthFromTime_range L) as Hm.
  pose proof (DateFromTime_range L) as Hd.
  pose proof (DaysInMonth_range (YearFromTime L) (MonthFromTime L)) as Hdim.
  unfold defaultDateTime, getFullYear, getMonth, getDate, localField, option_map,
    numAdd, numberToString. fold L.
  destruct (Z.ltb_spec (YearFromTime L) 0); [lia|].
  destruct (Z.ltb_spec (MonthFromTime L + 1) 0); [lia|].
  destruct (Z.ltb_spec (DateFromTime L) 0); [lia|].
  rewrite !padStart_two by lia. unfold decimal. rewrite numDigits_four by lia.
  unfold localDateTimeText, isoDate.
  rewrite <- !app_assoc, <- !app_comm_cons, <- !app_assoc, <- !app_comm_cons.
  reflexivity.
Qed.

(** X20. A new surgery form opens on ten o'clock, local time, of the day
    it was opened for: for a day in the years 1000 to 9999 the date field
    is the text YYYY-MM-DDT10:00 of that local day, and it is read back as
    the instant of that wall-clock time, which is on the same local day, at
    hour 10 and minute 0, when the time exists in the zone. *)
Theorem createInitialState_ten_local (host : Host) (t : Z) (doctors : list Doctor)
    (hospitals : list Hospital) (insurancePlans : list InsurancePlan) :
  let L := LocalTime host t in
  let form := createInitialState host (Some t) doctors hospitals insurancePlans in
  1000 <= YearFromTime L <= 9999 ->
  dateTime form
  = localDateTimeText (YearFromTime L) (MonthFromTime L + 1) (DateFromTime L) 10 0
  /\ newDateString host (dateTime form)
     = TimeClip (UTC host (MakeDate (Day L) (MakeTime 10 0 0 0)))
  /\ (wallClockExists host (MakeDate (Day L) (MakeTime 10 0 0 0)) ->
      exists u, newDateString host (dateTime form) = Some u
                /\ sameLocalDay host u t
                /\ getHours host (Some u) = Some 10
                /\ getMinutes host (Some u) = Some 0).
Proof.
  intros L form Hy. subst form. cbn [createInitialState dateTime].
  pose proof (MonthFromTime_range L) as Hm.
  pose proof (DateFromTime_range L) as Hd.
  pose proof (DaysInMonth_range (YearFromTime L) (MonthFromTime L)) as Hdim.
  assert (E : newDateString host (defaultDateTime host (Some t))
              = TimeClip (UTC host (MakeDate (Day L) (MakeTime 10 0 0 0)))).
  { unfold newDateString. rewrite (defaultDateTime_text host t Hy). fold L.
    rewrite parse_localDateTimeText by lia.
    replace (MonthFromTime L + 1 - 1) with (MonthFromTime L) by lia.
    rewrite MakeDay_fields. reflexivity. }
  split; [exact (defaultDateTime_text host t Hy)|]. split; [exact E|].
  intros [Hv Hl]. rewrite E, (TimeClip_valid _ Hv). eexists. split; [reflexivity|].
  unfold sameLocalDay, getHours, getMinutes, localField, option_map. rewrite Hl.
  destruct (fields_of_MakeDate (Day L) 10 0 0 0) as (H1 & H2 & H3 & _); try lia.
  cbv zeta in *. fold L. rewrite H1, H2, H3. repeat split.
Qed.

Lemma createInitialState_ten_local_witness :
  (* opened for 20 March 2024 in Brasilia *)
  dateTime (createInitialState brasilia (Some 1710903600000) [] [] [])
  = str "2024-03-20T10:00".
Proof.
  refine (eq_trans (proj1 (createInitialState_ten_local brasilia 1710903600000 [] [] [] _))
                   _).
  - vm_compute. split; discriminate.
  - vm_compute. reflexivity.
Defined.

Lemma slice_short (s : jsstring) :
  (List.length s <= 16)%nat -> slice 0 16 s = s.
Proof. intros H. unfold slice. cbn [skipn Nat.sub]. apply firstn_all2. exact H. Qed.

Lemma slice_isoString (t : Z) :
  0 <= YearFromTime t <= 9999 ->
  slice 0 16 (isoString t)
  = localDateTimeText (YearFromTime t) (MonthFromTime t + 1) (DateFromTime t)
                      (HourFromTime t) (MinFromTime t).
Proof.
  intros Hy. unfold isoString, isoYear, localDateTimeText, isoDate, slice.
  rewrite (proj2 (Z.leb_le 0 _)), (proj2 (Z.leb_le _ 9999)) by lia.
  cbn [andb skipn Nat.sub].
  rewrite !pad_head. cbn [pad app firstn]. reflexivity.
Qed.

Lemma whole_minute (t : Z) :
  MakeDate (Day t) (MakeTime (HourFromTime t) (MinFromTime t) 0 0) = t - t mod msPerMinute.
Proof. unfold_time. zdiv. Qed.

(** X21. The form opens an existing surgery on the first sixteen code
    units of its stored date. A date as the form wrote it, YYYY-MM-DDTHH:mm
    or shorter, is shown as it is and the surgery opens unchanged. A date
    in the UTC form that a reschedule writes is cut down to its UTC date,
    hour and minute, and that text is read as local time: the date of the
    form is the instant whose local wall clock shows what the UTC clock
    showed, which is the stored instant moved by the offset of the zone
    (and without its seconds). *)
Theorem formattedData_date (host : Host) (surgeryToEdit : Surgery) :
  ((List.length (dateTime surgeryToEdit) <= 16)%nat ->
   formattedData surgeryToEdit = surgeryToEdit)
  /\ (forall t, validTime t -> 0 <= YearFromTime t <= 9999 ->
        dateTime surgeryToEdit = isoString t ->
        dateTime (formattedData surgeryToEdit)
        = localDateTimeText (YearFromTime t) (MonthFromTime t + 1) (DateFromTime t)
                            (HourFromTime t) (MinFromTime t)
        /\ newDateString host (dateTime (formattedData surgeryToEdit))
           = TimeClip (UTC host (t - t mod msPerMinute))).
Proof.
  unfold formattedData. split.
  - intros H. rewrite (slice_short _ H).
    destruct surgeryToEdit as [? ? ? ? dt ? ? ? ? ? ? ?]. cbn [dateTime withDateTime].
    destruct dt; reflexivity.
  - intros t Hv Hy E. cbn [dateTime withDateTime]. rewrite E.
    assert (Ht : truthy (isoString t) = true).
    { unfold isoString, isoYear.
      destruct ((0 <=? YearFromTime t) && (YearFromTime t <=? 9999));
        [rewrite pad_head; reflexivity|].
      destruct (YearFromTime t <? 0); reflexivity. }
    rewrite Ht, (slice_isoString t Hy). split; [reflexivity|].
    pose proof (MonthFromTime_range t) as Hm.
    pose proof (DateFromTime_range t) as Hd.
    pose proof (DaysInMonth_range (YearFromTime t) (MonthFromTime t)) as Hdim.
    pose proof (time_fields_range t) as (Hh & Hmi & _).
    unfold newDateString. rewrite parse_localDateTimeText by lia.
    replace (MonthFromTime t + 1 - 1) with (MonthFromTime t) by lia.
    rewrite MakeDay_fields, whole_minute. reflexivity.
Qed.

Lemma formattedData_date_witness :
  (* 10:00 in Brasilia, stored as 13:00 UTC, opens as 13:00 and is read as
     16:00 UTC *)
  let s := sampleSurgery (str "2024-03-20T13:00:00.000Z") Agendada 0%float in
  newDateString brasilia (dateTime s) = Some 1710939600000
  /\ newDateString brasilia (dateTime (formattedData s)) = Some 1710950400000.
Proof.
  intros s. split; [vm_compute; reflexivity|].
  refine (eq_trans (proj2 (proj2 (formattedData_date brasilia s) 1710939600000 _ _ _)) _).
  - vm_compute. split; discriminate.
  - vm_compute. split; discriminate.
  - vm_compute. reflexivity.
  - vm_compute. reflexivity.
Defined.

(* ================================================================== *)
(** * Reschedules in a row *)
(* ================================================================== *)

(** X22. The day a surgery is dropped on decides its new date alone:
    dropping it on a day and from there on a second day gives the timestamp
    that dropping it on the second day at once gives, and dropping it again
    on the day it is on changes nothing more. This holds when the times
    asked for exist in the zone and no target year is from 0 to 99. *)
Theorem reschedule_path_independent (host : Host) (surgery : Surgery)
    (told ta tb : Z) :
  newDateString host (dateTime surgery) = Some told ->
  ~ (0 <= YearFromTime (LocalTime host ta) <= 99) ->
  ~ (0 <= YearFromTime (LocalTime host tb) <= 99) ->
  wallClockExists host (droppedWallClock host told ta) ->
  validTime (UTC host (droppedWallClock host told tb)) ->
  exists first direct,
    rescheduleTimestamp host surgery (Some ta) = Return first
    /\ rescheduleTimestamp host surgery (Some tb) = Return direct
    /\ rescheduleTimestamp host (withDateTime first surgery) (Some tb) = Return direct
    /\ rescheduleTimestamp host (withDateTime first surgery) (Some ta) = Return first.
Proof.
  intros Hold Hya Hyb [Hva Hla] Hvb.
  exists (isoString (UTC host (droppedWallClock host told ta))),
         (isoString (UTC host (droppedWallClock host told tb))).
  split; [apply rescheduleTimestamp_value; assumption|].
  split; [apply rescheduleTimestamp_value; assumption|].
  assert (Hnew : newDateString host
                   (dateTime (withDateTime
                                (isoString (UTC host (droppedWallClock host told ta)))
                                surgery))
                 = Some (UTC host (droppedWallClock host told ta))).
  { cbn [dateTime withDateTime]. apply parse_isoString. exact Hva. }
  assert (Hsame : forall tc,
            droppedWallClock host (UTC host (droppedWallClock host told ta)) tc
            = droppedWallClock host told tc).
  { intros tc. unfold droppedWallClock at 1 3. rewrite Hla.
    pose proof (time_fields_range (LocalTime host told)) as (Hh & Hmi & _).
    destruct (fields_of_MakeDate (Day (LocalTime host ta))
                (HourFromTime (LocalTime host told))
                (MinFromTime (LocalTime host told)) 0 0 Hh Hmi)
      as (_ & H2 & H3 & _); try lia.
    cbv zeta in H2, H3. unfold droppedWallClock. rewrite H2, H3. reflexivity. }
  split.
  - rewrite <- (Hsame tb).
    apply rescheduleTimestamp_value; [exact Hnew | exact Hyb | rewrite Hsame; exact Hvb].
  - rewrite <- (Hsame ta) at 2.
    apply rescheduleTimestamp_value; [exact Hnew | exact Hya | rewrite Hsame; exact Hva].
Qed.

Lemma reschedule_path_independent_witness :
  let s := sampleSurgery (str "2024-03-15T10:00") Agendada 0%float in
  exists first direct,
    rescheduleTimestamp brasilia s (Some 1710903600000) = Return first
    /\ rescheduleTimestamp brasilia s (Some 1711076400000) = Return direct
    /\ rescheduleTimestamp brasilia (withDateTime first s) (Some 1711076400000)
       = Return direct
    /\ rescheduleTimestamp brasilia (withDateTime first s) (Some 1710903600000)
       = Return first.
Proof.
  apply (reschedule_path_independent brasilia
           (sampleSurgery (str "2024-03-15T10:00") Agendada 0%float)
           1710507600000 1710903600000 1711076400000).
  - vm_compute. reflexivity.
  - vm_compute. intros [_ H]. apply H. reflexivity.
  - vm_compute. intros [_ H]. apply H. reflexivity.
  - apply fixedZone_wallClockExists. vm_compute. split; discriminate.
  - vm_compute. split; discriminate.
Defined.

(* ================================================================== *)
(** * The date range of the reports *)
(* ================================================================== *)

Lemma reportKeeps_anyDate (host : Host) (doctor : jsstring) (s : Surgery) :
  reportKeeps host (anyDate doctor) s = true <-> passesDoctor doctor s.
Proof.
  unfold reportKeeps, anyDate. cbn [startDate endDate doctorId truthy andb].
  unfold passesDoctor, arrayIncludes. cbn [existsb].
  destruct (eqb doctor all) eqn:Ea; cbn [negb andb].
  - apply eqb_eq in Ea. split; [intros _ H; contradiction | reflexivity].
  - apply eqb_neq in Ea.
    destruct (eqb (mainSurgeonId s) doctor) eqn:Em; cbn [orb negb].
    + apply eqb_eq in Em. split; [intros _ _; left; congruence | reflexivity].
    + apply eqb_neq in Em.
      destruct (existsb (fun y => eqb y doctor) (participatingIds s)) eqn:Ep;
        cbn [negb].
      * split; [intros _ _; right; apply arrayIncludes_In; exact Ep | reflexivity].
      * split; [discriminate|]. intros H. destruct (H Ea) as [H1 | H1]; [congruence|].
        apply arrayIncludes_In in H1. unfold arrayIncludes in H1. congruence.
Qed.

(** X23. The report keeps every surgery when no date and no doctor is
    chosen. A surgery whose date cannot be read is never left out by a date
    range: it is kept exactly when it passes the doctor filter, which asks
    for the doctor as main surgeon or among the participants. *)
Theorem report_filter_edges (host : Host) :
  (forall surgeries, reportFilteredSurgeries host (anyDate all) surgeries = surgeries)
  /\ (forall filters s,
        newDateString host (dateTime s) = None ->
        reportKeeps host filters s = reportKeeps host (anyDate (doctorId filters)) s)
  /\ (forall doctor s,
        reportKeeps host (anyDate doctor) s = true <-> passesDoctor doctor s).
Proof.
  split; [|split].
  - intros surgeries. unfold reportFilteredSurgeries.
    induction surgeries as [|s l IH]; [reflexivity|]. cbn [filter].
    rewrite (proj2 (reportKeeps_anyDate host all s)) by (intros H; congruence).
    rewrite IH. reflexivity.
  - intros filters s H. unfold reportKeeps, anyDate. rewrite H.
    cbn [startDate endDate doctorId truthy andb numLt numGt].
    rewrite andb_false_r.
    destruct (setHours host (newDateString host (endDate filters)) 23 59 59 999);
      cbn [numLt]; rewrite andb_false_r; reflexivity.
  - intros doctor s. apply reportKeeps_anyDate.
Qed.

Lemma report_filter_edges_witness :
  let s := sampleSurgery (str "amanha") Agendada 0%float in
  reportKeeps brasilia {| startDate := str "2024-01-01"; endDate := str "2024-01-31";
                          doctorId := str "d1" |} s
  = reportKeeps brasilia (anyDate (str "d1")) s.
Proof.
  apply (proj1 (proj2 (report_filter_edges brasilia))). vm_compute. reflexivity.
Defined.

(** X24. The start of the report range is the midnight that begins the
    start date in UTC, whatever the zone of the user: with a start date
    only, a surgery with a readable date is kept exactly when it is not
    before that instant. West of UTC this lets in the surgeries of the last
    hours of the local day before. *)
Theorem report_start_bound_utc (host : Host) (y m d ts : Z) (s : Surgery) :
  0 <= y <= 9999 -> 1 <= m <= 12 -> 1 <= d <= 31 ->
  validTime (MakeDate (MakeDay y (m - 1) d) 0) ->
  newDateString host (dateTime s) = Some ts ->
  reportKeeps host {| startDate := isoDate y m d; endDate := []; doctorId := all |} s
  = (MakeDate (MakeDay y (m - 1) d) 0 <=? ts).
Proof.
  intros Hy Hm Hd Hv Hs. unfold reportKeeps.
  cbn [startDate endDate doctorId truthy andb]. rewrite Hs.
  unfold newDateString at 1. rewrite (parse_isoDate host y m d Hy Hm Hd).
  rewrite (TimeClip_valid _ Hv).
  assert (Ht : truthy (isoDate y m d) = true)
    by (unfold isoDate; rewrite pad_head; reflexivity).
  rewrite Ht. cbn [andb numLt]. change (eqb all all) with true. cbn [negb andb].
  rewrite Z.leb_antisym. destruct (ts <? MakeDate (MakeDay y (m - 1) d) 0); reflexivity.
Qed.

Lemma report_start_bound_utc_witness :
  (* 22:00 on 29 February in Brasilia, with the start date 1 March *)
  reportKeeps brasilia {| startDate := str "2024-03-01"; endDate := []; doctorId := all |}
              (sampleSurgery (str "2024-02-29T22:00") Agendada 0%float)
  = true.
Proof.
  refine (eq_trans (report_start_bound_utc brasilia 2024 3 1 1709254800000
                      (sampleSurgery (str "2024-02-29T22:00") Agendada 0%float)
                      _ _ _ _ _) _).
  - lia.
  - lia.
  - lia.
  - vm_compute. split; discriminate.
  - vm_compute. reflexivity.
  - vm_compute. reflexivity.
Defined.

(* ================================================================== *)
(** * The screen after a reload, and the cell after a drop *)
(* ================================================================== *)

(** X25. After a reload that fails the application shows the login view.
    After one that succeeds, for a user with a session, it shows the screen
    of the current view: the dashboard, the calendar, the reports and the
    settings each for its own view, and for the administration view the
    administration screen when the profile row of the user in the store
    says administrator and the refusal when it does not. The administration
    screen is never shown without a logged-in profile that is an
    administrator. *)
Theorem screen_after_reload (host : Host) (r : ReloadResponses) (s : Session)
    (w : World) (currentView : View) :
  let st' := app (snd (fetchData host r s w)) in
  (~ reloadSucceeds r -> appScreen st' currentView = LoginScreen)
  /\ (reloadSucceeds r -> session (app w) <> None ->
      exists p,
        data (profileRes r) = Some p
        /\ appScreen st' currentView
           = match currentView with
             | ViewDashboard => DashboardScreen
             | ViewAgenda => CalendarScreen
             | ViewRelatorios => ReportsScreen
             | ViewCadastros => SettingsScreen
             | ViewAdmin => if r_is_admin p then AdminScreen else AccessDenied
             end)
  /\ (forall st, appScreen st currentView = AdminScreen ->
        exists profile, loggedInProfile st = Some profile /\ u_is_admin profile = true).
Proof.
  intros st'. subst st'.
  destruct (fetchData_pinned host r s w) as (_ & _ & _ & Hl & _ & _ & H).
  cbv zeta in Hl, H.
  pose proof (reloadError_succeeds host r) as Hiff.
  split; [|split].
  - intros Hno. destruct (reloadError host r) as [e|].
    + destruct H as (Hs & _). unfold appScreen. rewrite Hs. reflexivity.
    + elim Hno. apply Hiff. reflexivity.
  - intros Hok Hsess. apply Hiff in Hok. rewrite Hok in H.
    destruct H as (Hs & p & n & rows & Hp & _ & _ & Hprof & _).
    exists p. split; [exact Hp|].
    unfold appScreen, renderContent. rewrite Hs, Hprof, Hl.
    destruct (session (app w)); [|congruence].
    destruct currentView; reflexivity.
  - intros st. unfold appScreen, renderContent.
    destruct (session st), (loggedInProfile st) as [profile|], (loading st);
      try discriminate.
    destruct currentView; try discriminate.
    destruct (u_is_admin profile) eqn:E; [|discriminate]. eauto.
Qed.

(** A reload that succeeds for a user who is no administrator, with the
    administration as the current view. *)
Lemma screen_after_reload_witness :
  let w := {| app := {| session := Some {| user_id := str "u1" |}; loading := true;
                        doctors := []; userProfiles := []; surgeries := [];
                        hospitals := []; insurancePlans := [];
                        loggedInProfile := None; isModalOpen := false;
                        surgeryToEdit := None |};
              toasts := []; requests := [] |} in
  let r := {| profileRes :=
                {| data := Some {| r_id := str "u1"; r_doctor_id := str "d1";
                                   r_is_admin := false; r_doctor := Some (str "Ana") |};
                   error := None |};
              doctorsRes := {| data := Some []; error := None |};
              surgeriesRes := {| data := Some []; error := None |};
              hospitalsRes := {| data := Some []; error := None |};
              plansRes := {| data := Some []; error := None |};
              profilesRes := {| data := Some []; error := None |} |} in
  exists p,
    data (profileRes r) = Some p
    /\ appScreen (app (snd (fetchData utc r {| user_id := str "u1" |} w))) ViewAdmin
       = if r_is_admin p then AdminScreen else AccessDenied.
Proof.
  intros w r.
  refine (proj1 (proj2 (screen_after_reload utc r {| user_id := str "u1" |} w
                          ViewAdmin)) _ _).
  - unfold reloadSucceeds. cbn.
    repeat split; try reflexivity; [eexists _, _; split; reflexivity|].
    exists []. split; [reflexivity | constructor].
  - discriminate.
Defined.

(** X26. A surgery that was dropped on a day shows, with its new date, in
    the cell of that day and in no cell of another day, even when the time
    of day asked for does not exist there: it is enough that the time lands
    on the day. *)
Theorem dropped_surgery_shows_in_cell (host : Host) (surgery : Surgery)
    (told tnew : Z) :
  newDateString host (dateTime surgery) = Some told ->
  ~ (0 <= YearFromTime (LocalTime host tnew) <= 99) ->
  landsOnDay host (droppedWallClock host told tnew) ->
  exists newDateTime,
    rescheduleTimestamp host surgery (Some tnew) = Return newDateTime
    /\ onLocalDay host tnew (withDateTime newDateTime surgery)
    /\ forall (filteredSurgeries : list Surgery) (d : Z),
         In (withDateTime newDateTime surgery)
            (daySurgeries host filteredSurgeries (Some (Some d)))
         <-> In (withDateTime newDateTime surgery) filteredSurgeries
             /\ sameLocalDay host tnew d.
Proof.
  intros Hold Hy [Hv Hd].
  exists (isoString (UTC host (droppedWallClock host told tnew))).
  split; [apply rescheduleTimestamp_value; assumption|].
  assert (Hnew : newDateString host
                   (dateTime (withDateTime
                                (isoString (UTC host (droppedWallClock host told tnew)))
                                surgery))
                 = Some (UTC host (droppedWallClock host told tnew))).
  { cbn [dateTime withDateTime]. apply parse_isoString. exact Hv. }
  assert (Hday : sameLocalDay host (UTC host (droppedWallClock host told tnew)) tnew).
  { unfold sameLocalDay. rewrite Hd. unfold droppedWallClock.
    apply Day_MakeDate.
    pose proof (time_fields_range (LocalTime host told)) as (Hh & Hmi & _).
    apply MakeTime_range; lia. }
  split; [eexists; split; [exact Hnew | exact Hday]|].
  intros l d. rewrite daySurgeries_In. unfold onLocalDay, sameLocalDay in *.
  split.
  - intros [Hin (ts & Ets & Hts)]. rewrite Hnew in Ets. injection Ets as <-.
    split; [exact Hin | congruence].
  - intros [Hin Hs]. split; [exact Hin|]. eexists. split; [exact Hnew | congruence].
Qed.

Lemma dropped_surgery_shows_in_cell_witness :
  (* 02:30 dropped on 10 March 2024, US Eastern time: the hour does not
     exist that day *)
  let s := sampleSurgery (str "2024-03-05T02:30") Agendada 0%float in
  exists newDateTime,
    rescheduleTimestamp easternSpring2024 s (Some 1710046800000) = Return newDateTime
    /\ onLocalDay easternSpring2024 1710046800000 (withDateTime newDateTime s).
Proof.
  intros s.
  destruct (dropped_surgery_shows_in_cell easternSpring2024 s
              1709623800000 1710046800000) as (newDateTime & H1 & H2 & _).
  - vm_compute. reflexivity.
  - vm_compute. intros [_ H]. apply H. reflexivity.
  - lands_on_day.
  - exists newDateTime. split; [exact H1 | exact H2].
Defined.

(** What every operation that has a write leaves at run time, whether the
    store accepts the write or not. *)
Lemma perform_requests (host : Host) (op : Operation) (writeError : option JsError)
    (out : Outside) (w : World) (q : Request) :
  writeSent host op w q ->
  let w' := world (snd (perform host op writeError out w)) in
  fst (perform host op writeError out w) = Return tt
  /\ (exists rest, requests w' = requests w ++ q :: rest /\ Forall reloadRequest rest)
  /\ (surgeries (app w') = surgeries (app w)
      \/ exists k, surgeries (app w') = dataOrEmpty (surgeriesRes (answers out k))).
Proof.
  intros Hq. cbv zeta. destruct writeError as [e|].
  - rewrite (perform_failed_write host op e (answers out 0%nat) out w q Hq).
    rewrite (run_failed_write host op e _ w q Hq). cbn [fst snd].
    split; [reflexivity|].
    destruct (session (app w)) as [s|]; cbn [world].
    + match goal with
      | |- context [fetchData host ?r s ?w0] =>
          destruct (fetchData_pinned host r s w0) as (_ & H2 & _ & _ & _ & _ & H)
      end.
      cbv zeta in H2, H. cbn [requests app] in H2, H. split.
      * exists (reloadReads (user_id s) (answers out 0%nat)).
        split; [rewrite H2, <- app_assoc; reflexivity | apply reloadReads_requests].
      * destruct (reloadError host (answers out 0%nat)).
        -- destruct H as (_ & _ & _ & [H | H]); [left; exact H | right; eauto].
        -- destruct H as (_ & p & n & rows & _ & _ & _ & _ & _ & H & _).
           right. eauto.
    + split; [exists []; split; [reflexivity | constructor] | left; reflexivity].
  - destruct (perform_succeeded host op out w q Hq) as (rt & -> & _ & Hr & Hs & _).
    cbn [fst snd]. split; [reflexivity|]. split; assumption.
Qed.

(* ================================================================== *)
(** * Failures of the mutating operations *)
(* ================================================================== *)




(* ================================================================== *)
(** * The reschedule at run time *)
(* ================================================================== *)

(** C1, amended. For a surgery whose [dateTime] parses to a date and a
    target date whose local year is not one of 0 to 99, when the wall-clock
    time made of the target's day and the original hour and minute exists in
    the local zone, the drop produces a timestamp that reads back with the
    hour and minute of the original [dateTime] and the year, month and day of
    the target. The surgery record is not mutated: the handler sends the
    timestamp as the first request of the operation, only requests of a
    reload follow it, and the surgeries in memory are afterwards what they
    were or what the store answered to a reload, whether the store accepts
    the write or not. *)
Theorem reschedule_keeps_time_of_day :
  forall (host : Host) (surgery : Surgery) (told tnew : Z),
    newDateString host (dateTime surgery) = Some told ->
    ~ (0 <= YearFromTime (LocalTime host tnew) <= 99) ->
    wallClockExists host (droppedWallClock host told tnew) ->
    exists newDateTime : jsstring,
      rescheduleTimestamp host surgery (Some tnew) = Return newDateTime
      /\ (let result := newDateString host newDateTime in
          getHours host result = getHours host (newDateString host (dateTime surgery))
          /\ getMinutes host result
             = getMinutes host (newDateString host (dateTime surgery))
          /\ getFullYear host result = getFullYear host (Some tnew)
          /\ getMonth host result = getMonth host (Some tnew)
          /\ getDate host result = getDate host (Some tnew))
      /\ (forall (updateError : option JsError) (out : Outside) (surgeryId : jsstring)
                 (w : World),
             find (fun s => eqb (id s) surgeryId) (surgeries (app w)) = Some surgery ->
             let w' := world (snd (perform host (DropSurgery surgeryId (Some tnew))
                                     updateError out w)) in
             (exists rest,
                requests w'
                = requests w ++ UpdateDateTime surgeryId newDateTime :: rest
                /\ Forall reloadRequest rest)
             /\ (surgeries (app w') = surgeries (app w)
                 \/ exists k,
                      surgeries (app w')
                      = dataOrEmpty (surgeriesRes (answers out k)))).
Proof.
  intros host surgery told tnew Hold Hy [Hv Hx].
  exists (isoString (UTC host (droppedWallClock host told tnew))).
  pose proof (rescheduleTimestamp_value host surgery told tnew Hold Hy Hv) as Hts.
  split; [exact Hts |]. split.
  - cbv zeta. rewrite Hold. unfold newDateString.
    rewrite (parse_isoString host _ Hv).
    unfold getHours, getMinutes, getFullYear, getMonth, getDate, localField, option_map.
    rewrite Hx.
    pose proof (time_fields_range (LocalTime host told)) as (Hh & Hmi & _ & _).
    destruct (fields_of_MakeDate (Day (LocalTime host tnew))
                (HourFromTime (LocalTime host told))
                (MinFromTime (LocalTime host told)) 0 0 Hh Hmi ltac:(lia) ltac:(lia))
      as (ED & EH & EM & _).
    fold (droppedWallClock host told tnew) in ED, EH, EM.
    destruct (same_day_fields _ _ ED) as (EY & EMo & EDa & _).
    rewrite EH, EM, EY, EMo, EDa. repeat split.
  - intros updateError out surgeryId w Hfind.
    refine (proj2 (perform_requests host (DropSurgery surgeryId (Some tnew)) updateError
                     out w _ _)).
    cbn [writeSent]. eauto.
Qed.

(** The scenario of the specification, in Brasilia: 2024-03-15T10:00 dropped
    onto 20 March 2024 gives the instant of 2024-03-20T10:00 local time. *)
Lemma reschedule_keeps_time_of_day_witness :
  let s := sampleSurgery (str "2024-03-15T10:00") Agendada 0%float in
  let target := newDateYMD brasilia (Some 2024) (Some 2) (Some 20) in
  rescheduleTimestamp brasilia s target = Return (str "2024-03-20T13:00:00.000Z")
  /\ newDateString brasilia (str "2024-03-20T13:00:00.000Z")
     = newDateString brasilia (str "2024-03-20T10:00")
  /\ getHours brasilia (newDateString brasilia (str "2024-03-20T13:00:00.000Z"))
     = Some 10.
Proof.
  intros s target.
  assert (Hold : newDateString brasilia (dateTime s) = Some 1710507600000)
    by (vm_compute; reflexivity).
  assert (Hy : ~ (0 <= YearFromTime (LocalTime brasilia 1710903600000) <= 99))
    by (vm_compute; intros [_ H]; apply H; reflexivity).
  assert (Hw : wallClockExists brasilia
                 (droppedWallClock brasilia 1710507600000 1710903600000))
    by lands_on_day.
  destruct (reschedule_keeps_time_of_day brasilia s 1710507600000 1710903600000
              Hold Hy Hw) as (iso & Ets & (Hh & _) & _).
  change (Some 1710903600000) with target in Ets.
  assert (Eiso : iso = str "2024-03-20T13:00:00.000Z").
  { assert (E : rescheduleTimestamp brasilia s target
                = Return (str "2024-03-20T13:00:00.000Z"))
      by (vm_compute; reflexivity).
    rewrite E in Ets. inversion Ets. reflexivity. }
  subst iso. split; [exact Ets | split].
  - vm_compute. reflexivity.
  - rewrite Hh. vm_compute. reflexivity.
Defined.
